(** * UBC mesh and model readers ([PVGPpy/read/ubc.py])

    A shallow embedding of the readers of the UBC 2D mesh, 3D mesh, OcTree and
    model text formats, and of [placeModelOnMesh], which reorders a flat model
    array into the cell order of the grid.

    Conventions of the embedding:
    - a Python exception is a value of [pyerr]; code that can raise lives in
      the monad [result];
    - Python floats are IEEE binary64 numbers: Rocq's primitive [float];
    - Python integers are [Z]; list positions that are known to be
      non-negative are [nat]; an array of [dtype=int] holds 64-bit integers
      and its sum wraps around ([wrap_int64]);
    - a reader works on [fileLines], the rows that
      [np.genfromtxt(FileName, dtype=str, delimiter='\n', comments='!')]
      reads from the text file; of a single row NumPy makes an array without
      an axis ([rows_getitem]);
    - NumPy and the built-in [int]/[float] conversions are not part of this
      repository: the conversions from text to numbers are the fields of the
      class [TextNumerics], and every theorem holds for all of its instances;
    - a NumPy array is a buffer seen through a shape and strides, so that
      [np.swapaxes] is the view it is in NumPy and [flatten] the copy. *)

From Stdlib Require Import ZArith String Ascii List Floats Lia Permutation.
From stdpp Require Import base option list sets strings pretty sorting.

Local Open Scope nat_scope.

(* ================================================================== *)
(** ** Exceptions *)

Inductive pyerr : Type :=
  | IndexError
  | ValueError
  | ZeroDivisionError
  | Exception (msg : string).

Inductive result (A : Type) : Type :=
  | Ok (a : A)
  | Raise (e : pyerr).
Arguments Ok {A} a.
Arguments Raise {A} e.

#[global] Instance result_ret : MRet result := λ A a, Ok a.
#[global] Instance result_bind : MBind result := λ A B f m,
  match m with Ok a => f a | Raise e => Raise e end.

(** [o] or, when there is none, the exception [e]. *)
Definition or_raise {A} (e : pyerr) (o : option A) : result A :=
  match o with Some a => Ok a | None => Raise e end.

(** [r] does not raise an [Exception] with a message: it returns, or raises
    one of the built-in errors. *)
Definition builtin_only {A} (r : result A) : Prop :=
  ∀ msg, r ≠ Raise (Exception msg).

(** [for x in xs: s = body(x, s)] with the loop state passed along. *)
Fixpoint for_each {A S} (xs : list A) (body : A → S → result S) (s : S)
  : result S :=
  match xs with
  | [] => Ok s
  | x :: xs' => s' ← body x s; for_each xs' body s'
  end.

(* ================================================================== *)
(** ** Python sequences and strings *)

(** [l[i]] for [i >= 0]. *)
Definition getitem {A} (l : list A) (i : nat) : result A :=
  or_raise IndexError (l !! i).

(** [l[i]] for an integer [i]: a negative index counts from the end. *)
Definition getitem_Z {A} (l : list A) (i : Z) : result A :=
  if decide (0 ≤ i)%Z then getitem l (Z.to_nat i)
  else if decide (0 ≤ Z.of_nat (length l) + i)%Z
       then getitem l (Z.to_nat (Z.of_nat (length l) + i))
       else Raise IndexError.

(** [l[i] = x] for [i >= 0]. *)
Definition setitem {A} (l : list A) (i : nat) (x : A) : result (list A) :=
  if decide (i < length l) then Ok (<[i:=x]> l) else Raise IndexError.

(** [del l[i]] for [i >= 0]. *)
Definition delitem {A} (l : list A) (i : nat) : result (list A) :=
  if decide (i < length l) then Ok (delete i l) else Raise IndexError.

(** [l.insert(i, x)] for [i >= 0]: past the end it appends. *)
Definition list_insert_at {A} (l : list A) (i : nat) (x : A) : list A :=
  take i l ++ x :: drop i l.

(** [l[a:b]] for [0 <= a <= b]. *)
Definition slice {A} (l : list A) (a b : nat) : list A :=
  take (b - a) (drop a l).

(** [range(n)] and [range(a, b)]. *)
Definition range (n : nat) : list nat := seq 0 n.
Definition range_Z (a b : Z) : list Z :=
  (λ k, a + Z.of_nat k)%Z <$> seq 0 (Z.to_nat (b - a)).

(** [c in s]. *)
Fixpoint str_contains (c : ascii) (s : string) : bool :=
  match s with
  | EmptyString => false
  | String c' s' => if Ascii.eqb c' c then true else str_contains c s'
  end.

(** [s.split(sep)] for a one-character separator: never empty. *)
Fixpoint str_split_from (sep : ascii) (s cur : string) : list string :=
  match s with
  | EmptyString => [cur]
  | String c s' =>
      if Ascii.eqb c sep then cur :: str_split_from sep s' EmptyString
      else str_split_from sep s' (cur +:+ String c EmptyString)
  end.
Definition str_split (sep : ascii) (s : string) : list string :=
  str_split_from sep s EmptyString.

(** The ASCII characters [str.split()] treats as white space. *)
Definition is_space (c : ascii) : bool :=
  let n := nat_of_ascii c in
  ((9 <=? n) && (n <=? 13)) || ((28 <=? n) && (n <=? 32)).

(** [s.split()]: the maximal runs of characters that are not white space. *)
Fixpoint str_words_from (s cur : string) : list string :=
  match s with
  | EmptyString => if decide (cur = EmptyString) then [] else [cur]
  | String c s' =>
      if is_space c
      then (if decide (cur = EmptyString) then [] else [cur])
             ++ str_words_from s' EmptyString
      else str_words_from s' (cur +:+ String c EmptyString)
  end.
Definition str_words (s : string) : list string :=
  str_words_from s EmptyString.

(** [line.split('!')[0]]: the line without its trailing comment. *)
Definition before_comment (line : string) : result string :=
  getitem (str_split "!" line) 0.

(** [line.split('!')[0].split()]. *)
Definition tokens (line : string) : result (list string) :=
  s ← before_comment line; Ok (str_words s).

(* ================================================================== *)
(** ** Floats *)

#[global] Instance float_inhabited : Inhabited float := populate 0%float.

(** The float a Python integer converts to in mixed arithmetic (round to
    nearest even; exact below 2^53). *)
Definition float_of_int (z : Z) : float :=
  SF2Prim (binary_normalize prec emax z 0 false).

(** [x / n] for a float [x] and an integer [n]. *)
Definition float_div_int (x : float) (n : Z) : result float :=
  if decide (n = 0)%Z then Raise ZeroDivisionError
  else Ok (PrimFloat.div x (float_of_int n)).

(* ================================================================== *)
(** ** NumPy arrays: a buffer, a shape and strides *)

Record ndarray (A : Type) : Type := NDArray {
  buf : list A;
  shape : list nat;
  strides : list nat
}.
Arguments NDArray {A} buf shape strides.
Arguments buf {A} _.
Arguments shape {A} _.
Arguments strides {A} _.

Definition size_of (shp : list nat) : nat := foldr Nat.mul 1 shp.

(** Strides of a C-contiguous array: the last axis varies fastest. *)
Fixpoint c_strides (shp : list nat) : list nat :=
  match shp with
  | [] => []
  | _ :: rest => size_of rest :: c_strides rest
  end.

(** [np.reshape(l, shp)] of a flat array, at a call where the length was
    checked against the product of [shp]: NumPy's inference of one [-1]
    entry never applies there, and a negative entry raises. *)
Definition np_reshape {A} (l : list A) (shp : list Z) : result (ndarray A) :=
  if forallb (λ d, 0 <=? d)%Z shp
  then let shp' := Z.to_nat <$> shp in
       if decide (size_of shp' = length l)
       then Ok (NDArray l shp' (c_strides shp'))
       else Raise ValueError
  else Raise ValueError.

Definition swap_items {B} (l : list B) (i j : nat) : option (list B) :=
  x ← l !! i; y ← l !! j; Some (<[i:=y]> (<[j:=x]> l)).

(** [np.swapaxes(a, i, j)]: the same buffer, two axes exchanged. *)
Definition np_swapaxes {A} (a : ndarray A) (i j : nat) : result (ndarray A) :=
  match swap_items (shape a) i j, swap_items (strides a) i j with
  | Some shp, Some str => Ok (NDArray (buf a) shp str)
  | _, _ => Raise ValueError
  end.

(** All index tuples of a shape, in C order. *)
Fixpoint indices (shp : list nat) : list (list nat) :=
  match shp with
  | [] => [[]]
  | d :: rest => flat_map (λ i, cons i <$> indices rest) (seq 0 d)
  end.

Definition offset (idx str : list nat) : nat :=
  sum_list (zip_with Nat.mul idx str).

(** [a[idx]]. *)
Definition item {A} `{Inhabited A} (a : ndarray A) (idx : list nat) : A :=
  buf a !!! offset idx (strides a).

(** [a.flatten()]: a copy in C order. *)
Definition flatten {A} `{Inhabited A} (a : ndarray A) : list A :=
  item a <$> indices (shape a).

(** [a.flatten(order='F')]: a copy with the first axis varying fastest. *)
Definition flatten_F {A} `{Inhabited A} (a : ndarray A) : list A :=
  (λ idx, item a (reverse idx)) <$> indices (reverse (shape a)).

(** [np.unique(l)]: the sorted distinct values. *)
Definition np_unique (l : list Z) : list Z :=
  remove_dups (merge_sort Z.le l).

(** The sum of a list of integers. *)
Definition sum_Z (l : list Z) : Z := foldr Z.add 0%Z l.

(** The value an integer wraps around to in the 64 bits of an array of
    [dtype=int]. *)
Definition wrap_int64 (z : Z) : Z :=
  ((z + 2 ^ 63) mod 2 ^ 64 - 2 ^ 63)%Z.

(** [np.sum(l)] of an array of [dtype=int], and [n + 1] for [n] an element
    or a sum of such an array. *)
Definition np_sum (l : list Z) : Z := wrap_int64 (sum_Z l).
Definition np_succ (n : Z) : Z := wrap_int64 (n + 1).

(** [a[i]], [i >= 0], for the array [a] that
    [np.genfromtxt(FileName, dtype=str, delimiter='\n', comments='!')] makes
    of the rows [rows]: of a single row it makes an array without an axis,
    and indexing that raises [IndexError]. *)
Definition rows_getitem (rows : list string) (i : nat) : result string :=
  if decide (length rows = 1) then Raise IndexError else getitem rows i.

(* ================================================================== *)
(** ** Text to numbers *)

(** What the readers take from Python and NumPy: the conversions of text to
    numbers, where a conversion that fails raises [ValueError], and the
    version of NumPy. *)
Class TextNumerics : Type := {
  (** the array [np.array(np.__version__.split('.'), dtype=int)] of a
      released NumPy, every piece of whose version is a number: [1; 14; 5]
      for [1.14.5] *)
  np_version : list Z;
  (** the built-in [int(s)] *)
  py_int : string → option Z;
  (** the built-in [float(s)] *)
  py_float : string → option float;
  (** one element of [np.array(strings, dtype=int)] *)
  np_int : string → option Z;
  (** one element of [np.array(strings, dtype=float)] *)
  np_float : string → option float;
  (** [np.genfromtxt(lines, dtype=np.float)] *)
  genfromtxt_float : list string → option (ndarray float);
  (** [np.genfromtxt(lines, dtype=np.int)] *)
  genfromtxt_int : list string → option (ndarray Z)
}.

(* ================================================================== *)
(** ** The grid objects of VTK, as far as the readers use them *)

Record vtkRectilinearGrid : Type := RectilinearGrid {
  Extent : Z * Z * Z * Z * Z * Z;
  XCoordinates : list float;
  YCoordinates : list float;
  ZCoordinates : list float;
  CellData : list (string * list float)
}.

Definition new_vtkRectilinearGrid : vtkRectilinearGrid :=
  RectilinearGrid (0, -1, 0, -1, 0, -1)%Z [] [] [] [].

(** [SetDimensions(i,j,k)] sets the extent to [(0,i-1, 0,j-1, 0,k-1)]. *)
Definition SetDimensions (g : vtkRectilinearGrid) (i j k : Z)
  : vtkRectilinearGrid :=
  RectilinearGrid (0, i - 1, 0, j - 1, 0, k - 1)%Z
    (XCoordinates g) (YCoordinates g) (ZCoordinates g) (CellData g).
Definition SetXCoordinates (g : vtkRectilinearGrid) (c : list float)
  : vtkRectilinearGrid :=
  RectilinearGrid (Extent g) c (YCoordinates g) (ZCoordinates g) (CellData g).
Definition SetYCoordinates (g : vtkRectilinearGrid) (c : list float)
  : vtkRectilinearGrid :=
  RectilinearGrid (Extent g) (XCoordinates g) c (ZCoordinates g) (CellData g).
Definition SetZCoordinates (g : vtkRectilinearGrid) (c : list float)
  : vtkRectilinearGrid :=
  RectilinearGrid (Extent g) (XCoordinates g) (YCoordinates g) c (CellData g).
(** The arrays of a grid's cell data after an array [c] named [name] is
    added: it takes the place of the first array of that name, and comes last
    when there is none. *)
Fixpoint set_named (name : string) (c : list float)
    (arrays : list (string * list float)) : list (string * list float) :=
  match arrays with
  | [] => [(name, c)]
  | (n, a) :: rest =>
      if decide (n = name) then (name, c) :: rest
      else (n, a) :: set_named name c rest
  end.

(** [GetCellData().AddArray(c)] with [c] named [name]. *)
Definition AddArray (g : vtkRectilinearGrid) (name : string) (c : list float)
  : vtkRectilinearGrid :=
  RectilinearGrid (Extent g) (XCoordinates g) (YCoordinates g)
    (ZCoordinates g) (set_named name c (CellData g)).

(** [GetCellData().GetArray(name)]: the first array of that name. *)
Fixpoint get_named (name : string) (arrays : list (string * list float))
  : option (list float) :=
  match arrays with
  | [] => None
  | (n, a) :: rest => if decide (n = name) then Some a else get_named name rest
  end.
Definition GetArray (g : vtkRectilinearGrid) (name : string)
  : option (list float) :=
  get_named name (CellData g).

(** What [ubcOcTree] writes to the standard output. *)
Inductive printed : Type :=
  | PrintStr (s : string)
  | PrintArray (a : ndarray Z).

(* ================================================================== *)
(** ** General methods *)

Definition msg_more_data : string :=
  "This model file has more data than the given mesh has cells to hold.".
Definition msg_not_enough : string :=
  "This model file does not have enough data to fill the given mesh's cells.".

(** Lines 98-101: the reordering of the flat model array. *)
Definition reorder (n1 n2 n3 : Z) (model : list float) : result (list float) :=
  model ← np_reshape model [n1; n2; n3];
  model ← np_swapaxes model 0 1;
  model ← np_swapaxes model 0 2;
  Ok (flatten model).

Definition placeModelOnMesh (mesh : vtkRectilinearGrid) (model : list float)
    (dataNm : string) : result vtkRectilinearGrid :=
  let '(_, n1, _, n2, _, n3) := Extent mesh in
  if decide (n1 * n2 * n3 < Z.of_nat (length model))%Z
  then Raise (Exception msg_more_data)
  else if decide (n1 * n2 * n3 > Z.of_nat (length model))%Z
  then Raise (Exception msg_not_enough)
  else
    c ← reorder n1 n2 n3 model;
    Ok (AddArray mesh dataNm c).

Section Readers.
Context `{TextNumerics}.

Definition int_of_str (s : string) : result Z := or_raise ValueError (py_int s).
Definition float_of_str (s : string) : result float :=
  or_raise ValueError (py_float s).
(** [np.array(l, dtype=int)] and [np.array(l, dtype=float)] of a list of
    strings. *)
Definition np_array_int (l : list string) : result (list Z) :=
  or_raise ValueError (mapM np_int l).
Definition np_array_float (l : list string) : result (list float) :=
  or_raise ValueError (mapM np_float l).

(** Lines 51-52: [v[0] >= 1 and v[1] >= 10] for the version [v] of NumPy. *)
Definition numpy_has_max_rows : result bool :=
  v0 ← getitem np_version 0;
  if decide (1 ≤ v0)%Z
  then v1 ← getitem np_version 1; Ok (bool_decide (10 ≤ v1)%Z)
  else Ok false.

(** With [max_rows=1] only the first row of the file is read. *)
Definition ubcExtent3D (fileLines : list string)
  : result (Z * Z * Z * Z * Z * Z) :=
  one_row ← numpy_has_max_rows;
  let fileLines := if (one_row : bool) then take 1 fileLines else fileLines in
  l0 ← rows_getitem fileLines 0;
  t0 ← tokens l0;
  dim ← np_array_int t0;
  let dim := slice dim 0 3 in
  ne ← getitem dim 0;
  nn ← getitem dim 1;
  nz ← getitem dim 2;
  Ok (0, ne, 0, nn, 0, nz)%Z.

(* ================================================================== *)
(** ** UBC mesh 2D *)

(** [_genTup(sft, n)]: the control points and subdivision counts of one
    dimension, as the strings of the file. *)
Definition _genTup (fileLines : list string) (sft n : Z)
  : result (list string * list string) :=
  for_each (range_Z 0 n) (λ i '(pts, disc),
    line ← getitem_Z fileLines (i + sft);
    ln ← tokens line;
    '(pts, ln) ← (if decide (i = 0)%Z
                  then o ← getitem ln 0;
                       l1 ← getitem ln 1;
                       l2 ← getitem ln 2;
                       Ok (pts ++ [o], [l1; l2])
                  else Ok (pts, ln));
    p ← getitem ln 0;
    d ← getitem ln 1;
    Ok (pts ++ [p], disc ++ [d])) ([], []).

Definition _ubcMesh2D_part (fileLines : list string)
  : result (list string * list string * list string * list string) :=
  l0 ← getitem fileLines 0;
  s0 ← before_comment l0;
  nx ← int_of_str s0;
  l1 ← getitem_Z fileLines (nx + 1);
  s1 ← before_comment l1;
  nz ← int_of_str s1;
  '(xpts, xdisc) ← _genTup fileLines 1 nx;
  '(zpts, zdisc) ← _genTup fileLines (2 + nx) nz;
  Ok (xpts, xdisc, zpts, zdisc).

Definition ubcExtent2D (fileLines : list string)
  : result (Z * Z * Z * Z * Z * Z) :=
  '(xpts, xdisc, zpts, zdisc) ← _ubcMesh2D_part fileLines;
  xd ← np_array_int xdisc;
  let nx := np_succ (np_sum xd) in
  zd ← np_array_int zdisc;
  let nz := np_succ (np_sum zd) in
  Ok (0, nx, 0, 1, 0, nz)%Z.

(** [_genCoords(pts, disc)], lines 196-208. *)
Definition _genCoords (pts disc : list string) : result (list float) :=
  p0 ← getitem pts 0;
  c0 ← float_of_str p0;
  for_each (range (length pts - 1)) (λ i c,
    p ← getitem pts i;
    start ← float_of_str p;
    q ← getitem pts (i + 1);
    stop ← float_of_str q;
    d ← getitem disc i;
    num ← int_of_str d;
    w ← float_div_int (PrimFloat.sub stop start) num;
    c ← for_each (range_Z 1 num) (λ j c,
          Ok (c ++ [PrimFloat.add start (PrimFloat.mul (float_of_int j) w)]))
          c;
    Ok (c ++ [stop])) [c0].

Definition ubcMesh2D (fileLines : list string)
    (pdo : option vtkRectilinearGrid) : result vtkRectilinearGrid :=
  let pdo := default new_vtkRectilinearGrid pdo in
  '(xpts, xdisc, zpts, zdisc) ← _ubcMesh2D_part fileLines;
  xd ← np_array_int xdisc;
  let nx := np_succ (np_sum xd) in
  zd ← np_array_int zdisc;
  let nz := np_succ (np_sum zd) in
  xcoords ← _genCoords xpts xdisc;
  zcoords ← _genCoords zpts zdisc;
  let ycoords := replicate 1 0%float in
  let pdo := SetDimensions pdo nx 2 nz in
  let pdo := SetXCoordinates pdo xcoords in
  let pdo := SetYCoordinates pdo ycoords in
  let pdo := SetZCoordinates pdo zcoords in
  Ok pdo.

Definition msg_improper (FileName : string) : string :=
  "Mode file `" +:+ FileName +:+ "` improperly formatted.".

Definition ubcModel2D (FileName : string) (fileLines : list string)
  : result (list float) :=
  l0 ← getitem fileLines 0;
  dim ← np_array_int (str_words l0);
  data ← or_raise ValueError (genfromtxt_float (drop 1 fileLines));
  s0 ← getitem (shape data) 0;
  d1 ← getitem dim 1;
  bad ← (if decide (Z.of_nat s0 ≠ d1)
         then s1 ← getitem (shape data) 1;
              d0 ← getitem dim 0;
              Ok (bool_decide (Z.of_nat s1 ≠ d0))
         else Ok false);
  if (bad : bool) then Raise (Exception (msg_improper FileName))
  else Ok (flatten_F data).

(* ================================================================== *)
(** ** UBC mesh 3D *)

Definition msg_spacings (i : nat) : string :=
  "More spacings specifed than extent defined allows for dimension "
    +:+ pretty i.

(** Lines 328-336: the positions and the expansions of the tokens with a
    [*]. *)
Definition collect_runs (spac_str : list string)
  : result (list nat * list (list string)) :=
  for_each (range (length spac_str)) (λ j '(ins_idx, ins_spac),
    tok ← getitem spac_str j;
    if str_contains "*" tok
    then let parsed := str_split "*" tok in
         p0 ← getitem parsed 0;
         num ← int_of_str p0;
         dist ← getitem parsed 1;
         let ins := replicate (Z.to_nat num) dist in
         Ok (ins_idx ++ [j], ins_spac ++ [ins])
    else Ok (ins_idx, ins_spac)) ([], []).

(** Lines 337-341: each collected token is deleted and its expansion
    inserted, at the position the token had in the line as read. *)
Definition splice_runs (ins_idx : list nat) (ins_spac : list (list string))
    (spac_str : list string) : result (list string) :=
  for_each (range (length ins_idx)) (λ j spac_str,
    ij ← getitem ins_idx j;
    spac_str ← delitem spac_str ij;
    isj ← getitem ins_spac j;
    for_each (range (length isj)) (λ k spac_str,
      x ← getitem isj k;
      Ok (list_insert_at spac_str (ij + k) x)) spac_str) spac_str.

Definition expand_spacing (spac_str : list string) : result (list string) :=
  '(ins_idx, ins_spac) ← collect_runs spac_str;
  splice_runs ins_idx ins_spac spac_str.

(** Lines 325-343: the widths of one spacing line. *)
Definition spacing_widths (line : string) : result (list float) :=
  spac_str ← tokens line;
  spac_str ← expand_spacing spac_str;
  np_array_float spac_str.

(** [np.zeros(n)]. *)
Definition np_zeros (n : Z) : result (list float) :=
  if decide (n < 0)%Z then Raise ValueError
  else Ok (replicate (Z.to_nat n) 0%float).

(** Lines 348-357: the node coordinates of axis [i]. *)
Definition axis_coordinates (i : nat) (dim_i : Z) (oo spac : list float)
  : result (list float) :=
  s ← np_zeros dim_i;
  o ← getitem oo i;
  s ← setitem s 0 o;
  for_each (Z.to_nat <$> range_Z 1 dim_i) (λ j s,
    a ← getitem s (j - 1);
    b ← getitem spac (j - 1);
    if decide (i = 2)
    then setitem s j (PrimFloat.add a b)
    else setitem s j (PrimFloat.add a b)) s.

(** Lines 324-359: the body of the loop over the three dimensions. *)
Definition mesh3D_axis (fileLines : list string) (dim : list Z)
    (oo : list float) (i : nat) : result (list float) :=
  line ← getitem fileLines (i + 2);
  spac ← spacing_widths line;
  di ← getitem dim i;
  if decide (Z.of_nat (length spac) ≠ di - 1)%Z
  then Raise (Exception (msg_spacings i))
  else axis_coordinates i di oo spac.

(** Lines 304-319: the node counts and the origin. *)
Definition mesh3D_header (fileLines : list string)
  : result (list Z * list float) :=
  l0 ← getitem fileLines 0;
  t0 ← tokens l0;
  dim ← np_array_int t0;
  d0 ← getitem dim 0;
  d1 ← getitem dim 1;
  d2 ← getitem dim 2;
  let dim := [d0 + 1; d1 + 1; d2 + 1]%Z in
  l1 ← getitem fileLines 1;
  t1 ← tokens l1;
  oo ← np_array_float t1;
  oe ← getitem oo 0;
  on ← getitem oo 1;
  oz ← getitem oo 2;
  Ok (dim, oo).

Definition ubcMesh3D (fileLines : list string)
    (pdo : option vtkRectilinearGrid) : result vtkRectilinearGrid :=
  let pdo := default new_vtkRectilinearGrid pdo in
  '(dim, oo) ← mesh3D_header fileLines;
  vv ← for_each (range 3) (λ i vv,
         s ← mesh3D_axis fileLines dim oo i;
         setitem vv i (Some s)) [None; None; None];
  d0 ← getitem dim 0;
  d1 ← getitem dim 1;
  d2 ← getitem dim 2;
  let pdo := SetDimensions pdo d0 d1 d2 in
  x ← getitem vv 0;
  let pdo := SetXCoordinates pdo (default [] x) in
  y ← getitem vv 1;
  let pdo := SetYCoordinates pdo (default [] y) in
  z ← getitem vv 2;
  let pdo := SetZCoordinates pdo (default [] z) in
  Ok pdo.

(* ================================================================== *)
(** ** UBC OcTree *)

Definition msg_octree : string :=
  "OcTree meshes must have the same number of cells in all directions.".

(** The reader leaves the output grid as it got it and prints what it read:
    the result is what it printed. *)
Definition ubcOcTree (fileLines : list string) : result (list printed) :=
  l0 ← rows_getitem fileLines 0;
  t0 ← tokens l0;
  dim ← np_array_int t0;
  let pad := slice dim 3 6 in
  let dim := slice dim 0 3 in
  ne ← getitem dim 0;
  nn ← getitem dim 1;
  nz ← getitem dim 2;
  if decide (1 < length (np_unique dim))
  then Raise (Exception msg_octree)
  else
    l1 ← rows_getitem fileLines 1;
    t1 ← tokens l1;
    oo ← np_array_float t1;
    oe ← getitem oo 0;
    on ← getitem oo 1;
    oz ← getitem oo 2;
    l2 ← rows_getitem fileLines 2;
    t2 ← tokens l2;
    ww ← np_array_float t2;
    we ← getitem ww 0;
    wn ← getitem ww 1;
    wz ← getitem ww 2;
    l3 ← rows_getitem fileLines 3;
    t3 ← tokens l3;
    numCells ← np_array_float t3;
    indArr ← or_raise ValueError (genfromtxt_int (drop 4 fileLines));
    Ok [PrintStr "This reader is not fully implemented yet";
        PrintArray indArr].

End Readers.

(* ================================================================== *)
(** ** Mesh and model together *)

(** [os.path.basename(p)] on a POSIX system: what follows the last [/]. *)
Definition basename (p : string) : string :=
  default EmptyString (last (str_split "/" p)).

Section Pipelines.
Context `{TextNumerics}.

(** [ubcMeshData2D] on the lines of the mesh file and of the model file. *)
Definition ubcMeshData2D (Mesh_lines : list string) (FileName_Model : string)
    (Model_lines : list string) (dataNm : string)
    (pdo : option vtkRectilinearGrid) : result vtkRectilinearGrid :=
  let dataNm := if decide (dataNm = EmptyString)
                then basename FileName_Model else dataNm in
  mesh ← ubcMesh2D Mesh_lines pdo;
  model ← ubcModel2D FileName_Model Model_lines;
  placeModelOnMesh mesh model dataNm.

End Pipelines.

(** The layout of one dimension of a 2D mesh file, as rows of tokens: the
    first row holds the origin, a control point and a subdivision count,
    every other row a control point and a subdivision count. *)
Definition row_pair (row : list string) : option (string * string) :=
  match row with
  | p :: d :: _ => Some (p, d)
  | _ => None
  end.

Definition block_points (rows : list (list string))
  : option (list string * list string) :=
  match rows with
  | [] => Some ([], [])
  | [] :: _ => None
  | (o :: first) :: rest =>
      pd ← row_pair first;
      pds ← mapM row_pair rest;
      Some (o :: pd.1 :: pds.*1, pd.2 :: pds.*2)
  end.

(* ================================================================== *)
(** ** The transforms as the specification words them *)

(** A three-dimensional array as its shape and its entries. *)
Record tensor3 (A : Type) : Type := Tensor3 {
  t_dims : nat * nat * nat;
  t_at : nat → nat → nat → A
}.
Arguments Tensor3 {A} t_dims t_at.
Arguments t_dims {A} _.
Arguments t_at {A} _ _ _ _.

(** The flat array read as an array of shape [(n1,n2,n3)] in C order: the
    last index varies fastest. *)
Definition spec_reshape {A} `{Inhabited A} (l : list A) (n1 n2 n3 : nat)
  : tensor3 A :=
  Tensor3 (n1, n2, n3) (λ i j k, l !!! (i * (n2 * n3) + j * n3 + k)).

Definition spec_swap01 {A} (t : tensor3 A) : tensor3 A :=
  let '(a, b, c) := t_dims t in
  Tensor3 (b, a, c) (λ i j k, t_at t j i k).

Definition spec_swap02 {A} (t : tensor3 A) : tensor3 A :=
  let '(a, b, c) := t_dims t in
  Tensor3 (c, b, a) (λ i j k, t_at t k j i).

Definition spec_flatten {A} (t : tensor3 A) : list A :=
  let '(a, b, c) := t_dims t in
  flat_map (λ i, flat_map (λ j, t_at t i j <$> seq 0 c) (seq 0 b)) (seq 0 a).

(** Reshape to [(n1,n2,n3)], swap axes 0 and 1, swap axes 0 and 2, flatten. *)
Definition cell_order_transform {A} `{Inhabited A} (n1 n2 n3 : nat)
    (l : list A) : list A :=
  spec_flatten (spec_swap02 (spec_swap01 (spec_reshape l n1 n2 n3))).

(** The position in the model array of the value that the reordering puts at
    position [p]; positions past the end stay where they are. *)
Definition source_index (n1 n2 n3 p : nat) : nat :=
  if decide (p < n1 * n2 * n3)
  then (p mod (n1 * n2)) * n3 + p / (n1 * n2)
  else p.

(** The node coordinates of an axis: the origin, then each node the previous
    one plus the next width. *)
Fixpoint node_coordinates (o : float) (spac : list float) : list float :=
  o :: match spac with
       | [] => []
       | w :: rest => node_coordinates (PrimFloat.add o w) rest
       end.

(** The rule of an axis with origin [o] and widths [spac]: one node more
    than widths, the first node at the origin, every other node the node
    before it plus the width between them. *)
Definition axis_rule (o : float) (spac nodes : list float) : Prop :=
  length nodes = length spac + 1
  ∧ nodes !! 0 = Some o
  ∧ ∀ j w, spac !! j = Some w →
      ∃ a, nodes !! j = Some a ∧ nodes !! S j = Some (PrimFloat.add a w).

(** The interior points [start + j*w], [j = 1..num-1], of a segment cut in
    [num] steps of width [w = (stop-start)/num], then [stop] itself. *)
Definition segment_nodes (start stop : float) (num : Z) : list float :=
  let w := PrimFloat.div (PrimFloat.sub stop start) (float_of_int num) in
  ((λ j, PrimFloat.add start (PrimFloat.mul (float_of_int j) w))
     <$> range_Z 1 num) ++ [stop].

(** The segments between consecutive control points, one after the other. *)
Fixpoint subdivide (start : float) (stops : list float) (nums : list Z)
  : list float :=
  match stops, nums with
  | stop :: stops', num :: nums' =>
      segment_nodes start stop num ++ subdivide stop stops' nums'
  | _, _ => []
  end.

Section SpecDecoder.
Context `{TextNumerics}.

(** One token of a spacing line: a run [count*width] stands for [count]
    copies of [width], any other token for itself. *)
Definition expand_token (tok : string) : result (list string) :=
  if str_contains "*" tok
  then let parsed := str_split "*" tok in
       p0 ← getitem parsed 0;
       num ← int_of_str p0;
       dist ← getitem parsed 1;
       Ok (replicate (Z.to_nat num) dist)
  else Ok [tok].

(** Every token replaced, where it stands, by its expansion. *)
Fixpoint expand_in_place (toks : list string) : result (list string) :=
  match toks with
  | [] => Ok []
  | tok :: rest =>
      e ← expand_token tok;
      r ← expand_in_place rest;
      Ok (e ++ r)
  end.

(** The widths the decoder is to produce for a spacing line. *)
Definition spec_spacing_widths (line : string) : result (list float) :=
  spac_str ← tokens line;
  spac_str ← expand_in_place spac_str;
  np_array_float spac_str.

End SpecDecoder.

(** The validation of a 2D model file as the specification words it, for a
    header [(rows, cols)] and a value table of shape [(r, c)]: the file is
    rejected when neither [r] is [rows] nor [c] is [cols]. *)
Definition spec_model2D_rejects (rows cols : Z) (r c : nat) : Prop :=
  Z.of_nat r ≠ rows ∧ Z.of_nat c ≠ cols.

(* ================================================================== *)
(** ** An instance of the conversions: plain decimal literals

    Integers [[+-]digits] and floats [[+-]digits[.digits]], the latter
    rounded to the nearest binary64 number; a table of numbers is an array
    with its axes of length one removed, as [genfromtxt] returns it. It
    serves to run the readers on concrete files. *)

Definition digit_of (c : ascii) : option Z :=
  let n := nat_of_ascii c in
  if (48 <=? n) && (n <=? 57) then Some (Z.of_nat (n - 48)) else None.

Fixpoint digits_from (s : string) (acc : Z) : option Z :=
  match s with
  | EmptyString => Some acc
  | String c s' => d ← digit_of c; digits_from s' (10 * acc + d)%Z
  end.

Definition dec_nat (s : string) : option Z :=
  if decide (s = EmptyString) then None else digits_from s 0%Z.

Definition dec_sign (s : string) : bool * string :=
  match s with
  | String "-" s' => (true, s')
  | String "+" s' => (false, s')
  | _ => (false, s)
  end.

Definition dec_int (s : string) : option Z :=
  let '(neg, s') := dec_sign s in
  n ← dec_nat s';
  Some (if (neg : bool) then (- n)%Z else n).

Definition dec_float (s : string) : option float :=
  let '(neg, s') := dec_sign s in
  '(ip, fp) ← match str_split "." s' with
              | [ip] => Some (ip, EmptyString)
              | [ip; fp] => Some (ip, fp)
              | _ => None
              end;
  m ← dec_nat (ip +:+ fp);
  let den := S754_finite false (Z.to_pos (10 ^ Z.of_nat (String.length fp))) 0 in
  let num := match m with
             | Zpos p => S754_finite neg p 0
             | _ => S754_zero neg
             end in
  Some (SF2Prim (SFdiv prec emax num den)).

Definition dec_table {A} (conv : string → option A) (lines : list string)
  : option (ndarray A) :=
  rows ← mapM (λ line, mapM conv (str_words line)) lines;
  match rows with
  | [] => Some (NDArray [] [0] [1])
  | row :: _ =>
      let r := length rows in
      let c := length row in
      if forallb (λ row', length row' =? c) rows
      then Some (if r =? 1
                 then if c =? 1 then NDArray (concat rows) [] []
                      else NDArray (concat rows) [c] [1]
                 else if c =? 1 then NDArray (concat rows) [r] [1]
                      else NDArray (concat rows) [r; c] [c; 1])
      else None
  end.

#[global] Instance decimal_numerics : TextNumerics := {|
  np_version := [1; 14; 5]%Z;
  py_int := dec_int;
  py_float := dec_float;
  np_int := dec_int;
  np_float := dec_float;
  genfromtxt_float := dec_table dec_float;
  genfromtxt_int := dec_table dec_int
|}.

(** The same conversions under a NumPy older than 1.10. *)
Definition decimal_numerics_1_9 : TextNumerics := {|
  np_version := [1; 9; 3]%Z;
  py_int := dec_int;
  py_float := dec_float;
  np_int := dec_int;
  np_float := dec_float;
  genfromtxt_float := dec_table dec_float;
  genfromtxt_int := dec_table dec_int
|}.

(* ================================================================== *)
(** * Properties *)

(** ** Lists laid out in rows *)

Section FlatLists.
Context {A : Type}.
Implicit Types (l : list A) (f : nat → list A).

Lemma nth_error_lookup l i : nth_error l i = l !! i.
Proof. revert i; induction l as [|x l IH]; intros [|i]; simpl; auto. Qed.

Lemma fmap_flat_map {B C} (g : B → C) (h : nat → list B) (xs : list nat) :
  g <$> flat_map h xs = flat_map (λ i, g <$> h i) xs.
Proof.
  induction xs as [|x xs IH]; simpl; [done|].
  by rewrite fmap_app, IH.
Qed.

Lemma flat_map_seq_ext f g a n :
  (∀ i, a ≤ i < a + n → f i = g i) →
  flat_map f (seq a n) = flat_map g (seq a n).
Proof.
  revert a; induction n as [|n IH]; intros a Hfg; simpl; [done|].
  rewrite Hfg by lia. f_equal. apply IH. intros i Hi. apply Hfg. lia.
Qed.

Lemma length_flat_map_seq f m a n :
  (∀ i, a ≤ i < a + n → length (f i) = m) →
  length (flat_map f (seq a n)) = n * m.
Proof.
  revert a; induction n as [|n IH]; intros a Hf; simpl; [done|].
  rewrite length_app, Hf, (IH (S a)) by (intros; try apply Hf; lia). done.
Qed.

(** Row [i], column [q] of [n] rows of length [m] laid end to end. *)
Lemma lookup_flat_map_seq f m a n i q :
  (∀ j, a ≤ j < a + n → length (f j) = m) →
  i < n → q < m →
  flat_map f (seq a n) !! (i * m + q) = f (a + i) !! q.
Proof.
  revert a i; induction n as [|n IH]; intros a i Hf Hi Hq; [lia|].
  simpl. destruct i as [|i].
  - rewrite lookup_app_l by (rewrite Hf; lia).
    by rewrite Nat.add_0_r.
  - rewrite lookup_app_r by (rewrite Hf; lia).
    rewrite Hf by lia.
    replace (S i * m + q - m) with (i * m + q) by lia.
    rewrite (IH (S a) i) by (intros; try apply Hf; lia).
    by replace (S a + i) with (a + S i) by lia.
Qed.

Lemma flat_map_singleton {B} (g : nat → B) (xs : list nat) :
  flat_map (λ x, [g x]) xs = g <$> xs.
Proof. induction xs as [|x xs IH]; simpl; [done|by rewrite IH]. Qed.

End FlatLists.

(** ** Steps of the monad *)

Lemma bind_Ok {A B} (a : A) (f : A → result B) : Ok a ≫= f = f a.
Proof. done. Qed.

Lemma getitem_Some {A} (l : list A) i x : l !! i = Some x → getitem l i = Ok x.
Proof. unfold getitem. by intros ->. Qed.

(** ** Rows of a file and 64-bit sums *)

Lemma rows_getitem_rows (row0 row1 : string) rows i :
  rows_getitem (row0 :: row1 :: rows) i = getitem (row0 :: row1 :: rows) i.
Proof. unfold rows_getitem. by rewrite decide_False. Qed.

Lemma rows_getitem_short rows i : length rows ≤ 1 → rows_getitem rows i = Raise IndexError.
Proof.
  intros Hlen. unfold rows_getitem. case_decide; [done|].
  destruct rows as [|? [|? ?]]; simpl in *; [done|done|lia].
Qed.

Lemma rows_getitem_Ok_inv rows i x :
  rows_getitem rows i = Ok x → rows !! i = Some x ∧ 2 ≤ length rows.
Proof.
  unfold rows_getitem, getitem. case_decide; [done|].
  destruct (rows !! i) as [y|] eqn:Hy; simpl; [|done].
  intros [= ->]. split; [done|].
  apply lookup_lt_Some in Hy. destruct rows as [|? [|? ?]]; simpl in *; lia.
Qed.

Lemma wrap_int64_range z : (- 2 ^ 63 ≤ wrap_int64 z < 2 ^ 63)%Z.
Proof.
  unfold wrap_int64.
  pose proof (Z.mod_pos_bound (z + 2 ^ 63) (2 ^ 64) ltac:(lia)). lia.
Qed.

Lemma wrap_int64_small z : (- 2 ^ 63 ≤ z < 2 ^ 63)%Z → wrap_int64 z = z.
Proof. intros Hz. unfold wrap_int64. rewrite Z.mod_small; lia. Qed.

Lemma wrap_int64_congruent z : ((wrap_int64 z - z) mod 2 ^ 64 = 0)%Z.
Proof.
  unfold wrap_int64.
  pose proof (Z.div_mod (z + 2 ^ 63) (2 ^ 64) ltac:(lia)) as Hd.
  replace ((z + 2 ^ 63) mod 2 ^ 64 - 2 ^ 63 - z)%Z
    with (- ((z + 2 ^ 63) / 2 ^ 64) * 2 ^ 64)%Z by lia.
  apply Z.mod_mul. lia.
Qed.

Lemma wrap_int64_add_l z k : wrap_int64 (wrap_int64 z + k) = wrap_int64 (z + k).
Proof.
  unfold wrap_int64. f_equal.
  replace ((z + 2 ^ 63) mod 2 ^ 64 - 2 ^ 63 + k + 2 ^ 63)%Z
    with ((z + 2 ^ 63) mod 2 ^ 64 + k)%Z by lia.
  replace (z + k + 2 ^ 63)%Z with (z + 2 ^ 63 + k)%Z by lia.
  by rewrite Zplus_mod_idemp_l.
Qed.

(** The sum of an array plus one, in 64 bits. *)
Lemma np_succ_np_sum l : np_succ (np_sum l) = wrap_int64 (sum_Z l + 1).
Proof. unfold np_succ, np_sum. apply wrap_int64_add_l. Qed.

Lemma getitem_middle {A} (l1 l2 : list A) x n :
  n = length l1 → getitem (l1 ++ x :: l2) n = Ok x.
Proof. intros ->. unfold getitem. by rewrite list_lookup_middle. Qed.

Section Conversions.
Context `{TextNumerics}.

Lemma float_of_str_Some s x : py_float s = Some x → float_of_str s = Ok x.
Proof. unfold float_of_str. by intros ->. Qed.

Lemma int_of_str_Some s n : py_int s = Some n → int_of_str s = Ok n.
Proof. unfold int_of_str. by intros ->. Qed.

End Conversions.

Lemma float_div_int_nonzero x n :
  n ≠ 0%Z → float_div_int x n = Ok (PrimFloat.div x (float_of_int n)).
Proof. intros Hn. unfold float_div_int. by rewrite decide_False. Qed.

(** ** The reordering of [placeModelOnMesh] *)

Lemma flat_index_lt a b x y : x < a → y < b → x * b + y < a * b.
Proof. nia. Qed.

Lemma flat_index_split n1 n2 n3 p :
  p < n1 * n2 * n3 →
  ∃ k i j, k < n1 ∧ i < n2 ∧ j < n3 ∧ p = k * (n2 * n3) + i * n3 + j.
Proof.
  intros Hp. assert (n2 * n3 ≠ 0) by nia. assert (n3 ≠ 0) by nia.
  exists (p / (n2 * n3)), (p mod (n2 * n3) / n3), (p mod (n2 * n3) mod n3).
  pose proof (Nat.div_mod_eq p (n2 * n3)).
  pose proof (Nat.div_mod_eq (p mod (n2 * n3)) n3).
  pose proof (Nat.mod_upper_bound p (n2 * n3) ltac:(done)).
  pose proof (Nat.mod_upper_bound (p mod (n2 * n3)) n3 ltac:(done)).
  split_and!.
  - apply Nat.Div0.div_lt_upper_bound. nia.
  - apply Nat.Div0.div_lt_upper_bound. nia.
  - done.
  - nia.
Qed.

Section Reordering.
Context {A : Type} `{Inhabited A}.
Implicit Types (l : list A).

Lemma length_cell_order_transform n1 n2 n3 l :
  length (cell_order_transform n1 n2 n3 l) = n1 * n2 * n3.
Proof.
  unfold cell_order_transform, spec_flatten; simpl.
  rewrite (length_flat_map_seq _ (n1 * n2)).
  - lia.
  - intros i _. rewrite (length_flat_map_seq _ n2); [done|].
    intros j _. by rewrite length_fmap, length_seq.
Qed.

(** Position [k*(n1*n2) + i*n2 + j] of the result holds entry
    [i*(n2*n3) + j*n3 + k] of the model array. *)
Lemma cell_order_transform_lookup_ijk n1 n2 n3 l i j k :
  length l = n1 * n2 * n3 → i < n1 → j < n2 → k < n3 →
  cell_order_transform n1 n2 n3 l !! (k * (n1 * n2) + i * n2 + j)
  = l !! (i * (n2 * n3) + j * n3 + k).
Proof.
  intros Hl Hi Hj Hk.
  unfold cell_order_transform, spec_flatten; simpl.
  rewrite <- Nat.add_assoc.
  rewrite (lookup_flat_map_seq _ (n1 * n2)); [| |done|nia].
  2:{ intros a _. rewrite (length_flat_map_seq _ n2); [done|].
      intros b _. by rewrite length_fmap, length_seq. }
  rewrite (lookup_flat_map_seq _ n2); [| |done|done].
  2:{ intros b _. by rewrite length_fmap, length_seq. }
  rewrite list_lookup_fmap, lookup_seq_lt by done. simpl.
  symmetry. apply list_lookup_lookup_total_lt.
  rewrite Hl, <- Nat.mul_assoc, <- Nat.add_assoc.
  apply flat_index_lt; [done|]. by apply flat_index_lt.
Qed.

Lemma source_index_lt n1 n2 n3 p :
  p < n1 * n2 * n3 → source_index n1 n2 n3 p < n1 * n2 * n3.
Proof.
  intros Hp. unfold source_index. rewrite decide_True by done.
  assert (n1 * n2 ≠ 0) by nia.
  pose proof (Nat.mod_upper_bound p (n1 * n2) ltac:(done)).
  assert (p / (n1 * n2) < n3) by (apply Nat.Div0.div_lt_upper_bound; nia).
  nia.
Qed.

Lemma cell_order_transform_lookup n1 n2 n3 l p :
  length l = n1 * n2 * n3 →
  cell_order_transform n1 n2 n3 l !! p = l !! source_index n1 n2 n3 p.
Proof.
  intros Hl. destruct (decide (p < n1 * n2 * n3)) as [Hp|Hp].
  - unfold source_index. rewrite decide_True by done.
    assert (n1 * n2 ≠ 0) by nia. assert (n2 ≠ 0) by nia.
    set (R := n1 * n2) in *.
    pose proof (Nat.mod_upper_bound p R ltac:(done)) as Hr.
    assert (p / R < n3) as Hk by (apply Nat.Div0.div_lt_upper_bound; nia).
    pose proof (Nat.div_mod_eq p R) as Hdm.
    pose proof (Nat.div_mod_eq (p mod R) n2) as Hdm2.
    pose proof (Nat.mod_upper_bound (p mod R) n2 ltac:(done)) as Hj.
    assert ((p mod R) / n2 < n1) as Hi
      by (apply Nat.Div0.div_lt_upper_bound; unfold R in *; nia).
    replace p with
      (p / R * (n1 * n2) + (p mod R) / n2 * n2 + (p mod R) mod n2) at 1
      by (fold R; nia).
    rewrite cell_order_transform_lookup_ijk by done.
    f_equal. nia.
  - unfold source_index. rewrite decide_False by done.
    rewrite !(proj2 (lookup_ge_None _ _)); [done|lia|].
    rewrite length_cell_order_transform. lia.
Qed.

(** The position map is its own inverse once the model array is read as
    [n3] rows of [n1*n2] values instead of [n1*n2] rows of [n3] values. *)
Lemma source_index_inverse n1 n2 n3 m1 m2 m3 p :
  m1 * m2 = n3 → m3 = n1 * n2 →
  source_index n1 n2 n3 (source_index m1 m2 m3 p) = p.
Proof.
  intros Hm12 Hm3. subst m3.
  destruct (decide (p < n1 * n2 * n3)) as [Hp|Hp].
  - assert (source_index m1 m2 (n1 * n2) p < n1 * n2 * n3) as Hlt.
    { replace (n1 * n2 * n3) with (m1 * m2 * (n1 * n2)) by nia.
      apply source_index_lt. nia. }
    revert Hlt. unfold source_index.
    rewrite (decide_True (P := p < m1 * m2 * (n1 * n2))) by nia.
    intros Hlt. rewrite decide_True by done.
    rewrite Hm12.
    assert (n3 ≠ 0) by nia. assert (n1 * n2 ≠ 0) by nia.
    set (R := n1 * n2) in *.
    pose proof (Nat.mod_upper_bound p n3 ltac:(done)).
    assert (p / n3 < R) by (apply Nat.Div0.div_lt_upper_bound; nia).
    pose proof (Nat.div_mod_eq p n3).
    replace ((p mod n3 * R + p / n3) mod R) with (p / n3)
      by (apply Nat.mod_unique with (p mod n3); nia).
    replace ((p mod n3 * R + p / n3) / R) with (p mod n3)
      by (apply Nat.div_unique with (p / n3); nia).
    nia.
  - unfold source_index.
    rewrite (decide_False (P := p < m1 * m2 * (n1 * n2))) by nia.
    by rewrite decide_False.
Qed.

Lemma source_index_inj n1 n2 n3 p q :
  source_index n1 n2 n3 p = source_index n1 n2 n3 q → p = q.
Proof.
  intros Hpq.
  rewrite <- (source_index_inverse 1 n3 (n1 * n2) n1 n2 n3 p) by lia.
  rewrite <- (source_index_inverse 1 n3 (n1 * n2) n1 n2 n3 q) by lia.
  by rewrite Hpq.
Qed.


Lemma cell_order_transform_perm n1 n2 n3 l :
  length l = n1 * n2 * n3 → cell_order_transform n1 n2 n3 l ≡ₚ l.
Proof.
  intros Hl. symmetry. apply Permutation_nth_error. split.
  - by rewrite length_cell_order_transform.
  - exists (source_index n1 n2 n3). split.
    + intros p q. apply source_index_inj.
    + intros p. rewrite !nth_error_lookup.
      by apply cell_order_transform_lookup.
Qed.



End Reordering.

(** The NumPy calls of lines 98-101 compute the transform of the
    specification. *)
Lemma reorder_cell_order_transform (n1 n2 n3 : nat) (model : list float) :
  length model = n1 * n2 * n3 →
  reorder (Z.of_nat n1) (Z.of_nat n2) (Z.of_nat n3) model
  = Ok (cell_order_transform n1 n2 n3 model).
Proof.
  intros Hl. unfold reorder, np_reshape.
  assert (forallb (λ d, 0 <=? d)%Z [Z.of_nat n1; Z.of_nat n2; Z.of_nat n3]
          = true) as ->.
  { simpl. by rewrite !(proj2 (Z.leb_le _ _)) by lia. }
  simpl. rewrite !Nat2Z.id.
  rewrite decide_True by (simpl; lia).
  simpl. f_equal.
  unfold flatten, cell_order_transform, spec_flatten; simpl.
  rewrite fmap_flat_map. apply flat_map_seq_ext. intros k _.
  rewrite <- list_fmap_compose, fmap_flat_map.
  apply flat_map_seq_ext. intros i _.
  rewrite <- list_fmap_compose, fmap_flat_map.
  simpl. rewrite flat_map_singleton. apply list_fmap_ext. intros _ j _.
  unfold item, offset; simpl. f_equal. lia.
Qed.

Lemma placeModelOnMesh_fits mesh model dataNm (n1 n2 n3 : nat) x0 y0 z0 :
  Extent mesh = (x0, Z.of_nat n1, y0, Z.of_nat n2, z0, Z.of_nat n3) →
  length model = n1 * n2 * n3 →
  placeModelOnMesh mesh model dataNm
  = Ok (AddArray mesh dataNm (cell_order_transform n1 n2 n3 model)).
Proof.
  intros Hext Hl. unfold placeModelOnMesh. rewrite Hext.
  rewrite decide_False by nia. rewrite decide_False by nia.
  by rewrite reorder_cell_order_transform.
Qed.

(** C1: for a mesh of [n1*n2*n3] cells and a model array of that length,
    [placeModelOnMesh] attaches the array obtained by reshaping the model
    array to [(n1,n2,n3)] in C order, swapping axes 0 and 1, then axes 0 and
    2, and flattening; entry [i*(n2*n3) + j*n3 + k] of the model array lands
    at position [k*(n1*n2) + i*n2 + j]. *)
Theorem placeModelOnMesh_cell_order mesh model dataNm (n1 n2 n3 : nat)
    x0 y0 z0 :
  Extent mesh = (x0, Z.of_nat n1, y0, Z.of_nat n2, z0, Z.of_nat n3) →
  length model = n1 * n2 * n3 →
  placeModelOnMesh mesh model dataNm
  = Ok (AddArray mesh dataNm (cell_order_transform n1 n2 n3 model))
  ∧ ∀ i j k, i < n1 → j < n2 → k < n3 →
      cell_order_transform n1 n2 n3 model !! (k * (n1 * n2) + i * n2 + j)
      = model !! (i * (n2 * n3) + j * n3 + k).
Proof.
  intros Hext Hl. split.
  - by eapply placeModelOnMesh_fits.
  - intros i j k Hi Hj Hk. by apply cell_order_transform_lookup_ijk.
Qed.

Lemma placeModelOnMesh_cell_order_witness :
  let mesh := SetDimensions new_vtkRectilinearGrid 3 3 3 in
  let model := float_of_int <$> [0; 1; 2; 3; 4; 5; 6; 7]%Z in
  placeModelOnMesh mesh model "Data"
  = Ok (AddArray mesh "Data"
          (float_of_int <$> [0; 2; 4; 6; 1; 3; 5; 7]%Z)).
Proof.
  intros mesh model.
  exact (proj1 (placeModelOnMesh_cell_order mesh model "Data" 2 2 2
                  0%Z 0%Z 0%Z eq_refl eq_refl)).
Defined.




(** With the shape [(n3,n1,n2)] of the swapped array as the cell counts of
    the second placement the model array does not come back: the two swaps
    rotate the three axes, and a rotation of three axes has order three. *)
Example reorder_twice_rotated_shape :
  (r ← reorder 2 2 2 (float_of_int <$> [0; 1; 2; 3; 4; 5; 6; 7]%Z);
   reorder 2 2 2 r)
  = Ok (float_of_int <$> [0; 4; 1; 5; 2; 6; 3; 7]%Z).
Proof. vm_compute. reflexivity. Qed.

(** C4: [placeModelOnMesh] raises exactly when the length of the model array
    differs from the product of the cell counts of the mesh: with one message
    when the array is longer and another one when it is shorter. When the
    lengths agree it attaches an array of the same length that has the
    entries of the model array, each once: nothing is cut or filled in. *)
Theorem placeModelOnMesh_size_check mesh model dataNm (n1 n2 n3 : nat)
    x0 y0 z0 :
  Extent mesh = (x0, Z.of_nat n1, y0, Z.of_nat n2, z0, Z.of_nat n3) →
  (placeModelOnMesh mesh model dataNm = Raise (Exception msg_more_data)
   ↔ n1 * n2 * n3 < length model)
  ∧ (placeModelOnMesh mesh model dataNm = Raise (Exception msg_not_enough)
     ↔ length model < n1 * n2 * n3)
  ∧ ((∃ e, placeModelOnMesh mesh model dataNm = Raise e)
     ↔ length model ≠ n1 * n2 * n3)
  ∧ msg_more_data ≠ msg_not_enough
  ∧ (length model = n1 * n2 * n3 →
     ∃ c, placeModelOnMesh mesh model dataNm = Ok (AddArray mesh dataNm c)
          ∧ length c = length model ∧ c ≡ₚ model).
Proof.
  intros Hext.
  assert (msg_more_data ≠ msg_not_enough) as Hmsg by (by vm_compute).
  destruct (lt_eq_lt_dec (length model) (n1 * n2 * n3)) as [[Hlt|Heq]|Hgt].
  - assert (placeModelOnMesh mesh model dataNm
            = Raise (Exception msg_not_enough)) as ->.
    { unfold placeModelOnMesh. rewrite Hext.
      rewrite decide_False by nia. by rewrite decide_True by nia. }
    split_and!; [split|split|split|done|]; try done; try lia.
    intros _. by eexists.
  - rewrite (placeModelOnMesh_fits _ _ _ n1 n2 n3 x0 y0 z0) by done.
    split_and!; [split|split|split|done|]; try done; try lia.
    + by intros [e ?].
    + intros _. eexists. split; [done|].
      split; [by rewrite length_cell_order_transform|].
      by apply cell_order_transform_perm.
  - assert (placeModelOnMesh mesh model dataNm
            = Raise (Exception msg_more_data)) as ->.
    { unfold placeModelOnMesh. rewrite Hext.
      by rewrite decide_True by nia. }
    split_and!; [split|split|split|done|]; try done; try lia.
    intros _. by eexists.
Qed.

Lemma placeModelOnMesh_size_check_witness :
  let mesh := SetDimensions new_vtkRectilinearGrid 3 3 3 in
  placeModelOnMesh mesh (float_of_int <$> [0; 1; 2; 3; 4; 5; 6]%Z) "Data"
  = Raise (Exception msg_not_enough).
Proof.
  intros mesh.
  apply (proj2 (proj1 (proj2 (placeModelOnMesh_size_check mesh
           (float_of_int <$> [0; 1; 2; 3; 4; 5; 6]%Z) "Data" 2 2 2
           0%Z 0%Z 0%Z eq_refl)))).
  simpl. lia.
Defined.

(** ** Exceptions a reader can raise *)

Create HintDb builtin discriminated.

Lemma builtin_only_Ok {A} (a : A) : builtin_only (Ok a).
Proof. by intros msg. Qed.

Lemma builtin_only_Raise {A} e :
  (∀ msg, e ≠ Exception msg) → builtin_only (@Raise A e).
Proof. intros He msg [= ->]. by eapply He. Qed.

Lemma builtin_only_or_raise {A} e (o : option A) :
  (∀ msg, e ≠ Exception msg) → builtin_only (or_raise e o).
Proof. intros He. destruct o; [apply builtin_only_Ok|by apply builtin_only_Raise]. Qed.

Lemma builtin_only_bind {A B} (r : result A) (f : A → result B) :
  builtin_only r → (∀ a, builtin_only (f a)) → builtin_only (r ≫= f).
Proof.
  intros Hr Hf. destruct r as [a|e]; simpl; [apply Hf|].
  intros msg [= ->]. by eapply Hr.
Qed.

Lemma builtin_only_for_each {A S} (xs : list A) (body : A → S → result S) s :
  (∀ x s', builtin_only (body x s')) → builtin_only (for_each xs body s).
Proof.
  intros Hb. revert s. induction xs as [|x xs IH]; intros s; simpl.
  - apply builtin_only_Ok.
  - apply builtin_only_bind; [apply Hb|apply IH].
Qed.

Lemma builtin_only_getitem {A} (l : list A) i : builtin_only (getitem l i).
Proof. by apply builtin_only_or_raise. Qed.

Lemma builtin_only_setitem {A} (l : list A) i x :
  builtin_only (setitem l i x).
Proof.
  unfold setitem. case_decide; [apply builtin_only_Ok|].
  by apply builtin_only_Raise.
Qed.

Lemma builtin_only_delitem {A} (l : list A) i : builtin_only (delitem l i).
Proof.
  unfold delitem. case_decide; [apply builtin_only_Ok|].
  by apply builtin_only_Raise.
Qed.

Lemma builtin_only_tokens line : builtin_only (tokens line).
Proof.
  apply builtin_only_bind; [apply builtin_only_getitem|].
  intros; apply builtin_only_Ok.
Qed.

Lemma builtin_only_rows_getitem rows i : builtin_only (rows_getitem rows i).
Proof.
  unfold rows_getitem. case_decide; [by apply builtin_only_Raise|].
  apply builtin_only_getitem.
Qed.

#[global] Hint Resolve builtin_only_Ok builtin_only_getitem
  builtin_only_rows_getitem
  builtin_only_setitem builtin_only_delitem builtin_only_tokens : builtin.
#[global] Hint Extern 1 (builtin_only (or_raise _ _)) =>
  apply builtin_only_or_raise; discriminate : builtin.
#[global] Hint Extern 1 (builtin_only (Raise _)) =>
  apply builtin_only_Raise; discriminate : builtin.
#[global] Hint Extern 2 (builtin_only (_ ≫= _)) =>
  apply builtin_only_bind; [|intros] : builtin.
#[global] Hint Extern 2 (builtin_only (for_each _ _ _)) =>
  apply builtin_only_for_each; intros : builtin.
#[global] Hint Extern 3 (builtin_only (if ?b then _ else _)) =>
  destruct b : builtin.
#[global] Hint Extern 3 (builtin_only (match ?p with (_, _) => _ end)) =>
  destruct p : builtin.

Section Mesh3D.
Context `{TextNumerics}.

Lemma builtin_only_spacing_widths line : builtin_only (spacing_widths line).
Proof.
  unfold spacing_widths, expand_spacing, collect_runs, splice_runs,
    np_array_float, int_of_str.
  auto 20 with builtin.
Qed.

Lemma builtin_only_axis_coordinates i d oo spac :
  builtin_only (axis_coordinates i d oo spac).
Proof.
  unfold axis_coordinates, np_zeros. auto 20 with builtin.
Qed.

(** The only [Exception] of the loop body is the one of the count check. *)
Lemma mesh3D_axis_Exception lines dim oo i msg :
  mesh3D_axis lines dim oo i = Raise (Exception msg) → msg = msg_spacings i.
Proof.
  unfold mesh3D_axis.
  destruct (getitem lines (i + 2)) as [line|e] eqn:Hline; simpl;
    [|intros [= ->]; by destruct (builtin_only_getitem lines (i + 2) msg)].
  destruct (spacing_widths line) as [spac|e] eqn:Hspac; simpl;
    [|intros [= ->]; by destruct (builtin_only_spacing_widths line msg)].
  destruct (getitem dim i) as [di|e] eqn:Hdi; simpl;
    [|intros [= ->]; by destruct (builtin_only_getitem dim i msg)].
  case_decide; [by intros [= ->]|].
  intros Hax. by destruct (builtin_only_axis_coordinates i di oo spac msg).
Qed.

Lemma msg_spacings_inj i j : msg_spacings i = msg_spacings j → i = j.
Proof.
  unfold msg_spacings. intros Heq.
  apply (inj (String.append _)) in Heq. by apply (inj pretty) in Heq.
Qed.

(** *** The coordinates of an axis *)

Lemma length_node_coordinates o spac :
  length (node_coordinates o spac) = S (length spac).
Proof.
  revert o; induction spac as [|w spac IH]; intros o; simpl; [done|].
  by rewrite IH.
Qed.

Lemma node_coordinates_first o spac : node_coordinates o spac !! 0 = Some o.
Proof. by destruct spac. Qed.

(** Each node after the first is the node before it plus the width between
    them. *)
Lemma node_coordinates_step o spac j w :
  spac !! j = Some w →
  ∃ a, node_coordinates o spac !! j = Some a
       ∧ node_coordinates o spac !! S j = Some (PrimFloat.add a w).
Proof.
  revert o j; induction spac as [|w' spac IH]; intros o j Hj; [done|].
  destruct j as [|j]; simpl in *.
  - injection Hj as ->. exists o. split; [done|]. by destruct spac.
  - apply (IH (PrimFloat.add o w')) in Hj. exact Hj.
Qed.

Lemma range_Z_from_1 (n : nat) :
  Z.to_nat <$> range_Z 1 (Z.of_nat n + 1) = seq 1 n.
Proof.
  unfold range_Z. replace (Z.to_nat (Z.of_nat n + 1 - 1)) with n by lia.
  rewrite <- list_fmap_compose, <- fmap_S_seq.
  apply list_fmap_ext. intros _ k _. simpl. lia.
Qed.

(** The loop of lines 350-357, started on an array whose first nodes [pre]
    and current node [x] are set and whose other entries are zero. *)
Lemma axis_loop i spac done_w rest_w pre x :
  spac = done_w ++ rest_w → length pre = length done_w →
  for_each (seq (S (length pre)) (length rest_w)) (λ j s,
    a ← getitem s (j - 1);
    b ← getitem spac (j - 1);
    if decide (i = 2)
    then setitem s j (PrimFloat.add a b)
    else setitem s j (PrimFloat.add a b))
    (pre ++ x :: replicate (length rest_w) 0%float)
  = Ok (pre ++ node_coordinates x rest_w).
Proof.
  revert done_w pre x; induction rest_w as [|w rest_w IH];
    intros done_w pre x Hspac Hpre; simpl; [done|].
  rewrite Nat.sub_0_r.
  rewrite getitem_middle by done. simpl.
  rewrite Hspac at 1. rewrite getitem_middle by done. simpl.
  assert (setitem (pre ++ x :: 0%float :: replicate (length rest_w) 0%float)
            (S (length pre)) (PrimFloat.add x w)
          = Ok ((pre ++ [x]) ++ PrimFloat.add x w
                  :: replicate (length rest_w) 0%float)) as Hset.
  { unfold setitem. rewrite decide_True by (rewrite length_app; simpl; lia).
    f_equal. rewrite (cons_middle x pre), app_assoc.
    replace (S (length pre)) with (length (pre ++ [x]) + 0)
      by (rewrite length_app; simpl; lia).
    by rewrite insert_app_r. }
  assert ((if decide (i = 2)
           then setitem (pre ++ x :: 0%float
                           :: replicate (length rest_w) 0%float)
                  (S (length pre)) (PrimFloat.add x w)
           else setitem (pre ++ x :: 0%float
                           :: replicate (length rest_w) 0%float)
                  (S (length pre)) (PrimFloat.add x w))
          = Ok ((pre ++ [x]) ++ PrimFloat.add x w
                  :: replicate (length rest_w) 0%float)) as ->
    by (by case_decide).
  simpl.
  replace (S (S (length pre))) with (S (length (pre ++ [x])))
    by (rewrite length_app; simpl; lia).
  rewrite (IH (done_w ++ [w]) (pre ++ [x]) (PrimFloat.add x w)).
  - by rewrite <- app_assoc.
  - by rewrite <- app_assoc.
  - rewrite !length_app; simpl; lia.
Qed.

Lemma axis_coordinates_nodes i oo o spac :
  oo !! i = Some o →
  axis_coordinates i (Z.of_nat (length spac) + 1) oo spac
  = Ok (node_coordinates o spac).
Proof.
  intros Ho. unfold axis_coordinates, np_zeros.
  rewrite decide_False by lia.
  replace (Z.to_nat (Z.of_nat (length spac) + 1)) with (S (length spac))
    by lia.
  rewrite bind_Ok, (getitem_Some _ _ _ Ho), bind_Ok.
  simpl. rewrite range_Z_from_1.
  exact (axis_loop i spac [] spac [] o eq_refl eq_refl).
Qed.

(** The loop body on an axis whose spacing line has the declared number of
    widths. *)
Lemma mesh3D_axis_nodes lines dim oo i line spac o :
  lines !! (i + 2) = Some line → spacing_widths line = Ok spac →
  dim !! i = Some (Z.of_nat (length spac) + 1)%Z → oo !! i = Some o →
  mesh3D_axis lines dim oo i = Ok (node_coordinates o spac).
Proof.
  intros Hline Hspac Hdim Ho. unfold mesh3D_axis, getitem.
  rewrite Hline; simpl. rewrite Hspac; simpl. rewrite Hdim; simpl.
  rewrite decide_False by lia.
  by apply axis_coordinates_nodes.
Qed.

Lemma mesh3D_axis_mismatch lines dim oo i line spac d :
  lines !! (i + 2) = Some line → spacing_widths line = Ok spac →
  dim !! i = Some d → Z.of_nat (length spac) ≠ (d - 1)%Z →
  mesh3D_axis lines dim oo i = Raise (Exception (msg_spacings i)).
Proof.
  intros Hline Hspac Hdim Hne. unfold mesh3D_axis, getitem.
  rewrite Hline; simpl. rewrite Hspac; simpl. rewrite Hdim; simpl.
  by rewrite decide_True.
Qed.

(** *** The reader as a whole *)

Lemma mesh3D_header_ok lines hdr ts n0 n1 n2 extra oline os oo :
  lines !! 0 = Some hdr → tokens hdr = Ok ts →
  mapM np_int ts = Some (n0 :: n1 :: n2 :: extra) →
  lines !! 1 = Some oline → tokens oline = Ok os →
  mapM np_float os = Some oo → 3 ≤ length oo →
  mesh3D_header lines = Ok ([n0 + 1; n1 + 1; n2 + 1]%Z, oo).
Proof.
  intros Hl0 Ht0 Hn Hl1 Ht1 Ho Hlen.
  unfold mesh3D_header, getitem, np_array_int, np_array_float.
  rewrite Hl0; simpl. rewrite Ht0; simpl. rewrite Hn; simpl.
  rewrite Hl1; simpl. rewrite Ht1; simpl. rewrite Ho; simpl.
  destruct oo as [|o0 [|o1 [|o2 oo]]]; simpl in *; try lia. done.
Qed.

(** The three passes of the loop over the dimensions, one after the other. *)
Lemma ubcMesh3D_passes lines pdo d0 d1 d2 oo :
  mesh3D_header lines = Ok ([d0; d1; d2], oo) →
  ubcMesh3D lines pdo
  = x ← mesh3D_axis lines [d0; d1; d2] oo 0;
    y ← mesh3D_axis lines [d0; d1; d2] oo 1;
    z ← mesh3D_axis lines [d0; d1; d2] oo 2;
    Ok (SetZCoordinates
          (SetYCoordinates
             (SetXCoordinates
                (SetDimensions (default new_vtkRectilinearGrid pdo) d0 d1 d2)
                x) y) z).
Proof.
  intros Hhdr. unfold ubcMesh3D. rewrite Hhdr. simpl.
  destruct (mesh3D_axis lines [d0; d1; d2] oo 0) as [x|e]; simpl; [|done].
  destruct (mesh3D_axis lines [d0; d1; d2] oo 1) as [y|e]; simpl; [|done].
  destruct (mesh3D_axis lines [d0; d1; d2] oo 2) as [z|e]; simpl; [|done].
  done.
Qed.

(** The reader raises what the first failing pass raises. *)
Lemma ubcMesh3D_first_failure lines pdo d0 d1 d2 oo i e :
  mesh3D_header lines = Ok ([d0; d1; d2], oo) → i < 3 →
  (∀ j, j < i → ∃ s, mesh3D_axis lines [d0; d1; d2] oo j = Ok s) →
  mesh3D_axis lines [d0; d1; d2] oo i = Raise e →
  ubcMesh3D lines pdo = Raise e.
Proof.
  intros Hhdr Hi Hbefore Hfail.
  rewrite (ubcMesh3D_passes _ _ _ _ _ _ Hhdr).
  destruct i as [|[|[|i]]]; [| | |lia].
  - by rewrite Hfail.
  - destruct (Hbefore 0) as [x ->]; [lia|]. simpl. by rewrite Hfail.
  - destruct (Hbefore 0) as [x ->]; [lia|].
    destruct (Hbefore 1) as [y ->]; [lia|]. simpl. by rewrite Hfail.
Qed.

(** An [Exception] of the reader is the one of some pass. *)
Lemma ubcMesh3D_Exception lines pdo d0 d1 d2 oo msg :
  mesh3D_header lines = Ok ([d0; d1; d2], oo) →
  ubcMesh3D lines pdo = Raise (Exception msg) →
  ∃ j, j < 3 ∧ mesh3D_axis lines [d0; d1; d2] oo j = Raise (Exception msg).
Proof.
  intros Hhdr. rewrite (ubcMesh3D_passes _ _ _ _ _ _ Hhdr).
  destruct (mesh3D_axis lines [d0; d1; d2] oo 0) as [x|e] eqn:H0; simpl;
    [|intros [= ->]; exists 0; split; [lia|done]].
  destruct (mesh3D_axis lines [d0; d1; d2] oo 1) as [y|e] eqn:H1; simpl;
    [|intros [= ->]; exists 1; split; [lia|done]].
  destruct (mesh3D_axis lines [d0; d1; d2] oo 2) as [z|e] eqn:H2; simpl;
    [done|intros [= ->]; exists 2; split; [lia|done]].
Qed.

(** C5: in a 3D mesh file whose header declares the cell counts
    [(n0,n1,n2)], let the passes over the axes before axis [i] go through
    and let the spacing line of axis [i] expand to the widths [spac]. Then
    [ubcMesh3D] raises the exception whose message names dimension [i]
    exactly when the number of widths differs from the declared cell count
    [n_i]; when they are equal the pass over axis [i] returns its
    coordinates. The messages of different axes differ. *)
Theorem ubcMesh3D_spacing_count lines pdo hdr ts n0 n1 n2 extra oline os oo
    i n line spac :
  lines !! 0 = Some hdr → tokens hdr = Ok ts →
  mapM np_int ts = Some (n0 :: n1 :: n2 :: extra) →
  lines !! 1 = Some oline → tokens oline = Ok os →
  mapM np_float os = Some oo → 3 ≤ length oo →
  [n0; n1; n2] !! i = Some n →
  (∀ j, j < i →
     ∃ s, mesh3D_axis lines [n0 + 1; n1 + 1; n2 + 1]%Z oo j = Ok s) →
  lines !! (i + 2) = Some line → spacing_widths line = Ok spac →
  (ubcMesh3D lines pdo = Raise (Exception (msg_spacings i))
   ↔ Z.of_nat (length spac) ≠ n)
  ∧ (mesh3D_axis lines [n0 + 1; n1 + 1; n2 + 1]%Z oo i
     = Raise (Exception (msg_spacings i))
     ↔ Z.of_nat (length spac) ≠ n)
  ∧ (Z.of_nat (length spac) = n →
     ∃ s, mesh3D_axis lines [n0 + 1; n1 + 1; n2 + 1]%Z oo i = Ok s)
  ∧ (∀ j, msg_spacings j = msg_spacings i → j = i).
Proof.
  intros Hl0 Ht0 Hn Hl1 Ht1 Ho Hlen Hni Hbefore Hline Hspac.
  pose proof (mesh3D_header_ok _ _ _ _ _ _ _ _ _ _ Hl0 Ht0 Hn Hl1 Ht1 Ho Hlen)
    as Hhdr.
  assert (i < 3) as Hi by (apply lookup_lt_Some in Hni; simpl in Hni; lia).
  assert ([n0 + 1; n1 + 1; n2 + 1]%Z !! i = Some (n + 1)%Z) as Hdim.
  { destruct i as [|[|[|i]]]; simpl in *; try lia; congruence. }
  assert (∃ o, oo !! i = Some o) as [o Hoi]
    by (apply lookup_lt_is_Some_2; lia).
  assert (Z.of_nat (length spac) = n →
          mesh3D_axis lines [n0 + 1; n1 + 1; n2 + 1]%Z oo i
          = Ok (node_coordinates o spac)) as Hfit.
  { intros <-. by eapply mesh3D_axis_nodes. }
  assert (Z.of_nat (length spac) ≠ n →
          mesh3D_axis lines [n0 + 1; n1 + 1; n2 + 1]%Z oo i
          = Raise (Exception (msg_spacings i))) as Hmis.
  { intros Hne. eapply mesh3D_axis_mismatch; [done..|lia]. }
  split_and!.
  - split.
    + intros Hraise Heq.
      destruct (ubcMesh3D_Exception _ _ _ _ _ _ _ Hhdr Hraise)
        as (j & Hj & Hjraise).
      pose proof (mesh3D_axis_Exception _ _ _ _ _ Hjraise) as Hmsg.
      apply msg_spacings_inj in Hmsg. subst j.
      rewrite (Hfit Heq) in Hjraise. done.
    + intros Hne. eapply ubcMesh3D_first_failure; eauto.
  - split; [|done].
    intros Hraise Heq. rewrite (Hfit Heq) in Hraise. done.
  - intros Heq. eauto.
  - intros j Hj. by apply msg_spacings_inj.
Qed.

(** C6: in a 3D mesh file whose header declares the cell counts
    [(n0,n1,n2)] and the origin [(o0,o1,o2)] and whose spacing lines expand to
    [n0], [n1] and [n2] widths, [ubcMesh3D] sets the dimensions
    [(n0+1,n1+1,n2+1)] and gives each axis [n_i + 1] coordinates: the first
    is the origin of the axis and each next one is the one before it plus the
    next width, on the elevation axis as on the other two. The file with
    header [2 2 1], origin [0 0 0] and spacings [1.0 1.0], [1.0 1.0], [1.0]
    gives the axes [0,1,2], [0,1,2], [0,1] and the dimensions [(3,3,2)]. *)
Theorem ubcMesh3D_coordinates :
  (∀ lines pdo hdr ts extra oline os o0 o1 o2 oextra l0 l1 l2 sp0 sp1 sp2,
     lines !! 0 = Some hdr → tokens hdr = Ok ts →
     mapM np_int ts
     = Some (Z.of_nat (length sp0) :: Z.of_nat (length sp1)
               :: Z.of_nat (length sp2) :: extra) →
     lines !! 1 = Some oline → tokens oline = Ok os →
     mapM np_float os = Some (o0 :: o1 :: o2 :: oextra) →
     lines !! 2 = Some l0 → spacing_widths l0 = Ok sp0 →
     lines !! 3 = Some l1 → spacing_widths l1 = Ok sp1 →
     lines !! 4 = Some l2 → spacing_widths l2 = Ok sp2 →
     ∃ g, ubcMesh3D lines pdo = Ok g
          ∧ g = SetZCoordinates
                  (SetYCoordinates
                     (SetXCoordinates
                        (SetDimensions (default new_vtkRectilinearGrid pdo)
                           (Z.of_nat (length sp0) + 1)
                           (Z.of_nat (length sp1) + 1)
                           (Z.of_nat (length sp2) + 1))
                        (node_coordinates o0 sp0))
                     (node_coordinates o1 sp1))
                  (node_coordinates o2 sp2)
          ∧ axis_rule o0 sp0 (XCoordinates g)
          ∧ axis_rule o1 sp1 (YCoordinates g)
          ∧ axis_rule o2 sp2 (ZCoordinates g))
  ∧ (np_int "2" = Some 2%Z → np_int "1" = Some 1%Z →
     np_float "0" = Some 0%float → np_float "1.0" = Some 1%float →
     ubcMesh3D ["2 2 1"; "0 0 0"; "1.0 1.0"; "1.0 1.0"; "1.0"] None
     = Ok (SetZCoordinates
             (SetYCoordinates
                (SetXCoordinates
                   (SetDimensions new_vtkRectilinearGrid 3 3 2)
                   [0; 1; 2]%float)
                [0; 1; 2]%float)
             [0; 1]%float)).
Proof.
  assert (∀ o spac, axis_rule o spac (node_coordinates o spac)) as Hrule.
  { intros o spac. split_and!.
    - rewrite length_node_coordinates. lia.
    - apply node_coordinates_first.
    - apply node_coordinates_step. }
  assert (∀ lines pdo hdr ts extra oline os o0 o1 o2 oextra l0 l1 l2
            sp0 sp1 sp2,
     lines !! 0 = Some hdr → tokens hdr = Ok ts →
     mapM np_int ts
     = Some (Z.of_nat (length sp0) :: Z.of_nat (length sp1)
               :: Z.of_nat (length sp2) :: extra) →
     lines !! 1 = Some oline → tokens oline = Ok os →
     mapM np_float os = Some (o0 :: o1 :: o2 :: oextra) →
     lines !! 2 = Some l0 → spacing_widths l0 = Ok sp0 →
     lines !! 3 = Some l1 → spacing_widths l1 = Ok sp1 →
     lines !! 4 = Some l2 → spacing_widths l2 = Ok sp2 →
     ubcMesh3D lines pdo
     = Ok (SetZCoordinates
             (SetYCoordinates
                (SetXCoordinates
                   (SetDimensions (default new_vtkRectilinearGrid pdo)
                      (Z.of_nat (length sp0) + 1)
                      (Z.of_nat (length sp1) + 1)
                      (Z.of_nat (length sp2) + 1))
                   (node_coordinates o0 sp0))
                (node_coordinates o1 sp1))
             (node_coordinates o2 sp2))) as Hgen.
  { intros lines pdo hdr ts extra oline os o0 o1 o2 oextra l0 l1 l2
      sp0 sp1 sp2 Hl0 Ht0 Hn Hl1 Ht1 Ho Hs0 Hw0 Hs1 Hw1 Hs2 Hw2.
    pose proof (mesh3D_header_ok _ _ _ _ _ _ _ _ _ _ Hl0 Ht0 Hn Hl1 Ht1 Ho
                  ltac:(simpl; lia)) as Hhdr.
    rewrite (ubcMesh3D_passes _ _ _ _ _ _ Hhdr).
    rewrite (mesh3D_axis_nodes _ _ _ 0 l0 sp0 o0) by done. simpl.
    rewrite (mesh3D_axis_nodes _ _ _ 1 l1 sp1 o1) by done. simpl.
    rewrite (mesh3D_axis_nodes _ _ _ 2 l2 sp2 o2) by done. simpl.
    done. }
  split.
  - intros. eexists. split; [by eapply Hgen|]. split; [done|].
    simpl. auto.
  - intros Hi2 Hi1 Hf0 Hf1.
    rewrite (Hgen _ None "2 2 1" ["2"; "2"; "1"] [] "0 0 0" ["0"; "0"; "0"]
               0%float 0%float 0%float [] "1.0 1.0" "1.0 1.0" "1.0"
               [1; 1]%float [1; 1]%float [1]%float); try done.
    + cbv -[np_int]. by rewrite Hi2, Hi1.
    + cbv -[np_float]. by rewrite Hf0.
    + cbv -[np_float]. by rewrite Hf1.
    + cbv -[np_float]. by rewrite Hf1.
    + cbv -[np_float]. by rewrite Hf1.
Qed.

End Mesh3D.

(** *** Lines with a single run *)

Section SingleRun.
Context `{TextNumerics}.

Lemma for_each_app {A S} (xs ys : list A) (body : A → S → result S) s :
  for_each (xs ++ ys) body s = for_each xs body s ≫= for_each ys body.
Proof.
  revert s; induction xs as [|x xs IH]; intros s; simpl.
  - done.
  - destruct (body x s) as [s'|e]; simpl; [apply IH|done].
Qed.

(** The first loop passes over the tokens without a [*]. *)
Lemma collect_runs_plain (l : list string) a k st :
  (∀ j, a ≤ j < a + k →
     ∃ t, l !! j = Some t ∧ str_contains "*" t = false) →
  for_each (seq a k) (λ j '(ins_idx, ins_spac),
    tok ← getitem l j;
    if str_contains "*" tok
    then let parsed := str_split "*" tok in
         p0 ← getitem parsed 0;
         num ← int_of_str p0;
         dist ← getitem parsed 1;
         let ins := replicate (Z.to_nat num) dist in
         Ok (ins_idx ++ [j], ins_spac ++ [ins])
    else Ok (ins_idx, ins_spac)) st = Ok st.
Proof.
  revert a st; induction k as [|k IH]; intros a st Hplain; [done|].
  cbn [seq for_each]. destruct st as [ins_idx ins_spac].
  destruct (Hplain a ltac:(lia)) as (t & Ht & Hstar).
  rewrite (getitem_Some _ _ _ Ht), bind_Ok, Hstar, bind_Ok.
  apply IH. intros j Hj. apply Hplain. lia.
Qed.

(** The insertions of one expansion [ins] where its token stood. *)
Lemma splice_one (pre post ins_done ins_rest : list string) :
  for_each (seq (length ins_done) (length ins_rest)) (λ k spac_str,
    x ← getitem (ins_done ++ ins_rest) k;
    Ok (list_insert_at spac_str (length pre + k) x))
    (pre ++ ins_done ++ post)
  = Ok (pre ++ ins_done ++ ins_rest ++ post).
Proof.
  revert ins_done; induction ins_rest as [|x ins_rest IH]; intros ins_done.
  - done.
  - cbn [length seq for_each].
    rewrite getitem_middle, bind_Ok by done.
    assert (list_insert_at (pre ++ ins_done ++ post)
              (length pre + length ins_done) x
            = pre ++ (ins_done ++ [x]) ++ post) as ->.
    { unfold list_insert_at. rewrite app_assoc.
      rewrite take_app_length', drop_app_length' by (rewrite length_app; lia).
      by rewrite <- !app_assoc. }
    rewrite bind_Ok.
    replace (S (length ins_done)) with (length (ins_done ++ [x]))
      by (rewrite length_app; simpl; lia).
    replace (ins_done ++ x :: ins_rest) with ((ins_done ++ [x]) ++ ins_rest)
      by (by rewrite <- app_assoc).
    rewrite IH. by rewrite <- !app_assoc.
Qed.

Lemma expand_in_place_plain (l : list string) :
  Forall (λ t, str_contains "*" t = false) l → expand_in_place l = Ok l.
Proof.
  induction 1 as [|t l Ht Hl IH]; simpl; [done|].
  unfold expand_token. by rewrite Ht, bind_Ok, IH.
Qed.

Lemma expand_in_place_app (l1 l2 e1 e2 : list string) :
  expand_in_place l1 = Ok e1 → expand_in_place l2 = Ok e2 →
  expand_in_place (l1 ++ l2) = Ok (e1 ++ e2).
Proof.
  revert e1; induction l1 as [|t l1 IH]; intros e1; simpl.
  - by intros [= <-].
  - destruct (expand_token t) as [e|]; simpl; [|done].
    destruct (expand_in_place l1) as [r|]; simpl; [|done].
    intros [= <-] H2. rewrite (IH r eq_refl H2). simpl.
    by rewrite app_assoc.
Qed.

(** On a spacing line with one run the decoder puts the copies of the width
    where the run stood, as the specification has it. *)
Lemma expand_spacing_single_run pre tok post p0 dist rest num :
  Forall (λ t, str_contains "*" t = false) pre →
  Forall (λ t, str_contains "*" t = false) post →
  str_contains "*" tok = true →
  str_split "*" tok = p0 :: dist :: rest → py_int p0 = Some num →
  expand_spacing (pre ++ tok :: post)
  = Ok (pre ++ replicate (Z.to_nat num) dist ++ post)
  ∧ expand_in_place (pre ++ tok :: post)
    = Ok (pre ++ replicate (Z.to_nat num) dist ++ post).
Proof.
  intros Hpre Hpost Hstar Hsplit Hnum. split.
  - unfold expand_spacing.
    assert (collect_runs (pre ++ tok :: post)
            = Ok ([length pre], [replicate (Z.to_nat num) dist])) as ->.
    { unfold collect_runs, range. rewrite length_app. cbn [length].
      replace (length pre + S (length post))
        with (length pre + (1 + length post)) by lia.
      rewrite seq_app, for_each_app.
      rewrite collect_runs_plain.
      2:{ intros j Hj. assert (j < length pre) as Hlt by lia.
          destruct (lookup_lt_is_Some_2 pre j Hlt) as [t Ht].
          exists t. split; [by rewrite lookup_app_l, Ht|].
          by eapply (proj1 (Forall_lookup _ _) Hpre). }
      rewrite bind_Ok. cbn [seq for_each Nat.add].
      rewrite getitem_middle, bind_Ok by done.
      rewrite Hstar, Hsplit. cbn [getitem lookup list_lookup or_raise].
      rewrite bind_Ok, (int_of_str_Some _ _ Hnum), !bind_Ok.
      apply collect_runs_plain.
      intros j Hj.
      destruct (lookup_lt_is_Some_2 post (j - S (length pre))
                  ltac:(lia)) as [t Ht].
      exists t. split.
      - rewrite lookup_app_r by lia.
        replace (j - length pre) with (S (j - S (length pre))) by lia.
        done.
      - by eapply (proj1 (Forall_lookup _ _) Hpost). }
    rewrite bind_Ok. unfold splice_runs, range.
    cbn [length seq for_each getitem lookup list_lookup or_raise].
    rewrite bind_Ok.
    assert (delitem (pre ++ tok :: post) (length pre) = Ok (pre ++ post))
      as ->.
    { unfold delitem. rewrite decide_True by (rewrite length_app; simpl; lia).
      by rewrite delete_middle. }
    rewrite !bind_Ok.
    pose proof (splice_one pre post [] (replicate (Z.to_nat num) dist))
      as Hsplice.
    cbn [length app] in Hsplice. rewrite Hsplice. done.
  - apply (expand_in_place_app pre (tok :: post) pre);
      [by apply expand_in_place_plain|].
    simpl. unfold expand_token at 1. rewrite Hstar, Hsplit.
    cbn [getitem lookup list_lookup or_raise].
    rewrite bind_Ok, (int_of_str_Some _ _ Hnum), !bind_Ok.
    by rewrite (expand_in_place_plain post Hpost), bind_Ok.
Qed.

End SingleRun.

(** C3: on the spacing line [2*1.0 3*2.0] the decoder of [ubcMesh3D] deletes
    and inserts at the positions the runs had before the first expansion:
    the second run stays in the line, which then fails to convert to
    numbers, where the widths to produce are [1.0 1.0 2.0 2.0 2.0]. *)
Theorem spacing_widths_two_runs `{TextNumerics} :
  py_int "2" = Some 2%Z → py_int "3" = Some 3%Z →
  np_float "1.0" = Some 1%float → np_float "2.0" = Some 2%float →
  np_float "3*2.0" = None →
  expand_spacing ["2*1.0"; "3*2.0"]
  = Ok ["1.0"; "2.0"; "2.0"; "2.0"; "3*2.0"]
  ∧ spacing_widths "2*1.0 3*2.0" = Raise ValueError
  ∧ spec_spacing_widths "2*1.0 3*2.0" = Ok [1; 1; 2; 2; 2]%float.
Proof.
  intros Hi2 Hi3 Hf1 Hf2 Hfrun.
  assert (expand_spacing ["2*1.0"; "3*2.0"]
          = Ok ["1.0"; "2.0"; "2.0"; "2.0"; "3*2.0"]) as Hexp.
  { cbv -[py_int Z.to_nat]. rewrite Hi2, Hi3. reflexivity. }
  split_and!.
  - exact Hexp.
  - unfold spacing_widths.
    change (tokens "2*1.0 3*2.0") with (Ok ["2*1.0"; "3*2.0"]).
    rewrite bind_Ok, Hexp, bind_Ok.
    unfold np_array_float. simpl. by rewrite Hf1, Hf2, Hfrun.
  - cbv -[py_int np_float Z.to_nat]. rewrite Hi2, Hi3. simpl.
    by rewrite Hf1, Hf2.
Qed.

Lemma spacing_widths_two_runs_witness :
  spacing_widths "2*1.0 3*2.0" = Raise ValueError
  ∧ spec_spacing_widths "2*1.0 3*2.0" = Ok [1; 1; 2; 2; 2]%float.
Proof.
  exact (proj2 (@spacing_widths_two_runs decimal_numerics
                  eq_refl eq_refl eq_refl eq_refl eq_refl)).
Defined.

(** A mesh file whose elevation line has two runs, and the same mesh with
    the second run written out. *)
Example ubcMesh3D_two_runs_file :
  ubcMesh3D ["2 2 5"; "0 0 0"; "1.0 1.0"; "1.0 1.0"; "2*1.0 3*2.0"] None
  = Raise ValueError
  ∧ ubcMesh3D ["2 2 5"; "0 0 0"; "1.0 1.0"; "1.0 1.0"; "2*1.0 2.0 2.0 2.0"]
      None
    = Ok (RectilinearGrid (0, 2, 0, 2, 0, 5)%Z
            [0; 1; 2]%float [0; 1; 2]%float [0; 1; 2; 4; 6; 8]%float []).
Proof. split; vm_compute; reflexivity. Qed.

(** ** UBC mesh 2D *)

Section Mesh2D.
Context `{TextNumerics}.

(** A loop that only appends one value per pass. *)
Lemma for_each_append {A B} (xs : list A) (g : A → B) (c : list B) :
  for_each xs (λ x c, Ok (c ++ [g x])) c = Ok (c ++ (g <$> xs)).
Proof.
  revert c; induction xs as [|x xs IH]; intros c; simpl.
  - by rewrite app_nil_r.
  - rewrite IH. by rewrite <- app_assoc.
Qed.

(** The lines of a dimension after its first one add one control point and
    one subdivision count each. *)
Lemma _genTup_body_lengths lines sft (zs : list Z) pts disc pts' disc' :
  Forall (λ i, i ≠ 0%Z) zs →
  for_each zs (λ i '(pts, disc),
    line ← getitem_Z lines (i + sft);
    ln ← tokens line;
    '(pts, ln) ← (if decide (i = 0)%Z
                  then o ← getitem ln 0;
                       l1 ← getitem ln 1;
                       l2 ← getitem ln 2;
                       Ok (pts ++ [o], [l1; l2])
                  else Ok (pts, ln));
    p ← getitem ln 0;
    d ← getitem ln 1;
    Ok (pts ++ [p], disc ++ [d])) (pts, disc) = Ok (pts', disc') →
  length pts' = length pts + length zs
  ∧ length disc' = length disc + length zs.
Proof.
  intros Hzs. revert pts disc.
  induction Hzs as [|i zs Hi Hzs IH]; intros pts disc; simpl.
  - intros [= <- <-]. lia.
  - destruct (getitem_Z lines (i + sft)) as [line|]; simpl; [|done].
    destruct (tokens line) as [ln|]; simpl; [|done].
    rewrite decide_False by done. simpl.
    destruct (getitem ln 0) as [p|]; simpl; [|done].
    destruct (getitem ln 1) as [d|]; simpl; [|done].
    intros Hrest. apply IH in Hrest. rewrite !length_app in Hrest.
    simpl in *. lia.
Qed.

Lemma _genTup_lengths lines sft n pts disc :
  _genTup lines sft n = Ok (pts, disc) →
  (pts = [] ∧ disc = []) ∨ length pts = length disc + 1.
Proof.
  unfold _genTup, range_Z.
  destruct (Z.to_nat (n - 0)) as [|m]; simpl.
  - intros [= <- <-]. by left.
  - match goal with |- context [getitem_Z lines ?i] =>
      destruct (getitem_Z lines i) as [line|] end; simpl; [|done].
    destruct (tokens line) as [ln|]; simpl; [|done].
    destruct (getitem ln 0) as [o|]; simpl; [|done].
    destruct (getitem ln 1) as [l1|]; simpl; [|done].
    destruct (getitem ln 2) as [l2|]; simpl; [|done].
    intros Hrest. right.
    apply _genTup_body_lengths in Hrest.
    + simpl in Hrest. lia.
    + apply Forall_fmap, Forall_forall. intros k Hk.
      apply elem_of_seq in Hk. simpl. lia.
Qed.

(** The loop of [_genCoords] from control point [a] on. *)
Lemma _genCoords_loop pts disc fs ns :
  Forall2 (λ s x, py_float s = Some x) pts fs →
  Forall2 (λ s n, py_int s = Some n) disc ns →
  Forall (λ n, n ≠ 0%Z) ns →
  length fs = S (length ns) →
  ∀ k a c start, a + k = length ns → fs !! a = Some start →
  for_each (seq a k) (λ i c,
    p ← getitem pts i;
    start ← float_of_str p;
    q ← getitem pts (i + 1);
    stop ← float_of_str q;
    d ← getitem disc i;
    num ← int_of_str d;
    w ← float_div_int (PrimFloat.sub stop start) num;
    c ← for_each (range_Z 1 num) (λ j c,
          Ok (c ++ [PrimFloat.add start (PrimFloat.mul (float_of_int j) w)]))
          c;
    Ok (c ++ [stop])) c
  = Ok (c ++ subdivide start (drop (S a) fs) (drop a ns)).
Proof.
  intros Hpts Hdisc Hnz Hlen. induction k as [|k IH]; intros a c start Ha Hst.
  - simpl. rewrite (drop_ge ns) by lia.
    destruct (drop (S a) fs); by rewrite app_nil_r.
  - assert (is_Some (ns !! a)) as [num Hnum]
      by (apply lookup_lt_is_Some_2; lia).
    assert (is_Some (fs !! S a)) as [stop Hstop]
      by (apply lookup_lt_is_Some_2; lia).
    destruct (Forall2_lookup_r _ _ _ _ _ Hpts Hst) as (p & Hp & Hpf).
    destruct (Forall2_lookup_r _ _ _ _ _ Hpts Hstop) as (q & Hq & Hqf).
    destruct (Forall2_lookup_r _ _ _ _ _ Hdisc Hnum) as (d & Hd & Hdn).
    assert (num ≠ 0%Z) as Hn0
      by (eapply (proj1 (Forall_lookup _ _) Hnz); eauto).
    cbn [seq for_each].
    rewrite (getitem_Some _ _ _ Hp), bind_Ok.
    rewrite (float_of_str_Some _ _ Hpf), bind_Ok.
    replace (a + 1) with (S a) by lia.
    rewrite (getitem_Some _ _ _ Hq), bind_Ok.
    rewrite (float_of_str_Some _ _ Hqf), bind_Ok.
    rewrite (getitem_Some _ _ _ Hd), bind_Ok.
    rewrite (int_of_str_Some _ _ Hdn), bind_Ok.
    rewrite (float_div_int_nonzero _ _ Hn0), bind_Ok.
    rewrite for_each_append, !bind_Ok.
    specialize (IH (S a) ((c ++ ((λ j, PrimFloat.add start
                     (PrimFloat.mul (float_of_int j)
                        (PrimFloat.div (PrimFloat.sub stop start)
                           (float_of_int num)))) <$> range_Z 1 num))
                     ++ [stop]) stop ltac:(lia) Hstop).
    rewrite IH.
    rewrite (drop_S fs stop (S a)) by done.
    rewrite (drop_S ns num a) by done.
    simpl. unfold segment_nodes. by rewrite <- !app_assoc.
Qed.

Lemma _genCoords_subdivide pts disc p0 ps ns :
  mapM py_float pts = Some (p0 :: ps) → mapM py_int disc = Some ns →
  Forall (λ n, n ≠ 0%Z) ns → length ps = length ns →
  _genCoords pts disc = Ok (p0 :: subdivide p0 ps ns).
Proof.
  intros Hpts Hdisc Hnz Hlen.
  apply mapM_Some in Hpts. apply mapM_Some in Hdisc.
  pose proof (Forall2_length _ _ _ Hpts) as Hlp.
  unfold _genCoords.
  destruct (Forall2_lookup_r _ _ _ 0 p0 Hpts eq_refl) as (s0 & Hs0 & Hf0).
  rewrite (getitem_Some _ _ _ Hs0); simpl.
  rewrite (float_of_str_Some _ _ Hf0); simpl.
  replace (length pts - 1) with (length ns) by (simpl in Hlp; lia).
  unfold range.
  rewrite (_genCoords_loop pts disc (p0 :: ps) ns Hpts Hdisc Hnz
             ltac:(simpl; lia) (length ns) 0 [p0] p0 eq_refl eq_refl).
  done.
Qed.

Lemma _ubcMesh2D_part_lengths lines xpts xdisc zpts zdisc :
  _ubcMesh2D_part lines = Ok (xpts, xdisc, zpts, zdisc) →
  ((xpts = [] ∧ xdisc = []) ∨ length xpts = length xdisc + 1)
  ∧ ((zpts = [] ∧ zdisc = []) ∨ length zpts = length zdisc + 1).
Proof.
  unfold _ubcMesh2D_part.
  destruct (getitem lines 0) as [l0|]; simpl; [|done].
  destruct (before_comment l0) as [s0|]; simpl; [|done].
  destruct (int_of_str s0) as [nx|]; simpl; [|done].
  destruct (getitem_Z lines (nx + 1)) as [l1|]; simpl; [|done].
  destruct (before_comment l1) as [s1|]; simpl; [|done].
  destruct (int_of_str s1) as [nz|]; simpl; [|done].
  destruct (_genTup lines 1 nx) as [[xp xdi]|] eqn:Hx; simpl; [|done].
  destruct (_genTup lines (2 + nx) nz) as [[zp zdi]|] eqn:Hz; simpl; [|done].
  intros [= <- <- <- <-].
  split; by eapply _genTup_lengths.
Qed.

Lemma mapM_length {A B} (f : A → option B) l k :
  mapM f l = Some k → length k = length l.
Proof. intros Hm. apply mapM_Some in Hm. symmetry. by eapply Forall2_length. Qed.

(** *** The points of a segment *)

Lemma length_range_Z a b : length (range_Z a b) = Z.to_nat (b - a).
Proof. unfold range_Z. by rewrite length_fmap, length_seq. Qed.

Lemma segment_nodes_length start stop num :
  (1 ≤ num)%Z → length (segment_nodes start stop num) = Z.to_nat num.
Proof.
  intros Hn. unfold segment_nodes.
  rewrite length_app, length_fmap, length_range_Z. simpl. lia.
Qed.

Lemma segment_nodes_last start stop num :
  last (segment_nodes start stop num) = Some stop.
Proof. unfold segment_nodes. by rewrite last_snoc. Qed.

Lemma segment_nodes_interior start stop num j :
  (1 ≤ j < num)%Z →
  segment_nodes start stop num !! Z.to_nat (j - 1)
  = Some (PrimFloat.add start
            (PrimFloat.mul (float_of_int j)
               (PrimFloat.div (PrimFloat.sub stop start)
                  (float_of_int num)))).
Proof.
  intros Hj. unfold segment_nodes, range_Z.
  rewrite lookup_app_l by (rewrite !length_fmap, length_seq; lia).
  rewrite <- list_fmap_compose, list_lookup_fmap, lookup_seq_lt by lia.
  simpl. repeat f_equal. lia.
Qed.

Lemma length_subdivide start stops nums :
  length stops = length nums → Forall (λ n, 1 ≤ n)%Z nums →
  Z.of_nat (length (subdivide start stops nums)) = sum_Z nums.
Proof.
  intros Hlen Hpos. revert start stops Hlen.
  induction Hpos as [|num nums Hnum Hpos IH]; intros start stops Hlen.
  - by destruct stops.
  - destruct stops as [|stop stops]; [done|]. simpl in *.
    rewrite length_app, segment_nodes_length by done.
    rewrite Nat2Z.inj_add, IH by lia. lia.
Qed.

(** C7: for a 2D mesh file whose control points and subdivision counts
    convert to numbers, the counts other than zero, [ubcMesh2D] gives each
    of the X and Z axes its first control point followed, for each pair of
    consecutive control points [(start, stop)] with count [num], by the
    interior points [start + j*w], [j = 1..num-1], [w = (stop-start)/num],
    and then by [stop] itself as it was read; the Y axis is the single
    coordinate [0]. *)
Theorem ubcMesh2D_coordinates lines pdo xpts xdisc zpts zdisc
    x0 xs xn z0 zs zn xd zd :
  _ubcMesh2D_part lines = Ok (xpts, xdisc, zpts, zdisc) →
  mapM py_float xpts = Some (x0 :: xs) → mapM py_int xdisc = Some xn →
  Forall (λ n, n ≠ 0%Z) xn →
  mapM py_float zpts = Some (z0 :: zs) → mapM py_int zdisc = Some zn →
  Forall (λ n, n ≠ 0%Z) zn →
  mapM np_int xdisc = Some xd → mapM np_int zdisc = Some zd →
  (∃ g, ubcMesh2D lines pdo = Ok g
        ∧ XCoordinates g = x0 :: subdivide x0 xs xn
        ∧ YCoordinates g = [0%float]
        ∧ ZCoordinates g = z0 :: subdivide z0 zs zn)
  ∧ (∀ start stop stops num nums,
       subdivide start (stop :: stops) (num :: nums)
       = segment_nodes start stop num ++ subdivide stop stops nums)
  ∧ (∀ start stop num,
       last (segment_nodes start stop num) = Some stop
       ∧ ((1 ≤ num)%Z → length (segment_nodes start stop num) = Z.to_nat num)
       ∧ ∀ j, (1 ≤ j < num)%Z →
           segment_nodes start stop num !! Z.to_nat (j - 1)
           = Some (PrimFloat.add start
                     (PrimFloat.mul (float_of_int j)
                        (PrimFloat.div (PrimFloat.sub stop start)
                           (float_of_int num))))).
Proof.
  intros Hpart Hxp Hxn Hxz Hzp Hzn Hzz Hxd Hzd.
  destruct (_ubcMesh2D_part_lengths _ _ _ _ _ Hpart) as [Hlx Hlz].
  pose proof (mapM_length _ _ _ Hxp) as Hxpl.
  pose proof (mapM_length _ _ _ Hxn) as Hxnl.
  pose proof (mapM_length _ _ _ Hzp) as Hzpl.
  pose proof (mapM_length _ _ _ Hzn) as Hznl.
  assert (length xs = length xn) as Hx.
  { destruct Hlx as [[-> ->]|Hlx]; simpl in *; lia. }
  assert (length zs = length zn) as Hz.
  { destruct Hlz as [[-> ->]|Hlz]; simpl in *; lia. }
  split_and!.
  - unfold ubcMesh2D, np_array_int. rewrite Hpart; simpl.
    rewrite Hxd; simpl. rewrite Hzd; simpl.
    rewrite (_genCoords_subdivide _ _ _ _ _ Hxp Hxn Hxz Hx), bind_Ok.
    rewrite (_genCoords_subdivide _ _ _ _ _ Hzp Hzn Hzz Hz), bind_Ok.
    eexists. split; [done|]. done.
  - done.
  - intros start stop num. split_and!.
    + apply segment_nodes_last.
    + apply segment_nodes_length.
    + apply segment_nodes_interior.
Qed.

(** C10, amended: for a 2D mesh file whose subdivision counts convert to
    integers, [ubcExtent2D] returns [(0, nx, 0, 1, 0, nz)] with [nx] and [nz]
    the sum of the subdivision counts of the axis plus one as the 64-bit
    integers of NumPy hold it: the sum plus one itself when that is below
    [2^63] (and not below [-2^63]), which is the number of nodes of the axis
    when every count is at least one, and otherwise the number of that range
    that differs from it by a multiple of [2^64]. [ubcExtent3D], when the
    version of NumPy makes it read the whole file and the file has two rows
    or more, returns the three cell counts of the header as they are
    declared. *)
Theorem ubcExtent2D_node_counts :
  (∀ lines xpts xdisc zpts zdisc xd zd,
     _ubcMesh2D_part lines = Ok (xpts, xdisc, zpts, zdisc) →
     mapM np_int xdisc = Some xd → mapM np_int zdisc = Some zd →
     ubcExtent2D lines
     = Ok (0, wrap_int64 (sum_Z xd + 1), 0, 1, 0, wrap_int64 (sum_Z zd + 1))%Z)
  ∧ (∀ n, (- 2 ^ 63 ≤ n < 2 ^ 63)%Z → wrap_int64 n = n)
  ∧ (∀ n, (- 2 ^ 63 ≤ wrap_int64 n < 2 ^ 63)%Z
          ∧ ((wrap_int64 n - n) mod 2 ^ 64 = 0)%Z)
  ∧ (∀ start stops nums,
       length stops = length nums → Forall (λ n, 1 ≤ n)%Z nums →
       Z.of_nat (length (start :: subdivide start stops nums))
       = (sum_Z nums + 1)%Z)
  ∧ (∀ lines hdr ts n1 n2 n3 extra,
       numpy_has_max_rows = Ok false → 2 ≤ length lines →
       lines !! 0 = Some hdr → tokens hdr = Ok ts →
       mapM np_int ts = Some (n1 :: n2 :: n3 :: extra) →
       ubcExtent3D lines = Ok (0, n1, 0, n2, 0, n3)%Z).
Proof.
  split_and!.
  - intros lines xpts xdisc zpts zdisc xd zd Hpart Hxd Hzd.
    unfold ubcExtent2D, np_array_int. rewrite Hpart; simpl.
    rewrite Hxd; simpl. rewrite Hzd; simpl.
    by rewrite !np_succ_np_sum.
  - apply wrap_int64_small.
  - intros n. split; [apply wrap_int64_range|apply wrap_int64_congruent].
  - intros start stops nums Hlen Hpos. simpl.
    rewrite <- (length_subdivide start stops nums) by done. lia.
  - intros lines hdr ts n1 n2 n3 extra Hv Hlen Hl0 Ht Hn.
    unfold ubcExtent3D, np_array_int. rewrite Hv, bind_Ok.
    destruct lines as [|row0 [|row1 rows]]; simpl in Hlen; [lia|lia|].
    rewrite rows_getitem_rows.
    rewrite (getitem_Some _ _ _ Hl0), bind_Ok. rewrite Ht, bind_Ok.
    rewrite Hn. done.
Qed.

(** ** 2D models *)

Lemma flatten_F_2D {A} `{Inhabited A} (data : ndarray A) r c i j :
  shape data = [r; c] → i < r → j < c →
  flatten_F data !! (j * r + i) = Some (item data [i; j]).
Proof.
  intros Hshape Hi Hj. unfold flatten_F. rewrite Hshape. simpl.
  rewrite list_lookup_fmap.
  rewrite (lookup_flat_map_seq _ r); [| |done|done].
  2:{ intros b _. rewrite !length_fmap.
      rewrite (length_flat_map_seq _ 1); [lia|done]. }
  rewrite list_lookup_fmap.
  replace i with (i * 1 + 0) at 1 by lia.
  rewrite (lookup_flat_map_seq _ 1); [done|done|done|lia].
Qed.

(** C9, amended: for a 2D model file whose header holds the numbers
    [d0 d1] and whose value table is read as a two-dimensional array of [r]
    rows and [c] columns, [ubcModel2D] raises its exception about the format
    exactly when [r] differs from the second number [d1] and [c] from the
    first number [d0]; when either agrees it returns the [r*c] values in
    column-major order, the row index varying fastest. *)
Theorem ubcModel2D_validation FileName lines hdr d0 d1 extra data r c :
  lines !! 0 = Some hdr →
  mapM np_int (str_words hdr) = Some (d0 :: d1 :: extra) →
  genfromtxt_float (drop 1 lines) = Some data →
  shape data = [r; c] →
  (ubcModel2D FileName lines = Raise (Exception (msg_improper FileName))
   ↔ Z.of_nat r ≠ d1 ∧ Z.of_nat c ≠ d0)
  ∧ (Z.of_nat r = d1 ∨ Z.of_nat c = d0 →
     ubcModel2D FileName lines = Ok (flatten_F data))
  ∧ length (flatten_F data) = r * c
  ∧ (∀ i j, i < r → j < c →
       flatten_F data !! (j * r + i) = Some (item data [i; j])).
Proof.
  intros Hl0 Hdim Hdata Hshape.
  assert (ubcModel2D FileName lines
          = if decide (Z.of_nat r ≠ d1 ∧ Z.of_nat c ≠ d0)
            then Raise (Exception (msg_improper FileName))
            else Ok (flatten_F data)) as ->.
  { unfold ubcModel2D, np_array_int.
    rewrite (getitem_Some _ _ _ Hl0), bind_Ok. rewrite Hdim; simpl.
    rewrite Hdata; simpl. rewrite Hshape; simpl.
    destruct (decide (Z.of_nat r ≠ d1)) as [Hr|Hr]; simpl.
    - destruct (decide (Z.of_nat c ≠ d0)) as [Hc|Hc].
      + rewrite bool_decide_eq_true_2 by done.
        by rewrite decide_True.
      + rewrite bool_decide_eq_false_2 by done.
        rewrite decide_False; [done|]. by intros [_ ?].
    - rewrite decide_False; [done|]. by intros [? _]. }
  split_and!.
  - case_decide; [done|]. split; [done|]. by intros.
  - intros Hor. rewrite decide_False; [done|].
    intros [Hr Hc]. destruct Hor; done.
  - unfold flatten_F. rewrite Hshape. simpl.
    rewrite length_fmap. rewrite (length_flat_map_seq _ r); [lia|].
    intros j _. rewrite length_fmap.
    rewrite (length_flat_map_seq _ 1); [lia|done].
  - intros i j. by apply flatten_F_2D.
Qed.

(** ** OcTree *)

Lemma np_unique_size_1 a b c :
  1 < length (np_unique [a; b; c]) ↔ ¬ (a = b ∧ b = c).
Proof.
  split.
  - intros Hlt [-> ->]. revert Hlt. unfold np_unique.
    assert (merge_sort Z.le [c; c; c] ≡ₚ [c; c; c]) as Hp
      by apply merge_sort_Permutation.
    assert (∀ x, x ∈ merge_sort Z.le [c; c; c] → x = c) as Hall.
    { intros x Hx. rewrite Hp in Hx.
      repeat (apply elem_of_cons in Hx as [->|Hx]; [done|]).
      by apply elem_of_nil in Hx. }
    pose proof (NoDup_remove_dups (merge_sort Z.le [c; c; c])) as Hnd.
    destruct (remove_dups (merge_sort Z.le [c; c; c]))
      as [|x [|y l]] eqn:Hrd; simpl; try lia.
    assert (x = c) by (apply Hall, elem_of_remove_dups; rewrite Hrd; set_solver).
    assert (y = c) by (apply Hall, elem_of_remove_dups; rewrite Hrd; set_solver).
    subst. apply NoDup_cons in Hnd as [Hnd _]. set_solver.
  - intros Hne. unfold np_unique.
    assert (∃ x y, x ≠ y ∧ x ∈ [a; b; c] ∧ y ∈ [a; b; c]) as (x & y & Hxy & Hx & Hy).
    { destruct (decide (a = b)) as [->|Hab].
      - exists b, c. split; [by intros ->; apply Hne|set_solver].
      - exists a, b. set_solver. }
    assert (x ∈ remove_dups (merge_sort Z.le [a; b; c])) as Hx'
      by (apply elem_of_remove_dups; by rewrite merge_sort_Permutation).
    assert (y ∈ remove_dups (merge_sort Z.le [a; b; c])) as Hy'
      by (apply elem_of_remove_dups; by rewrite merge_sort_Permutation).
    destruct (remove_dups (merge_sort Z.le [a; b; c])) as [|u [|v l]];
      simpl; [set_solver| |lia].
    apply list_elem_of_singleton in Hx', Hy'. congruence.
Qed.

(** C8: an OcTree file of two rows or more whose first row holds integers
    of which the first three are not all equal makes [ubcOcTree] raise its
    exception about the number of cells, whatever the rows after the first
    are and whatever the reading of the index table would do; when the three
    are equal the reader does not raise that exception. Of a file of a single
    row NumPy makes an array without an axis, and the reader raises
    [IndexError] at its first look at it. *)
Theorem ubcOcTree_core_dimensions hdr row rest ts a b c pad :
  tokens hdr = Ok ts → mapM np_int ts = Some (a :: b :: c :: pad) →
  (¬ (a = b ∧ b = c) →
   ubcOcTree (hdr :: row :: rest) = Raise (Exception msg_octree)
   ∧ ∀ row' rest',
       ubcOcTree (hdr :: row' :: rest') = ubcOcTree (hdr :: row :: rest))
  ∧ (a = b ∧ b = c →
     ubcOcTree (hdr :: row :: rest) ≠ Raise (Exception msg_octree))
  ∧ ubcOcTree [hdr] = Raise IndexError.
Proof.
  intros Ht Hn.
  assert (∀ row0 rest0,
    ubcOcTree (hdr :: row0 :: rest0)
    = if decide (1 < length (np_unique [a; b; c]))
      then Raise (Exception msg_octree)
      else
        l1 ← rows_getitem (hdr :: row0 :: rest0) 1;
        t1 ← tokens l1;
        oo ← np_array_float t1;
        oe ← getitem oo 0;
        on ← getitem oo 1;
        oz ← getitem oo 2;
        l2 ← rows_getitem (hdr :: row0 :: rest0) 2;
        t2 ← tokens l2;
        ww ← np_array_float t2;
        we ← getitem ww 0;
        wn ← getitem ww 1;
        wz ← getitem ww 2;
        l3 ← rows_getitem (hdr :: row0 :: rest0) 3;
        t3 ← tokens l3;
        numCells ← np_array_float t3;
        indArr ← or_raise ValueError
                    (genfromtxt_int (drop 4 (hdr :: row0 :: rest0)));
        Ok [PrintStr "This reader is not fully implemented yet";
            PrintArray indArr]) as Hunf.
  { intros row0 rest0. unfold ubcOcTree, np_array_int.
    rewrite (rows_getitem_rows hdr row0 rest0 0).
    change (getitem (hdr :: row0 :: rest0) 0) with (Ok (A:=string) hdr).
    rewrite bind_Ok, Ht, bind_Ok, Hn. done. }
  split_and!.
  - intros Hne. split.
    + rewrite Hunf, decide_True; [done|]. by apply np_unique_size_1.
    + intros row' rest'. rewrite !Hunf, !decide_True; try done;
        by apply np_unique_size_1.
  - intros Heq. rewrite Hunf, decide_False
      by (rewrite np_unique_size_1; tauto).
    unfold np_array_float.
    apply builtin_only_bind; [auto with builtin|intros].
    repeat (apply builtin_only_bind; [auto with builtin|intros]).
    auto with builtin.
  - unfold ubcOcTree. by rewrite rows_getitem_short.
Qed.

End Mesh2D.

(** ** The readers on concrete files *)

Lemma ubcMesh3D_spacing_count_witness :
  ubcMesh3D ["2 2 1"; "0 0 0"; "1.0 1.0"; "1.0 1.0 1.0"; "1.0"] None
  = Raise (Exception (msg_spacings 1)).
Proof.
  refine (proj2 (proj1 (@ubcMesh3D_spacing_count decimal_numerics
    ["2 2 1"; "0 0 0"; "1.0 1.0"; "1.0 1.0 1.0"; "1.0"] None
    "2 2 1" ["2"; "2"; "1"] 2%Z 2%Z 1%Z [] "0 0 0" ["0"; "0"; "0"]
    [0; 0; 0]%float 1 2%Z "1.0 1.0 1.0" [1; 1; 1]%float
    eq_refl eq_refl eq_refl eq_refl eq_refl eq_refl _ eq_refl _
    eq_refl eq_refl)) _).
  - simpl. lia.
  - intros j Hj. assert (j = 0) as -> by lia.
    exists [0; 1; 2]%float. vm_compute. reflexivity.
  - simpl. lia.
Defined.

Lemma ubcMesh3D_coordinates_witness :
  ubcMesh3D ["2 2 1"; "0 0 0"; "1.0 1.0"; "1.0 1.0"; "1.0"] None
  = Ok (RectilinearGrid (0, 2, 0, 2, 0, 1)%Z
          [0; 1; 2]%float [0; 1; 2]%float [0; 1]%float [])
  ∧ ∃ g, ubcMesh3D ["3 1 2"; "10 20 30"; "3*2.5"; "4"; "1 0.5"] None = Ok g
         ∧ XCoordinates g = [10; 12.5; 15; 17.5]%float
         ∧ YCoordinates g = [20; 24]%float
         ∧ ZCoordinates g = [30; 31; 31.5]%float.
Proof.
  split.
  - exact (proj2 (@ubcMesh3D_coordinates decimal_numerics)
             eq_refl eq_refl eq_refl eq_refl).
  - destruct (proj1 (@ubcMesh3D_coordinates decimal_numerics)
      ["3 1 2"; "10 20 30"; "3*2.5"; "4"; "1 0.5"] None
      "3 1 2" ["3"; "1"; "2"] [] "10 20 30" ["10"; "20"; "30"]
      10%float 20%float 30%float [] "3*2.5" "4" "1 0.5"
      [2.5; 2.5; 2.5]%float [4]%float [1; 0.5]%float
      eq_refl eq_refl eq_refl eq_refl eq_refl eq_refl
      eq_refl eq_refl eq_refl eq_refl eq_refl eq_refl)
      as (g & Hg & -> & _).
    exists (RectilinearGrid (0, 3, 0, 1, 0, 2)%Z
              [10; 12.5; 15; 17.5]%float [20; 24]%float [30; 31; 31.5]%float
              []).
    split; [exact Hg|]. repeat split; reflexivity.
Defined.

Lemma ubcMesh2D_coordinates_witness :
  ∃ g, ubcMesh2D ["2"; "0 10 2"; "20 4"; "1"; "0 5 5"] None = Ok g
       ∧ XCoordinates g = [0; 5; 10; 12.5; 15; 17.5; 20]%float
       ∧ YCoordinates g = [0]%float
       ∧ ZCoordinates g = [0; 1; 2; 3; 4; 5]%float.
Proof.
  exact (proj1 (@ubcMesh2D_coordinates decimal_numerics
    ["2"; "0 10 2"; "20 4"; "1"; "0 5 5"] None
    ["0"; "10"; "20"] ["2"; "4"] ["0"; "5"] ["5"]
    0%float [10; 20]%float [2; 4]%Z 0%float [5]%float [5]%Z [2; 4]%Z [5]%Z
    eq_refl eq_refl eq_refl
    (bool_decide_unpack (Forall (λ n, n ≠ 0%Z) [2; 4]%Z) I)
    eq_refl eq_refl
    (bool_decide_unpack (Forall (λ n, n ≠ 0%Z) [5]%Z) I)
    eq_refl eq_refl)).
Defined.

Lemma ubcExtent2D_node_counts_witness :
  ubcExtent2D ["2"; "0 10 2"; "20 4"; "1"; "0 5 5"]
  = Ok (0, 7, 0, 1, 0, 6)%Z
  ∧ @ubcExtent3D decimal_numerics_1_9
      ["3 1 2"; "10 20 30"; "3*2.5"; "4"; "1 0.5"]
    = Ok (0, 3, 0, 1, 0, 2)%Z.
Proof.
  split.
  - exact (proj1 (@ubcExtent2D_node_counts decimal_numerics)
      ["2"; "0 10 2"; "20 4"; "1"; "0 5 5"]
      ["0"; "10"; "20"] ["2"; "4"] ["0"; "5"] ["5"] [2; 4]%Z [5]%Z
      eq_refl eq_refl eq_refl).
  - refine (proj2 (proj2 (proj2 (proj2
      (@ubcExtent2D_node_counts decimal_numerics_1_9))))
      ["3 1 2"; "10 20 30"; "3*2.5"; "4"; "1 0.5"]
      "3 1 2" ["3"; "1"; "2"] 3%Z 1%Z 2%Z [] eq_refl _ eq_refl eq_refl
      eq_refl).
    simpl. lia.
Defined.

(** C10 as stated does not hold. With the counts [9223372036854775807] and
    [1] on the X axis the sum plus one is [2^63 + 1], and [ubcExtent2D]
    returns [-9223372036854775807], the value 64 bits hold for it. And under
    NumPy 1.14 [ubcExtent3D] reads one row with [max_rows=1], gets an array
    without an axis, and raises [IndexError] where the header declares the
    cell counts [3 1 2]. *)
Lemma ubcExtent2D_node_counts_counterexample :
  ¬ (∀ lines xpts xdisc zpts zdisc xd zd,
       _ubcMesh2D_part lines = Ok (xpts, xdisc, zpts, zdisc) →
       mapM np_int xdisc = Some xd → mapM np_int zdisc = Some zd →
       ubcExtent2D lines = Ok (0, sum_Z xd + 1, 0, 1, 0, sum_Z zd + 1)%Z)
  ∧ ubcExtent2D ["2"; "0 10 9223372036854775807"; "20 1"; "1"; "0 5 5"]
    = Ok (0, -9223372036854775807, 0, 1, 0, 6)%Z
  ∧ ¬ (∀ lines hdr ts n1 n2 n3 extra,
         lines !! 0 = Some hdr → tokens hdr = Ok ts →
         mapM np_int ts = Some (n1 :: n2 :: n3 :: extra) →
         ubcExtent3D lines = Ok (0, n1, 0, n2, 0, n3)%Z)
  ∧ ubcExtent3D ["3 1 2"; "10 20 30"; "3*2.5"; "4"; "1 0.5"]
    = Raise IndexError.
Proof.
  split_and!.
  - intros Hall.
    specialize (Hall
      ["2"; "0 10 9223372036854775807"; "20 1"; "1"; "0 5 5"]
      ["0"; "10"; "20"] ["9223372036854775807"; "1"] ["0"; "5"] ["5"]
      [9223372036854775807; 1]%Z [5]%Z eq_refl eq_refl eq_refl).
    vm_compute in Hall. discriminate Hall.
  - vm_compute. reflexivity.
  - intros Hall.
    specialize (Hall ["3 1 2"; "10 20 30"; "3*2.5"; "4"; "1 0.5"]
      "3 1 2" ["3"; "1"; "2"] 3%Z 1%Z 2%Z [] eq_refl eq_refl eq_refl).
    vm_compute in Hall. discriminate Hall.
  - vm_compute. reflexivity.
Qed.

Lemma ubcModel2D_validation_witness :
  ubcModel2D "model" ["3 2"; "1 2 3"; "4 5 6"]
  = Ok [1; 4; 2; 5; 3; 6]%float.
Proof.
  refine (proj1 (proj2 (@ubcModel2D_validation decimal_numerics
    "model" ["3 2"; "1 2 3"; "4 5 6"] "3 2" 3%Z 2%Z []
    (NDArray [1; 2; 3; 4; 5; 6]%float [2; 3] [3; 1]) 2 3
    eq_refl eq_refl eq_refl eq_refl)) _).
  left. reflexivity.
Defined.

(** C9 as stated does not hold: with the header [2 3] read as
    [(rows, cols)] and a table of two rows and three columns, the table has
    the declared shape in both dimensions and [ubcModel2D] rejects the
    file. *)
Lemma ubcModel2D_rows_cols_counterexample :
  ¬ (∀ FileName lines hdr rows cols extra data r c,
       lines !! 0 = Some hdr →
       mapM np_int (str_words hdr) = Some (rows :: cols :: extra) →
       genfromtxt_float (drop 1 lines) = Some data →
       shape data = [r; c] →
       (ubcModel2D FileName lines = Raise (Exception (msg_improper FileName))
        ↔ spec_model2D_rejects rows cols r c)).
Proof.
  intros Hall.
  destruct (proj1 (Hall "model" ["2 3"; "1 2 3"; "4 5 6"] "2 3"
              2%Z 3%Z [] (NDArray [1; 2; 3; 4; 5; 6]%float [2; 3] [3; 1]) 2 3
              eq_refl eq_refl eq_refl eq_refl) eq_refl) as [Hrows _].
  by apply Hrows.
Qed.

Lemma ubcOcTree_core_dimensions_witness :
  ubcOcTree ["4 4 5 1 1 1"; "0 0 0"; "1 1 1"; "2"; "1 1 1 4"; "1 1 5 x"]
  = Raise (Exception msg_octree).
Proof.
  refine (proj1 (proj1 (@ubcOcTree_core_dimensions decimal_numerics
    "4 4 5 1 1 1" "0 0 0" ["1 1 1"; "2"; "1 1 1 4"; "1 1 5 x"]
    ["4"; "4"; "5"; "1"; "1"; "1"] 4%Z 4%Z 5%Z [1; 1; 1]%Z
    eq_refl eq_refl) _)).
  lia.
Defined.


(** * Further properties of the readers *)

(** ** Inversion of the monad and loop invariants *)

Lemma bind_Ok_inv {A B} (r : result A) (f : A → result B) b :
  r ≫= f = Ok b → ∃ a, r = Ok a ∧ f a = Ok b.
Proof. destruct r as [a|e]; simpl; [eauto|done]. Qed.

Lemma getitem_Ok_inv {A} (l : list A) i x : getitem l i = Ok x → l !! i = Some x.
Proof. unfold getitem. destruct (l !! i); simpl; congruence. Qed.

Lemma or_raise_Ok_inv {A} e (o : option A) a : or_raise e o = Ok a → o = Some a.
Proof. destruct o; simpl; congruence. Qed.

(** A property of the loop state that every pass keeps holds when the loop
    returns. *)
Lemma for_each_invariant {A S} (P : S → Prop) (xs : list A)
    (body : A → S → result S) s s' :
  (∀ x t t', P t → body x t = Ok t' → P t') →
  P s → for_each xs body s = Ok s' → P s'.
Proof.
  intros Hbody. revert s. induction xs as [|x xs IH]; intros s Hs; simpl.
  - by intros [= <-].
  - intros (t & Ht & Hrest)%bind_Ok_inv. eapply IH; [|done]. eauto.
Qed.

(** ** Comments and tokens *)

Lemma string_app_cons a s t : String a s +:+ t = String a (s +:+ t).
Proof. reflexivity. Qed.

Lemma string_app_assoc s t u : (s +:+ t) +:+ u = s +:+ (t +:+ u).
Proof.
  induction s as [|a s IH]; [done|].
  by rewrite !string_app_cons, IH.
Qed.

Lemma string_app_nil_r s : s +:+ "" = s.
Proof. induction s as [|a s IH]; [done|]. by rewrite string_app_cons, IH. Qed.

(** The first piece of [(s + "!" + c).split("!")] is [s] when [s] has no
    [!]. *)
Lemma str_split_from_first sep s c cur :
  str_contains sep s = false →
  str_split_from sep (s +:+ String sep c) cur
  = (cur +:+ s) :: str_split_from sep c "".
Proof.
  revert cur; induction s as [|a s IH]; intros cur Hs.
  - change ("" +:+ String sep c) with (String sep c).
    cbn [str_split_from]. rewrite Ascii.eqb_refl.
    by rewrite string_app_nil_r.
  - rewrite string_app_cons. cbn [str_split_from str_contains] in *.
    destruct (Ascii.eqb a sep) eqn:Ha; [done|].
    rewrite IH by done. by rewrite string_app_assoc.
Qed.

Lemma str_split_from_none sep s cur :
  str_contains sep s = false → str_split_from sep s cur = [cur +:+ s].
Proof.
  revert cur; induction s as [|a s IH]; intros cur Hs.
  - by rewrite string_app_nil_r.
  - cbn [str_split_from str_contains] in *.
    destruct (Ascii.eqb a sep) eqn:Ha; [done|].
    rewrite IH by done. by rewrite string_app_assoc.
Qed.

Lemma tokens_no_comment s :
  str_contains "!" s = false → tokens s = Ok (str_words s).
Proof.
  intros Hs. unfold tokens, before_comment, str_split.
  by rewrite str_split_from_none.
Qed.

(** The text from the first [!] of a line on does not reach the tokens. *)
Lemma tokens_comment s c :
  str_contains "!" s = false → tokens (s +:+ String "!" c) = tokens s.
Proof.
  intros Hs. rewrite (tokens_no_comment s Hs).
  unfold tokens, before_comment, str_split.
  by rewrite str_split_from_first.
Qed.

Section MoreReaders.
Context `{TextNumerics}.

Lemma numpy_has_max_rows_raises e :
  numpy_has_max_rows = Raise e → e = IndexError.
Proof.
  unfold numpy_has_max_rows, getitem.
  destruct (np_version !! 0) as [v0|]; simpl; [|congruence].
  case_decide; [|done].
  destruct (np_version !! 1) as [v1|]; simpl; congruence.
Qed.

Lemma numpy_has_max_rows_version v0 v1 v :
  np_version = v0 :: v1 :: v →
  numpy_has_max_rows = Ok (bool_decide (1 ≤ v0 ∧ 10 ≤ v1)%Z).
Proof.
  intros Hv. unfold numpy_has_max_rows. rewrite Hv. simpl.
  case_decide as H0; simpl.
  - f_equal. apply bool_decide_ext. tauto.
  - f_equal. symmetry. apply bool_decide_eq_false_2. tauto.
Qed.

(** With [max_rows=1] the array has no axis. *)
Lemma ubcExtent3D_max_rows lines :
  numpy_has_max_rows = Ok true → ubcExtent3D lines = Raise IndexError.
Proof.
  intros Hv. unfold ubcExtent3D. rewrite Hv, bind_Ok.
  rewrite rows_getitem_short; [done|].
  rewrite length_take. lia.
Qed.

Lemma ubcExtent3D_whole_file hdr row rest :
  numpy_has_max_rows = Ok false →
  ubcExtent3D (hdr :: row :: rest)
  = (t0 ← tokens hdr;
     dim ← np_array_int t0;
     let dim := slice dim 0 3 in
     ne ← getitem dim 0;
     nn ← getitem dim 1;
     nz ← getitem dim 2;
     Ok (0, ne, 0, nn, 0, nz)%Z).
Proof.
  intros Hv. unfold ubcExtent3D. rewrite Hv, bind_Ok.
  by rewrite rows_getitem_rows.
Qed.

(** X1: what [ubcExtent3D] does depends on the version [v] of NumPy. When
    the test [v[0] >= 1 and v[1] >= 10] of the reader holds, it reads one row
    with [max_rows=1], NumPy makes of it an array without an axis, and the
    reader raises [IndexError] on every file. When the test fails it reads the
    whole file: it raises [IndexError] on a file of a single row, and on a
    file of two rows or more the rows after the first change neither the
    tuple it returns nor the exception it raises. *)
Theorem ubcExtent3D_by_version :
  (∀ v0 v1 v, np_version = v0 :: v1 :: v →
     numpy_has_max_rows = Ok (bool_decide (1 ≤ v0 ∧ 10 ≤ v1)%Z))
  ∧ (numpy_has_max_rows = Ok true →
       ∀ lines, ubcExtent3D lines = Raise IndexError)
  ∧ (numpy_has_max_rows = Ok false →
       (∀ hdr, ubcExtent3D [hdr] = Raise IndexError)
       ∧ ∀ hdr row rest row' rest',
           ubcExtent3D (hdr :: row :: rest) = ubcExtent3D (hdr :: row' :: rest')).
Proof.
  split_and!.
  - apply numpy_has_max_rows_version.
  - intros Hv lines. by apply ubcExtent3D_max_rows.
  - intros Hv. split.
    + intros hdr. unfold ubcExtent3D. rewrite Hv, bind_Ok.
      by rewrite rows_getitem_short.
    + intros hdr row rest row' rest'.
      by rewrite !ubcExtent3D_whole_file.
Qed.

End MoreReaders.

Lemma ubcExtent3D_by_version_witness :
  ubcExtent3D ["10 20 30"; "0 0 0"; "1 1"] = Raise IndexError
  ∧ @ubcExtent3D decimal_numerics_1_9 ["10 20 30"] = Raise IndexError
  ∧ @ubcExtent3D decimal_numerics_1_9 ["10 20 30"; "0 0 0"; "1 1"]
    = Ok (0, 10, 0, 20, 0, 30)%Z.
Proof.
  split_and!.
  - exact (proj1 (proj2 (@ubcExtent3D_by_version decimal_numerics)) eq_refl
             ["10 20 30"; "0 0 0"; "1 1"]).
  - exact (proj1 (proj2 (proj2 (@ubcExtent3D_by_version decimal_numerics_1_9))
                    eq_refl) "10 20 30").
  - exact (eq_trans
             (proj2 (proj2 (proj2 (@ubcExtent3D_by_version
                                     decimal_numerics_1_9)) eq_refl)
                "10 20 30" "0 0 0" ["1 1"] "" [])
             eq_refl).
Defined.

(** ** What [ubcMesh3D] returns *)

Section Mesh3DReturns.
Context `{TextNumerics}.

Lemma mesh3D_header_Ok_inv lines dim oo :
  mesh3D_header lines = Ok (dim, oo) →
  ∃ hdr ts n0 n1 n2 extra oline os,
    lines !! 0 = Some hdr ∧ tokens hdr = Ok ts
    ∧ mapM np_int ts = Some (n0 :: n1 :: n2 :: extra)
    ∧ lines !! 1 = Some oline ∧ tokens oline = Ok os
    ∧ mapM np_float os = Some oo ∧ 3 ≤ length oo
    ∧ dim = [n0 + 1; n1 + 1; n2 + 1]%Z.
Proof.
  unfold mesh3D_header, np_array_int, np_array_float.
  intros (hdr & Hhdr%getitem_Ok_inv & Hr)%bind_Ok_inv.
  apply bind_Ok_inv in Hr as (ts & Hts & Hr).
  apply bind_Ok_inv in Hr as (ns & Hns%or_raise_Ok_inv & Hr).
  apply bind_Ok_inv in Hr as (n0 & Hn0%getitem_Ok_inv & Hr).
  apply bind_Ok_inv in Hr as (n1 & Hn1%getitem_Ok_inv & Hr).
  apply bind_Ok_inv in Hr as (n2 & Hn2%getitem_Ok_inv & Hr).
  apply bind_Ok_inv in Hr as (oline & Holine%getitem_Ok_inv & Hr).
  apply bind_Ok_inv in Hr as (os & Hos & Hr).
  apply bind_Ok_inv in Hr as (oo' & Hoo%or_raise_Ok_inv & Hr).
  apply bind_Ok_inv in Hr as (oe & Hoe%getitem_Ok_inv & Hr).
  apply bind_Ok_inv in Hr as (on & Hon%getitem_Ok_inv & Hr).
  apply bind_Ok_inv in Hr as (oz & Hoz%getitem_Ok_inv & Hr).
  injection Hr as <- <-.
  destruct ns as [|m0 [|m1 [|m2 extra]]]; simplify_eq/=.
  exists hdr, ts, n0, n1, n2, extra, oline, os.
  split_and!; try done.
  apply lookup_lt_Some in Hoz. lia.
Qed.

Lemma mesh3D_axis_Ok_inv lines dim oo i s :
  mesh3D_axis lines dim oo i = Ok s →
  ∃ line spac o,
    lines !! (i + 2) = Some line ∧ spacing_widths line = Ok spac
    ∧ dim !! i = Some (Z.of_nat (length spac) + 1)%Z ∧ oo !! i = Some o
    ∧ s = node_coordinates o spac.
Proof.
  unfold mesh3D_axis.
  intros (line & Hline%getitem_Ok_inv & Hr)%bind_Ok_inv.
  apply bind_Ok_inv in Hr as (spac & Hspac & Hr).
  apply bind_Ok_inv in Hr as (di & Hdi%getitem_Ok_inv & Hr).
  case_decide as Hlen; [done|].
  assert (di = Z.of_nat (length spac) + 1)%Z as -> by lia.
  assert (∃ o, oo !! i = Some o) as [o Ho].
  { revert Hr. unfold axis_coordinates.
    intros (z & _ & Hr)%bind_Ok_inv.
    apply bind_Ok_inv in Hr as (o & Ho%getitem_Ok_inv & _). eauto. }
  rewrite (axis_coordinates_nodes i oo o spac Ho) in Hr.
  injection Hr as <-. by exists line, spac, o.
Qed.

(** The file behind a grid that [ubcMesh3D] returned. *)
Lemma ubcMesh3D_Ok_inv lines pdo g :
  ubcMesh3D lines pdo = Ok g →
  ∃ hdr ts extra oline os oo o0 o1 o2 l0 l1 l2 sp0 sp1 sp2,
    lines !! 0 = Some hdr ∧ tokens hdr = Ok ts
    ∧ mapM np_int ts
      = Some (Z.of_nat (length sp0) :: Z.of_nat (length sp1)
                :: Z.of_nat (length sp2) :: extra)
    ∧ lines !! 1 = Some oline ∧ tokens oline = Ok os
    ∧ mapM np_float os = Some oo
    ∧ oo !! 0 = Some o0 ∧ oo !! 1 = Some o1 ∧ oo !! 2 = Some o2
    ∧ lines !! 2 = Some l0 ∧ spacing_widths l0 = Ok sp0
    ∧ lines !! 3 = Some l1 ∧ spacing_widths l1 = Ok sp1
    ∧ lines !! 4 = Some l2 ∧ spacing_widths l2 = Ok sp2
    ∧ g = SetZCoordinates
            (SetYCoordinates
               (SetXCoordinates
                  (SetDimensions (default new_vtkRectilinearGrid pdo)
                     (Z.of_nat (length sp0) + 1)
                     (Z.of_nat (length sp1) + 1)
                     (Z.of_nat (length sp2) + 1))
                  (node_coordinates o0 sp0))
               (node_coordinates o1 sp1))
            (node_coordinates o2 sp2).
Proof.
  intros Hg.
  destruct (mesh3D_header lines) as [[dim oo]|e] eqn:Hhdr;
    [|by unfold ubcMesh3D in Hg; rewrite Hhdr in Hg].
  destruct (mesh3D_header_Ok_inv _ _ _ Hhdr)
    as (hdr & ts & n0 & n1 & n2 & extra & oline & os
        & Hl0 & Hts & Hns & Hl1 & Hos & Hoo & Hlen & ->).
  rewrite (ubcMesh3D_passes _ _ _ _ _ _ Hhdr) in Hg.
  apply bind_Ok_inv in Hg as (x & Hx & Hg).
  apply bind_Ok_inv in Hg as (y & Hy & Hg).
  apply bind_Ok_inv in Hg as (z & Hz & Hg).
  apply mesh3D_axis_Ok_inv in Hx as (l0 & sp0 & o0 & Hx1 & Hx2 & Hx3 & Hx4 & ->).
  apply mesh3D_axis_Ok_inv in Hy as (l1 & sp1 & o1 & Hy1 & Hy2 & Hy3 & Hy4 & ->).
  apply mesh3D_axis_Ok_inv in Hz as (l2 & sp2 & o2 & Hz1 & Hz2 & Hz3 & Hz4 & ->).
  simpl in Hx3, Hy3, Hz3.
  assert (n0 = Z.of_nat (length sp0)) as -> by (injection Hx3; lia).
  assert (n1 = Z.of_nat (length sp1)) as -> by (injection Hy3; lia).
  assert (n2 = Z.of_nat (length sp2)) as -> by (injection Hz3; lia).
  injection Hg as <-.
  exists hdr, ts, extra, oline, os, oo, o0, o1, o2, l0, l1, l2, sp0, sp1, sp2.
  split_and!; done.
Qed.

(** X2: a grid that [ubcMesh3D] returns is consistent: the file has at least
    five lines, the upper extents are cell counts [n0, n1, n2 >= 0], each axis
    has one coordinate more than cells, and the cell data of the grid passed
    in (none for a new grid) are kept. *)
Theorem ubcMesh3D_grid_consistent lines pdo g :
  ubcMesh3D lines pdo = Ok g →
  ∃ n0 n1 n2 : nat,
    5 ≤ length lines
    ∧ Extent g = (0, Z.of_nat n0, 0, Z.of_nat n1, 0, Z.of_nat n2)%Z
    ∧ length (XCoordinates g) = n0 + 1
    ∧ length (YCoordinates g) = n1 + 1
    ∧ length (ZCoordinates g) = n2 + 1
    ∧ CellData g = CellData (default new_vtkRectilinearGrid pdo).
Proof.
  intros (hdr & ts & extra & oline & os & oo & o0 & o1 & o2 & l0 & l1 & l2
          & sp0 & sp1 & sp2 & _ & _ & _ & _ & _ & _ & _ & _ & _ & _ & _ & _
          & _ & Hl2 & _ & ->)%ubcMesh3D_Ok_inv.
  exists (length sp0), (length sp1), (length sp2). simpl.
  rewrite !length_node_coordinates.
  split_and!; try done; try lia.
  - apply lookup_lt_Some in Hl2. lia.
  - by rewrite !Z.add_simpl_r.
Qed.

(** X3: on a file from which [ubcMesh3D] builds a grid, [ubcExtent3D]
    returns the extent of that grid when the version of NumPy makes it read
    the whole file, and raises [IndexError] when it makes it read with
    [max_rows=1]. *)
Theorem ubcExtent3D_is_mesh_extent lines pdo g :
  ubcMesh3D lines pdo = Ok g →
  (numpy_has_max_rows = Ok false → ubcExtent3D lines = Ok (Extent g))
  ∧ (numpy_has_max_rows = Ok true → ubcExtent3D lines = Raise IndexError).
Proof.
  intros (hdr & ts & extra & oline & os & oo & o0 & o1 & o2 & l0 & l1 & l2
          & sp0 & sp1 & sp2 & Hl0 & Hts & Hns & Hl1 & _ & _ & _ & _ & _ & _
          & _ & _ & _ & _ & _ & ->)%ubcMesh3D_Ok_inv.
  split; [|apply ubcExtent3D_max_rows].
  intros Hv. destruct lines as [|row0 [|row1 rows]]; [done|done|].
  injection Hl0 as ->.
  rewrite ubcExtent3D_whole_file by done. unfold np_array_int.
  rewrite Hts, bind_Ok, Hns. simpl.
  by rewrite !Z.add_simpl_r.
Qed.

(** X4: [ubcMesh3D] reads the first five lines of the file: two files that
    agree on them give the same grid or the same exception. *)
Theorem ubcMesh3D_five_lines lines lines' pdo :
  (∀ i, i < 5 → lines !! i = lines' !! i) →
  ubcMesh3D lines pdo = ubcMesh3D lines' pdo.
Proof.
  intros Hsame.
  assert (mesh3D_header lines = mesh3D_header lines') as Hhdr.
  { unfold mesh3D_header, getitem. by rewrite !Hsame by lia. }
  assert (∀ dim oo i, i < 3 →
            mesh3D_axis lines dim oo i = mesh3D_axis lines' dim oo i) as Hax.
  { intros dim oo i Hi. unfold mesh3D_axis, getitem. by rewrite Hsame by lia. }
  unfold ubcMesh3D. rewrite Hhdr.
  destruct (mesh3D_header lines') as [[dim oo]|e]; [|done].
  cbn [mbind result_bind range seq for_each].
  by rewrite !Hax by lia.
Qed.

(** X5: a first line with fewer than three integers makes each reader of a
    3D header raise [IndexError]. *)
Theorem header_too_short hdr rest ts ns pdo :
  tokens hdr = Ok ts → mapM np_int ts = Some ns → length ns < 3 →
  ubcExtent3D (hdr :: rest) = Raise IndexError
  ∧ ubcMesh3D (hdr :: rest) pdo = Raise IndexError
  ∧ ubcOcTree (hdr :: rest) = Raise IndexError.
Proof.
  intros Hts Hns Hlen. split_and!.
  - destruct numpy_has_max_rows as [[|]|e] eqn:Hv.
    + by apply ubcExtent3D_max_rows.
    + destruct rest as [|row rest].
      * unfold ubcExtent3D. rewrite Hv, bind_Ok.
        by rewrite rows_getitem_short.
      * rewrite ubcExtent3D_whole_file by done. unfold np_array_int.
        rewrite Hts, bind_Ok, Hns.
        destruct ns as [|n0 [|n1 [|n2 ns]]]; simpl in *; try done; lia.
    + unfold ubcExtent3D. rewrite Hv.
      by rewrite (numpy_has_max_rows_raises e Hv).
  - unfold ubcMesh3D, mesh3D_header, np_array_int.
    change (getitem (hdr :: rest) 0) with (Ok (A:=string) hdr).
    rewrite !bind_Ok, Hts, !bind_Ok, Hns.
    destruct ns as [|n0 [|n1 [|n2 ns]]]; simpl in *; try done; lia.
  - destruct rest as [|row rest].
    + unfold ubcOcTree. by rewrite rows_getitem_short.
    + unfold ubcOcTree, np_array_int.
      rewrite (rows_getitem_rows hdr row rest 0).
      change (getitem (hdr :: row :: rest) 0) with (Ok (A:=string) hdr).
      rewrite !bind_Ok, Hts, !bind_Ok, Hns.
      destruct ns as [|n0 [|n1 [|n2 ns]]]; simpl in *; try done; lia.
Qed.

End Mesh3DReturns.

Lemma ubcMesh3D_grid_consistent_witness :
  ∃ n0 n1 n2 : nat,
    5 ≤ length ["3 1 2"; "10 20 30"; "3*2.5"; "4"; "1 0.5"]
    ∧ (0, 3, 0, 1, 0, 2)%Z
      = (0, Z.of_nat n0, 0, Z.of_nat n1, 0, Z.of_nat n2)%Z
    ∧ length [10; 12.5; 15; 17.5]%float = n0 + 1
    ∧ length [20; 24]%float = n1 + 1
    ∧ length [30; 31; 31.5]%float = n2 + 1
    ∧ @nil (string * list float) = [].
Proof.
  exact (@ubcMesh3D_grid_consistent decimal_numerics
           ["3 1 2"; "10 20 30"; "3*2.5"; "4"; "1 0.5"] None
           (RectilinearGrid (0, 3, 0, 1, 0, 2)%Z
              [10; 12.5; 15; 17.5]%float [20; 24]%float
              [30; 31; 31.5]%float [])
           eq_refl).
Defined.

Lemma ubcExtent3D_is_mesh_extent_witness :
  @ubcExtent3D decimal_numerics_1_9
    ["3 1 2"; "10 20 30"; "3*2.5"; "4"; "1 0.5"]
  = Ok (0, 3, 0, 1, 0, 2)%Z
  ∧ ubcExtent3D ["3 1 2"; "10 20 30"; "3*2.5"; "4"; "1 0.5"]
    = Raise IndexError.
Proof.
  split.
  - exact (proj1 (@ubcExtent3D_is_mesh_extent decimal_numerics_1_9
             ["3 1 2"; "10 20 30"; "3*2.5"; "4"; "1 0.5"] None
             (RectilinearGrid (0, 3, 0, 1, 0, 2)%Z
                [10; 12.5; 15; 17.5]%float [20; 24]%float
                [30; 31; 31.5]%float [])
             eq_refl) eq_refl).
  - exact (proj2 (@ubcExtent3D_is_mesh_extent decimal_numerics
             ["3 1 2"; "10 20 30"; "3*2.5"; "4"; "1 0.5"] None
             (RectilinearGrid (0, 3, 0, 1, 0, 2)%Z
                [10; 12.5; 15; 17.5]%float [20; 24]%float
                [30; 31; 31.5]%float [])
             eq_refl) eq_refl).
Defined.

Lemma ubcMesh3D_five_lines_witness :
  ubcMesh3D ["3 1 2"; "10 20 30"; "3*2.5"; "4"; "1 0.5"; "trailing"] None
  = ubcMesh3D ["3 1 2"; "10 20 30"; "3*2.5"; "4"; "1 0.5"] None.
Proof.
  apply (@ubcMesh3D_five_lines decimal_numerics).
  intros [|[|[|[|[|i]]]]] Hi; try reflexivity. lia.
Defined.

Lemma header_too_short_witness :
  ubcExtent3D ["4 4"; "0 0 0"] = Raise IndexError
  ∧ ubcMesh3D ["4 4"; "0 0 0"] None = Raise IndexError
  ∧ ubcOcTree ["4 4"; "0 0 0"] = Raise IndexError.
Proof.
  apply (@header_too_short decimal_numerics "4 4" ["0 0 0"] ["4"; "4"]
           [4; 4]%Z None eq_refl eq_refl).
  simpl. lia.
Defined.

(** ** More on the reordering *)

Lemma reorder_length (n1 n2 n3 : nat) model out :
  reorder (Z.of_nat n1) (Z.of_nat n2) (Z.of_nat n3) model = Ok out →
  length model = n1 * n2 * n3 ∧ out = cell_order_transform n1 n2 n3 model.
Proof.
  intros Hout.
  assert (length model = n1 * n2 * n3) as Hlen.
  { revert Hout. unfold reorder, np_reshape.
    destruct (forallb _ _); [|done].
    simpl. rewrite !Nat2Z.id. case_decide as Hsize; [|done].
    intros _. simpl in Hsize. lia. }
  split; [done|].
  rewrite reorder_cell_order_transform in Hout by done. congruence.
Qed.

(** X6: the two swaps rotate the three axes: reordering three times, each
    time with the shape of the array as the last reordering left it,
    [(n1,n2,n3)], then [(n3,n1,n2)], then [(n2,n3,n1)], gives the model array
    back. *)
Theorem reorder_three_times (n1 n2 n3 : nat) (model : list float) :
  length model = n1 * n2 * n3 →
  (r1 ← reorder (Z.of_nat n1) (Z.of_nat n2) (Z.of_nat n3) model;
   r2 ← reorder (Z.of_nat n3) (Z.of_nat n1) (Z.of_nat n2) r1;
   reorder (Z.of_nat n2) (Z.of_nat n3) (Z.of_nat n1) r2) = Ok model.
Proof.
  intros Hlen.
  rewrite reorder_cell_order_transform, bind_Ok by done.
  rewrite reorder_cell_order_transform, bind_Ok
    by (rewrite length_cell_order_transform; lia).
  rewrite reorder_cell_order_transform
    by (rewrite length_cell_order_transform; lia).
  f_equal. apply list_eq. intros p.
  destruct (decide (p < n1 * n2 * n3)) as [Hp|Hp].
  - destruct (flat_index_split n1 n2 n3 p Hp)
      as (k & i & j & Hk & Hi & Hj & ->).
    rewrite (cell_order_transform_lookup_ijk n2 n3 n1 _ i j k);
      [|rewrite length_cell_order_transform; lia|done..].
    rewrite (cell_order_transform_lookup_ijk n3 n1 n2 _ j k i);
      [|rewrite length_cell_order_transform; lia|done..].
    by rewrite (cell_order_transform_lookup_ijk n1 n2 n3 _ k i j).
  - rewrite !(proj2 (lookup_ge_None _ _)); [done|lia|].
    rewrite length_cell_order_transform. lia.
Qed.

(** X7: the reordering depends on the cell counts through [n1*n2] and [n3]
    only, and it leaves the model array as it is when [n3 = 1] or
    [n1*n2 = 1]. *)
Theorem reorder_two_factors (n1 n2 n3 : nat) (model : list float) :
  length model = n1 * n2 * n3 →
  (∀ m1 m2 : nat, m1 * m2 = n1 * n2 →
     reorder (Z.of_nat m1) (Z.of_nat m2) (Z.of_nat n3) model
     = reorder (Z.of_nat n1) (Z.of_nat n2) (Z.of_nat n3) model)
  ∧ (n3 = 1 ∨ n1 * n2 = 1 →
     reorder (Z.of_nat n1) (Z.of_nat n2) (Z.of_nat n3) model = Ok model).
Proof.
  intros Hlen. split.
  - intros m1 m2 Hm.
    rewrite !reorder_cell_order_transform by (by rewrite ?Hm).
    f_equal. apply list_eq. intros p.
    rewrite !cell_order_transform_lookup by (by rewrite ?Hm).
    unfold source_index. by rewrite Hm.
  - intros Hone. rewrite reorder_cell_order_transform by done.
    f_equal. apply list_eq. intros p.
    rewrite cell_order_transform_lookup by done.
    unfold source_index. case_decide as Hp; [|done]. f_equal.
    destruct Hone as [->|Hone].
    + rewrite Nat.mod_small, Nat.div_small by lia. lia.
    + rewrite Hone, Nat.mod_1_r, Nat.div_1_r. lia.
Qed.

Lemma placeModelOnMesh_Ok_inv mesh model dataNm x0 n1 y0 n2 z0 n3 g :
  Extent mesh = (x0, n1, y0, n2, z0, n3) →
  placeModelOnMesh mesh model dataNm = Ok g →
  (0 ≤ n1 ∧ 0 ≤ n2 ∧ 0 ≤ n3 ∧ n1 * n2 * n3 = Z.of_nat (length model))%Z
  ∧ g = AddArray mesh dataNm
          (cell_order_transform (Z.to_nat n1) (Z.to_nat n2) (Z.to_nat n3)
             model).
Proof.
  intros Hext. unfold placeModelOnMesh. rewrite Hext.
  case_decide as Hlt; [done|]. case_decide as Hgt; [done|].
  intros (c & Hc & [= <-])%bind_Ok_inv.
  assert (0 ≤ n1 ∧ 0 ≤ n2 ∧ 0 ≤ n3)%Z as (H1 & H2 & H3).
  { revert Hc. unfold reorder, np_reshape.
    destruct (forallb _ _) eqn:Hnn; [|done]. intros _.
    simpl in Hnn. rewrite !andb_true_iff, !Z.leb_le in Hnn. tauto. }
  split; [lia|].
  rewrite <- (Z2Nat.id n1), <- (Z2Nat.id n2), <- (Z2Nat.id n3) in Hc
    by done.
  by apply reorder_length in Hc as [Hlen ->].
Qed.

(** Adding an array to the cell data. *)
Lemma get_named_set_named name c arrays :
  get_named name (set_named name c arrays) = Some c.
Proof.
  induction arrays as [|[n a] arrays IH]; simpl.
  - by rewrite decide_True.
  - destruct (decide (n = name)) as [->|Hn]; simpl.
    + by rewrite decide_True.
    + by rewrite decide_False.
Qed.

Lemma get_named_set_named_ne name name' c arrays :
  name' ≠ name →
  get_named name' (set_named name c arrays) = get_named name' arrays.
Proof.
  intros Hne. induction arrays as [|[n a] arrays IH]; simpl.
  - by rewrite decide_False.
  - destruct (decide (n = name)) as [->|Hn]; simpl.
    + by rewrite !decide_False.
    + by rewrite IH.
Qed.

Lemma length_set_named name c arrays :
  length (set_named name c arrays)
  = match get_named name arrays with
    | Some _ => length arrays
    | None => S (length arrays)
    end.
Proof.
  induction arrays as [|[n a] arrays IH]; simpl; [done|].
  destruct (decide (n = name)) as [->|Hn]; simpl; [done|].
  rewrite IH. by destruct (get_named name arrays).
Qed.

(** X8: [placeModelOnMesh] returns exactly when the three upper extents of
    the mesh are not negative and their product is the length of the model
    array. The grid it returns is the mesh to which an array [c] named
    [dataNm] was added, [c] holding the values of the model array, each
    once: looking [dataNm] up in its cell data gives [c], which took the
    place of the array of that name if the mesh had one and is one more
    array if it had none; the arrays of the other names, the extent and the
    coordinates are those of the mesh. *)
Theorem placeModelOnMesh_returns mesh model dataNm x0 n1 y0 n2 z0 n3 :
  Extent mesh = (x0, n1, y0, n2, z0, n3) →
  ((∃ g, placeModelOnMesh mesh model dataNm = Ok g)
   ↔ (0 ≤ n1 ∧ 0 ≤ n2 ∧ 0 ≤ n3 ∧ n1 * n2 * n3 = Z.of_nat (length model))%Z)
  ∧ (∀ g, placeModelOnMesh mesh model dataNm = Ok g →
       ∃ c, g = AddArray mesh dataNm c ∧ c ≡ₚ model
            ∧ GetArray g dataNm = Some c
            ∧ (∀ name, name ≠ dataNm → GetArray g name = GetArray mesh name)
            ∧ length (CellData g)
              = match GetArray mesh dataNm with
                | Some _ => length (CellData mesh)
                | None => S (length (CellData mesh))
                end
            ∧ Extent g = Extent mesh
            ∧ XCoordinates g = XCoordinates mesh
            ∧ YCoordinates g = YCoordinates mesh
            ∧ ZCoordinates g = ZCoordinates mesh).
Proof.
  intros Hext. split.
  - split.
    + intros [g Hg].
      by destruct (placeModelOnMesh_Ok_inv _ _ _ _ _ _ _ _ _ _ Hext Hg).
    + intros (H1 & H2 & H3 & Hlen).
      exists (AddArray mesh dataNm
                (cell_order_transform (Z.to_nat n1) (Z.to_nat n2)
                   (Z.to_nat n3) model)).
      apply (placeModelOnMesh_fits _ _ _ _ _ _ x0 y0 z0).
      * by rewrite Hext, !Z2Nat.id.
      * nia.
  - intros g Hg.
    destruct (placeModelOnMesh_Ok_inv _ _ _ _ _ _ _ _ _ _ Hext Hg)
      as [(H1 & H2 & H3 & Hlen) ->].
    eexists. split; [done|]. split; [apply cell_order_transform_perm; nia|].
    unfold GetArray. simpl. split_and!; try done.
    + apply get_named_set_named.
    + intros name Hname. by apply get_named_set_named_ne.
    + apply length_set_named.
Qed.

Lemma reorder_three_times_witness :
  (r1 ← reorder 2 3 4 (float_of_int <$> (Z.of_nat <$> seq 0 24));
   r2 ← reorder 4 2 3 r1;
   reorder 3 4 2 r2) = Ok (float_of_int <$> (Z.of_nat <$> seq 0 24)).
Proof.
  exact (reorder_three_times 2 3 4
           (float_of_int <$> (Z.of_nat <$> seq 0 24)) eq_refl).
Defined.

Lemma reorder_two_factors_witness :
  reorder 6 1 4 (float_of_int <$> (Z.of_nat <$> seq 0 24))
  = reorder 2 3 4 (float_of_int <$> (Z.of_nat <$> seq 0 24))
  ∧ reorder 2 3 1 (float_of_int <$> (Z.of_nat <$> seq 0 6))
    = Ok (float_of_int <$> (Z.of_nat <$> seq 0 6)).
Proof.
  split.
  - exact (proj1 (reorder_two_factors 2 3 4
                    (float_of_int <$> (Z.of_nat <$> seq 0 24)) eq_refl)
             6 1 eq_refl).
  - exact (proj2 (reorder_two_factors 2 3 1
                    (float_of_int <$> (Z.of_nat <$> seq 0 6)) eq_refl)
             (or_introl eq_refl)).
Defined.

Lemma placeModelOnMesh_returns_witness :
  (∃ g, placeModelOnMesh
          (RectilinearGrid (0, 2, 0, 1, 0, 2)%Z [0; 1; 2]%float [0; 1]%float
             [0; 1; 2]%float [("Other", [7]%float); ("Data", [9; 9]%float)])
          [1; 2; 3; 4]%float "Data" = Ok g)
  ∧ (¬ ∃ g, placeModelOnMesh new_vtkRectilinearGrid [] "Data" = Ok g)
  ∧ ∃ c,
      RectilinearGrid (0, 2, 0, 1, 0, 2)%Z [0; 1; 2]%float [0; 1]%float
        [0; 1; 2]%float [("Other", [7]%float); ("Data", [1; 3; 2; 4]%float)]
      = AddArray
          (RectilinearGrid (0, 2, 0, 1, 0, 2)%Z [0; 1; 2]%float [0; 1]%float
             [0; 1; 2]%float [("Other", [7]%float); ("Data", [9; 9]%float)])
          "Data" c
      ∧ c ≡ₚ [1; 2; 3; 4]%float
      ∧ Some [1; 3; 2; 4]%float = Some c
      ∧ (∀ name, name ≠ "Data" →
           GetArray
             (RectilinearGrid (0, 2, 0, 1, 0, 2)%Z [0; 1; 2]%float
                [0; 1]%float [0; 1; 2]%float
                [("Other", [7]%float); ("Data", [1; 3; 2; 4]%float)]) name
           = GetArray
               (RectilinearGrid (0, 2, 0, 1, 0, 2)%Z [0; 1; 2]%float
                  [0; 1]%float [0; 1; 2]%float
                  [("Other", [7]%float); ("Data", [9; 9]%float)]) name)
      ∧ 2 = 2
      ∧ (0, 2, 0, 1, 0, 2)%Z = (0, 2, 0, 1, 0, 2)%Z
      ∧ [0; 1; 2]%float = [0; 1; 2]%float
      ∧ [0; 1]%float = [0; 1]%float
      ∧ [0; 1; 2]%float = [0; 1; 2]%float.
Proof.
  split_and!.
  - apply (proj1 (placeModelOnMesh_returns
                    (RectilinearGrid (0, 2, 0, 1, 0, 2)%Z [0; 1; 2]%float
                       [0; 1]%float [0; 1; 2]%float
                       [("Other", [7]%float); ("Data", [9; 9]%float)])
                    [1; 2; 3; 4]%float "Data" 0 2 0 1 0 2 eq_refl)).
    simpl. lia.
  - intros Hg.
    apply (proj1 (proj1 (placeModelOnMesh_returns new_vtkRectilinearGrid []
                           "Data" 0 (-1) 0 (-1) 0 (-1) eq_refl))) in Hg.
    lia.
  - exact (proj2 (placeModelOnMesh_returns
                    (RectilinearGrid (0, 2, 0, 1, 0, 2)%Z [0; 1; 2]%float
                       [0; 1]%float [0; 1; 2]%float
                       [("Other", [7]%float); ("Data", [9; 9]%float)])
                    [1; 2; 3; 4]%float "Data" 0 2 0 1 0 2 eq_refl)
             (RectilinearGrid (0, 2, 0, 1, 0, 2)%Z [0; 1; 2]%float
                [0; 1]%float [0; 1; 2]%float
                [("Other", [7]%float); ("Data", [1; 3; 2; 4]%float)])
             eq_refl).
Defined.

(** ** More on the 2D readers *)

Section Mesh2DReturns.
Context `{TextNumerics}.

Lemma ubcMesh2D_Ok_inv lines pdo g :
  ubcMesh2D lines pdo = Ok g →
  ∃ xpts xdisc zpts zdisc xd zd xcoords zcoords,
    _ubcMesh2D_part lines = Ok (xpts, xdisc, zpts, zdisc)
    ∧ mapM np_int xdisc = Some xd ∧ mapM np_int zdisc = Some zd
    ∧ _genCoords xpts xdisc = Ok xcoords
    ∧ _genCoords zpts zdisc = Ok zcoords
    ∧ g = SetZCoordinates
            (SetYCoordinates
               (SetXCoordinates
                  (SetDimensions (default new_vtkRectilinearGrid pdo)
                     (wrap_int64 (sum_Z xd + 1)) 2
                     (wrap_int64 (sum_Z zd + 1)))
                  xcoords)
               [0%float])
            zcoords.
Proof.
  unfold ubcMesh2D, np_array_int.
  intros ([[[xpts xdisc] zpts] zdisc] & Hpart & Hr)%bind_Ok_inv.
  apply bind_Ok_inv in Hr as (xd & Hxd%or_raise_Ok_inv & Hr).
  apply bind_Ok_inv in Hr as (zd & Hzd%or_raise_Ok_inv & Hr).
  apply bind_Ok_inv in Hr as (xcoords & Hx & Hr).
  apply bind_Ok_inv in Hr as (zcoords & Hz & Hr).
  injection Hr as <-. rewrite !np_succ_np_sum.
  by exists xpts, xdisc, zpts, zdisc, xd, zd, xcoords, zcoords.
Qed.

(** X9: on a file from which [ubcMesh2D] builds a grid, [ubcExtent2D] returns
    upper bounds that are one more, along X and Z, than the upper extents of
    that grid; along Y the grid has the extent [(0,1)] and the single
    coordinate [0]. *)
Theorem ubcExtent2D_versus_mesh lines pdo g :
  ubcMesh2D lines pdo = Ok g →
  ∃ x z, Extent g = (0, x, 0, 1, 0, z)%Z
         ∧ ubcExtent2D lines = Ok (0, x + 1, 0, 1, 0, z + 1)%Z
         ∧ YCoordinates g = [0%float]
         ∧ CellData g = CellData (default new_vtkRectilinearGrid pdo).
Proof.
  intros (xpts & xdisc & zpts & zdisc & xd & zd & xcoords & zcoords
          & Hpart & Hxd & Hzd & _ & _ & ->)%ubcMesh2D_Ok_inv.
  exists (wrap_int64 (sum_Z xd + 1) - 1)%Z, (wrap_int64 (sum_Z zd + 1) - 1)%Z.
  split_and!; try done.
  unfold ubcExtent2D, np_array_int. rewrite Hpart; simpl.
  rewrite Hxd; simpl. rewrite Hzd; simpl.
  by rewrite !np_succ_np_sum, !Z.sub_add.
Qed.

(** X10: when the subdivision counts of a 2D mesh file are at least one,
    [int] and NumPy read them as the same integers, and along each axis their
    sum plus one is below [2^63], so that the 64-bit sum of NumPy is that
    number, the grid of [ubcMesh2D] has along X and Z one coordinate more
    than its upper extent: as many coordinates as the dimension it was
    given. *)
Theorem ubcMesh2D_node_counts lines pdo xpts xdisc zpts zdisc
    x0 xs xn z0 zs zn :
  _ubcMesh2D_part lines = Ok (xpts, xdisc, zpts, zdisc) →
  mapM py_float xpts = Some (x0 :: xs) → mapM py_int xdisc = Some xn →
  mapM np_int xdisc = Some xn → Forall (λ n, 1 ≤ n)%Z xn →
  mapM py_float zpts = Some (z0 :: zs) → mapM py_int zdisc = Some zn →
  mapM np_int zdisc = Some zn → Forall (λ n, 1 ≤ n)%Z zn →
  (sum_Z xn + 1 < 2 ^ 63)%Z → (sum_Z zn + 1 < 2 ^ 63)%Z →
  ∃ g, ubcMesh2D lines pdo = Ok g
       ∧ Extent g = (0, Z.of_nat (length (XCoordinates g)) - 1, 0, 1,
                     0, Z.of_nat (length (ZCoordinates g)) - 1)%Z.
Proof.
  intros Hpart Hxp Hxn Hxd Hx1 Hzp Hzn Hzd Hz1 Hxs Hzs.
  destruct (_ubcMesh2D_part_lengths _ _ _ _ _ Hpart) as [Hlx Hlz].
  pose proof (mapM_length _ _ _ Hxp) as Hxpl.
  pose proof (mapM_length _ _ _ Hxn) as Hxnl.
  pose proof (mapM_length _ _ _ Hzp) as Hzpl.
  pose proof (mapM_length _ _ _ Hzn) as Hznl.
  assert (length xs = length xn) as Hx.
  { destruct Hlx as [[-> ->]|Hlx]; simpl in *; lia. }
  assert (length zs = length zn) as Hz.
  { destruct Hlz as [[-> ->]|Hlz]; simpl in *; lia. }
  assert (Forall (λ n, n ≠ 0%Z) xn) as Hxz
    by (eapply Forall_impl; [done|]; simpl; lia).
  assert (Forall (λ n, n ≠ 0%Z) zn) as Hzz
    by (eapply Forall_impl; [done|]; simpl; lia).
  unfold ubcMesh2D, np_array_int. rewrite Hpart; simpl.
  rewrite Hxd; simpl. rewrite Hzd; simpl.
  rewrite (_genCoords_subdivide _ _ _ _ _ Hxp Hxn Hxz Hx), bind_Ok.
  rewrite (_genCoords_subdivide _ _ _ _ _ Hzp Hzn Hzz Hz), bind_Ok.
  eexists. split; [done|]. simpl.
  rewrite !np_succ_np_sum.
  pose proof (length_subdivide x0 xs xn Hx Hx1) as Hxl.
  pose proof (length_subdivide z0 zs zn Hz Hz1) as Hzl.
  rewrite !wrap_int64_small by lia.
  rewrite !Nat2Z.inj_succ, Hxl, Hzl.
  repeat f_equal; lia.
Qed.

(** The loop of [_genCoords] over the segments [a .. a+k-1], the counts of
    which are not zero. *)
Lemma _genCoords_loop_prefix pts disc fs ns :
  Forall2 (λ s x, py_float s = Some x) pts fs →
  Forall2 (λ s n, py_int s = Some n) disc ns →
  ∀ k a c start, a + k ≤ length ns → a + k < length fs →
  (∀ j, a ≤ j < a + k → ns !! j ≠ Some 0%Z) →
  fs !! a = Some start →
  ∃ c' start',
    fs !! (a + k) = Some start'
    ∧ for_each (seq a k) (λ i c,
        p ← getitem pts i;
        start ← float_of_str p;
        q ← getitem pts (i + 1);
        stop ← float_of_str q;
        d ← getitem disc i;
        num ← int_of_str d;
        w ← float_div_int (PrimFloat.sub stop start) num;
        c ← for_each (range_Z 1 num) (λ j c,
              Ok (c ++ [PrimFloat.add start
                          (PrimFloat.mul (float_of_int j) w)]))
              c;
        Ok (c ++ [stop])) c = Ok c'.
Proof.
  intros Hpts Hdisc. induction k as [|k IH];
    intros a c start Hns Hfs Hnz Hst.
  - exists c, start. by rewrite Nat.add_0_r.
  - assert (is_Some (ns !! a)) as [num Hnum]
      by (apply lookup_lt_is_Some_2; lia).
    assert (is_Some (fs !! S a)) as [stop Hstop]
      by (apply lookup_lt_is_Some_2; lia).
    destruct (Forall2_lookup_r _ _ _ _ _ Hpts Hst) as (p & Hp & Hpf).
    destruct (Forall2_lookup_r _ _ _ _ _ Hpts Hstop) as (q & Hq & Hqf).
    destruct (Forall2_lookup_r _ _ _ _ _ Hdisc Hnum) as (d & Hd & Hdn).
    assert (num ≠ 0%Z) as Hn0.
    { intros ->. by apply (Hnz a ltac:(lia)). }
    cbn [seq for_each].
    rewrite (getitem_Some _ _ _ Hp), bind_Ok.
    rewrite (float_of_str_Some _ _ Hpf), bind_Ok.
    replace (a + 1) with (S a) by lia.
    rewrite (getitem_Some _ _ _ Hq), bind_Ok.
    rewrite (float_of_str_Some _ _ Hqf), bind_Ok.
    rewrite (getitem_Some _ _ _ Hd), bind_Ok.
    rewrite (int_of_str_Some _ _ Hdn), bind_Ok.
    rewrite (float_div_int_nonzero _ _ Hn0), bind_Ok.
    rewrite for_each_append, !bind_Ok.
    replace (a + S k) with (S a + k) by lia.
    apply (IH (S a) _ stop); [lia|lia| |done].
    intros j Hj. apply Hnz. lia.
Qed.

(** X11: a subdivision count of zero makes [_genCoords] raise
    [ZeroDivisionError], when the control points and the counts convert and
    the counts before it are not zero. *)
Theorem genCoords_zero_count pts disc fs ns i :
  mapM py_float pts = Some fs → mapM py_int disc = Some ns →
  length fs = S (length ns) →
  ns !! i = Some 0%Z → (∀ j, j < i → ns !! j ≠ Some 0%Z) →
  _genCoords pts disc = Raise ZeroDivisionError.
Proof.
  intros Hpts%mapM_Some Hdisc%mapM_Some Hlen Hi Hbefore.
  pose proof (Forall2_length _ _ _ Hpts) as Hlp.
  pose proof (lookup_lt_Some _ _ _ Hi) as Hilt.
  destruct fs as [|p0 ps]; [done|].
  destruct (Forall2_lookup_r _ _ _ 0 p0 Hpts eq_refl) as (s0 & Hs0 & Hf0).
  unfold _genCoords.
  rewrite (getitem_Some _ _ _ Hs0), bind_Ok.
  rewrite (float_of_str_Some _ _ Hf0), bind_Ok.
  replace (length pts - 1) with (i + S (length ns - S i))
    by (simpl in *; lia).
  unfold range. rewrite seq_app, for_each_app.
  destruct (_genCoords_loop_prefix pts disc (p0 :: ps) ns Hpts Hdisc
              i 0 [p0] p0 ltac:(lia) ltac:(simpl in *; lia)
              ltac:(intros j Hj; apply Hbefore; lia) eq_refl)
    as (c' & start & Hstart & ->).
  rewrite bind_Ok. simpl in Hstart.
  assert (is_Some ((p0 :: ps) !! S i)) as [stop Hstop]
    by (apply lookup_lt_is_Some_2; simpl in *; lia).
  destruct (Forall2_lookup_r _ _ _ _ _ Hpts Hstart) as (p & Hp & Hpf).
  destruct (Forall2_lookup_r _ _ _ _ _ Hpts Hstop) as (q & Hq & Hqf).
  destruct (Forall2_lookup_r _ _ _ _ _ Hdisc Hi) as (d & Hd & Hdn).
  cbn [Nat.add seq for_each].
  rewrite (getitem_Some _ _ _ Hp), bind_Ok.
  rewrite (float_of_str_Some _ _ Hpf), bind_Ok.
  replace (i + 1) with (S i) by lia.
  rewrite (getitem_Some _ _ _ Hq), bind_Ok.
  rewrite (float_of_str_Some _ _ Hqf), bind_Ok.
  rewrite (getitem_Some _ _ _ Hd), bind_Ok.
  rewrite (int_of_str_Some _ _ Hdn), bind_Ok.
  done.
Qed.


End Mesh2DReturns.

(** ** The decoder on lines with at most one run *)

Lemma str_split_from_cons sep s cur :
  ∃ a rest, str_split_from sep s cur = a :: rest.
Proof.
  revert cur; induction s as [|c s IH]; intros cur; [by eexists _, _|].
  cbn [str_split_from]. destruct (Ascii.eqb c sep); [by eexists _, _|].
  apply IH.
Qed.

Lemma str_split_from_two sep s cur :
  str_contains sep s = true →
  ∃ a b rest, str_split_from sep s cur = a :: b :: rest.
Proof.
  revert cur; induction s as [|c s IH]; intros cur Hs; [done|].
  cbn [str_contains str_split_from] in *.
  destruct (Ascii.eqb c sep).
  - destruct (str_split_from_cons sep s "") as (b & rest & ->).
    by eexists _, _, _.
  - by apply IH.
Qed.

Lemma at_most_one_run (ts : list string) :
  length (filter (λ t, str_contains "*" t = true) ts) ≤ 1 →
  Forall (λ t, str_contains "*" t = false) ts
  ∨ ∃ pre tok post,
      ts = pre ++ tok :: post
      ∧ Forall (λ t, str_contains "*" t = false) pre
      ∧ str_contains "*" tok = true
      ∧ Forall (λ t, str_contains "*" t = false) post.
Proof.
  induction ts as [|t ts IH]; [by left|].
  destruct (str_contains "*" t) eqn:Ht.
  - rewrite filter_cons_True by done. simpl. intros Hlen.
    right. exists [], t, ts. split_and!; try done.
    apply Forall_forall. intros u Hu.
    destruct (str_contains "*" u) eqn:Hstar; [|done].
    assert (u ∈ filter (λ t, str_contains "*" t = true) ts) as Hin
      by (by apply list_elem_of_filter).
    destruct (filter _ ts); [by apply elem_of_nil in Hin|simpl in Hlen; lia].
  - rewrite filter_cons_False by (by rewrite Ht). intros Hlen.
    destruct (IH Hlen) as [Hall|(pre & tok & post & -> & Hpre & Htok & Hpost)].
    + left. by constructor.
    + right. exists (t :: pre), tok, post. split_and!; try done.
      by constructor.
Qed.

Section OneRun.
Context `{TextNumerics}.

Lemma expand_spacing_plain (ts : list string) :
  Forall (λ t, str_contains "*" t = false) ts → expand_spacing ts = Ok ts.
Proof.
  intros Hplain. unfold expand_spacing, collect_runs, range.
  rewrite collect_runs_plain; [done|].
  intros j Hj. destruct (lookup_lt_is_Some_2 ts j ltac:(lia)) as [t Ht].
  exists t. split; [done|]. by eapply (proj1 (Forall_lookup _ _) Hplain).
Qed.

Lemma expand_in_place_after_plain (pre l : list string) :
  Forall (λ t, str_contains "*" t = false) pre →
  expand_in_place (pre ++ l) = r ← expand_in_place l; Ok (pre ++ r).
Proof.
  induction 1 as [|t pre Ht Hpre IH]; simpl.
  - by destruct (expand_in_place l).
  - unfold expand_token at 1. rewrite Ht, bind_Ok, IH.
    by destruct (expand_in_place l).
Qed.

(** A run whose count does not convert stops both the decoder and the
    expansion in place with [ValueError]. *)
Lemma expand_spacing_bad_count pre tok post p0 rest :
  Forall (λ t, str_contains "*" t = false) pre →
  str_contains "*" tok = true →
  str_split "*" tok = p0 :: rest → py_int p0 = None →
  expand_spacing (pre ++ tok :: post) = Raise ValueError
  ∧ expand_in_place (pre ++ tok :: post) = Raise ValueError.
Proof.
  intros Hpre Hstar Hsplit Hnum. split.
  - unfold expand_spacing, collect_runs, range.
    rewrite length_app. cbn [length].
    replace (length pre + S (length post))
      with (length pre + (1 + length post)) by lia.
    rewrite seq_app, for_each_app.
    rewrite collect_runs_plain.
    2:{ intros j Hj. assert (j < length pre) as Hlt by lia.
        destruct (lookup_lt_is_Some_2 pre j Hlt) as [t Ht].
        exists t. split; [by rewrite lookup_app_l, Ht|].
        by eapply (proj1 (Forall_lookup _ _) Hpre). }
    rewrite bind_Ok. cbn [seq for_each Nat.add].
    rewrite getitem_middle, bind_Ok by done.
    rewrite Hstar, Hsplit. cbn [getitem lookup list_lookup or_raise].
    rewrite bind_Ok. unfold int_of_str. by rewrite Hnum.
  - rewrite expand_in_place_after_plain by done.
    simpl. unfold expand_token. rewrite Hstar, Hsplit.
    cbn [getitem lookup list_lookup or_raise].
    rewrite bind_Ok. unfold int_of_str. by rewrite Hnum.
Qed.

(** X13: on a spacing line with at most one token [count*width] the decoder
    of [ubcMesh3D] does what the expansion in place does: the same widths,
    the copies of the width standing where the run stood, or the same
    exception. *)
Theorem spacing_widths_at_most_one_run line ts :
  tokens line = Ok ts →
  length (filter (λ t, str_contains "*" t = true) ts) ≤ 1 →
  spacing_widths line = spec_spacing_widths line.
Proof.
  intros Hts Hone. unfold spacing_widths, spec_spacing_widths.
  rewrite Hts, !bind_Ok.
  destruct (at_most_one_run ts Hone)
    as [Hplain|(pre & tok & post & -> & Hpre & Htok & Hpost)].
  - by rewrite expand_spacing_plain, expand_in_place_plain.
  - destruct (str_split_from_two "*" tok "" Htok) as (p0 & dist & rest & Hsplit).
    fold (str_split "*" tok) in Hsplit.
    destruct (py_int p0) as [num|] eqn:Hnum.
    + destruct (expand_spacing_single_run pre tok post p0 dist rest num
                  Hpre Hpost Htok Hsplit Hnum) as [-> ->]. done.
    + destruct (expand_spacing_bad_count pre tok post p0 (dist :: rest)
                  Hpre Htok Hsplit Hnum) as [-> ->]. done.
Qed.

End OneRun.

Lemma spacing_widths_at_most_one_run_witness :
  spacing_widths "1.5 3*2.0 4.0 ! widths" = Ok [1.5; 2; 2; 2; 4]%float.
Proof.
  exact (eq_trans
           (@spacing_widths_at_most_one_run decimal_numerics
              "1.5 3*2.0 4.0 ! widths" ["1.5"; "3*2.0"; "4.0"] eq_refl
              (le_n 1))
           eq_refl).
Defined.

(** ** Mesh and model together *)

Section PipelineProperties.
Context `{TextNumerics}.

Lemma ubcModel2D_table FileName lines hdr d0 d1 extra data r c :
  lines !! 0 = Some hdr →
  mapM np_int (str_words hdr) = Some (d0 :: d1 :: extra) →
  genfromtxt_float (drop 1 lines) = Some data →
  shape data = [r; c] →
  ubcModel2D FileName lines
  = if decide (Z.of_nat r ≠ d1 ∧ Z.of_nat c ≠ d0)
    then Raise (Exception (msg_improper FileName))
    else Ok (flatten_F data).
Proof.
  intros Hl0 Hdim Hdata Hshape. unfold ubcModel2D, np_array_int.
  rewrite (getitem_Some _ _ _ Hl0), bind_Ok. rewrite Hdim; simpl.
  rewrite Hdata; simpl. rewrite Hshape; simpl.
  destruct (decide (Z.of_nat r ≠ d1)) as [Hr|Hr]; simpl.
  - destruct (decide (Z.of_nat c ≠ d0)) as [Hc|Hc].
    + rewrite bool_decide_eq_true_2 by done. by rewrite decide_True.
    + rewrite bool_decide_eq_false_2 by done.
      rewrite decide_False; [done|]. by intros [_ ?].
  - rewrite decide_False; [done|]. by intros [? _].
Qed.

Lemma length_flatten_F_2D {A} `{Inhabited A} (data : ndarray A) r c :
  shape data = [r; c] → length (flatten_F data) = r * c.
Proof.
  intros Hshape. unfold flatten_F. rewrite Hshape. simpl.
  rewrite length_fmap. rewrite (length_flat_map_seq _ r); [lia|].
  intros j _. rewrite length_fmap.
  rewrite (length_flat_map_seq _ 1); [lia|done].
Qed.

(** X14: [ubcMeshData2D] puts the value table of the model file on the mesh
    row by row: for a mesh of [nx] by [nz] cells and a table of [nz] rows and
    [nx] columns that passes the validation, the attached array has the
    value of row [k], column [i] at position [k*nx + i]. The array is named
    [dataNm], or after the model file when [dataNm] is empty. *)
Theorem ubcMeshData2D_cells Mesh_lines FileName_Model Model_lines dataNm pdo
    mesh (nx nz : nat) hdr d0 d1 extra data :
  ubcMesh2D Mesh_lines pdo = Ok mesh →
  Extent mesh = (0, Z.of_nat nx, 0, 1, 0, Z.of_nat nz)%Z →
  Model_lines !! 0 = Some hdr →
  mapM np_int (str_words hdr) = Some (d0 :: d1 :: extra) →
  genfromtxt_float (drop 1 Model_lines) = Some data →
  shape data = [nz; nx] →
  Z.of_nat nz = d1 ∨ Z.of_nat nx = d0 →
  ∃ c, ubcMeshData2D Mesh_lines FileName_Model Model_lines dataNm pdo
       = Ok (AddArray mesh
               (if decide (dataNm = EmptyString)
                then basename FileName_Model else dataNm) c)
       ∧ length c = nx * nz
       ∧ ∀ i k, i < nx → k < nz →
           c !! (k * nx + i) = Some (item data [k; i]).
Proof.
  intros Hmesh Hext Hl0 Hdim Hdata Hshape Hok.
  unfold ubcMeshData2D. rewrite Hmesh, bind_Ok.
  rewrite (ubcModel2D_table _ _ _ _ _ _ _ _ _ Hl0 Hdim Hdata Hshape).
  assert (¬ (Z.of_nat nz ≠ d1 ∧ Z.of_nat nx ≠ d0)) as Hnot by tauto.
  rewrite (decide_False (P := _ ∧ _)) by exact Hnot.
  rewrite bind_Ok.
  pose proof (length_flatten_F_2D data nz nx Hshape) as Hlen.
  rewrite (placeModelOnMesh_fits _ _ _ nx 1 nz 0%Z 0%Z 0%Z) by (done || lia).
  eexists. split; [done|].
  split; [rewrite length_cell_order_transform; lia|].
  intros i k Hi Hk.
  replace (k * nx + i) with (k * (nx * 1) + i * 1 + 0) by lia.
  rewrite cell_order_transform_lookup_ijk by (done || lia).
  replace (i * (1 * nz) + 0 * nz + k) with (i * nz + k) by lia.
  by apply (flatten_F_2D data nz nx k i).
Qed.

(** X15: whenever [ubcMeshData2D] returns, it returns the grid of [ubcMesh2D]
    to which an array [c] was added under the name [dataNm], or the name of
    the model file when [dataNm] is empty. The array has the values that
    [ubcModel2D] returned, each once, and as many of them as the product of
    the upper extents of the grid, none of which is negative. Looking the
    name up in the cell data of the result gives [c], which takes the place
    of an array of that name in the grid passed in; the arrays of the other
    names are those of the grid passed in. *)
Theorem ubcMeshData2D_returns Mesh_lines FileName_Model Model_lines dataNm
    pdo g :
  ubcMeshData2D Mesh_lines FileName_Model Model_lines dataNm pdo = Ok g →
  ∃ mesh model c x z,
    ubcMesh2D Mesh_lines pdo = Ok mesh
    ∧ ubcModel2D FileName_Model Model_lines = Ok model
    ∧ Extent mesh = (0, x, 0, 1, 0, z)%Z ∧ (0 ≤ x)%Z ∧ (0 ≤ z)%Z
    ∧ g = AddArray mesh
            (if decide (dataNm = EmptyString)
             then basename FileName_Model else dataNm) c
    ∧ c ≡ₚ model ∧ Z.of_nat (length c) = (x * z)%Z
    ∧ GetArray g (if decide (dataNm = EmptyString)
                  then basename FileName_Model else dataNm) = Some c
    ∧ ∀ name,
        name ≠ (if decide (dataNm = EmptyString)
                then basename FileName_Model else dataNm) →
        GetArray g name
        = GetArray (default new_vtkRectilinearGrid pdo) name.
Proof.
  unfold ubcMeshData2D.
  intros (mesh & Hmesh & Hr)%bind_Ok_inv.
  apply bind_Ok_inv in Hr as (model & Hmodel & Hplace).
  destruct (ubcMesh2D_Ok_inv _ _ _ Hmesh)
    as (xpts & xdisc & zpts & zdisc & xd & zd & xcoords & zcoords
        & _ & _ & _ & _ & _ & Hg).
  assert (Extent mesh = (0, wrap_int64 (sum_Z xd + 1) - 1, 0, 1,
                         0, wrap_int64 (sum_Z zd + 1) - 1)%Z) as Hext
    by (by rewrite Hg).
  assert (CellData mesh = CellData (default new_vtkRectilinearGrid pdo))
    as Hcd by (by rewrite Hg).
  destruct (placeModelOnMesh_Ok_inv _ _ _ _ _ _ _ _ _ _ Hext Hplace)
    as [(Hx & _ & Hz & Hlen) ->].
  eexists mesh, model, _, _, _.
  split_and!; try done.
  - apply cell_order_transform_perm. nia.
  - rewrite length_cell_order_transform. nia.
  - apply get_named_set_named.
  - intros name Hname. unfold GetArray. simpl.
    rewrite get_named_set_named_ne by done. by rewrite Hcd.
Qed.

(** X16: a grid built by [ubcMesh3D] takes the model arrays that have as many
    values as the header of the mesh file declares cells: the upper extents
    [(n0,n1,n2)] of the grid are the three cell counts of the header, and
    [placeModelOnMesh] attaches the reordered array when the model array has
    [n0*n1*n2] values, and raises its exception for a longer or for a
    shorter array. *)
Theorem ubcMesh3D_then_place lines pdo g model dataNm :
  ubcMesh3D lines pdo = Ok g →
  ∃ (n0 n1 n2 : nat) hdr ts extra,
    lines !! 0 = Some hdr ∧ tokens hdr = Ok ts
    ∧ mapM np_int ts
      = Some (Z.of_nat n0 :: Z.of_nat n1 :: Z.of_nat n2 :: extra)
    ∧ Extent g = (0, Z.of_nat n0, 0, Z.of_nat n1, 0, Z.of_nat n2)%Z
    ∧ (length model = n0 * n1 * n2 →
       placeModelOnMesh g model dataNm
       = Ok (AddArray g dataNm (cell_order_transform n0 n1 n2 model)))
    ∧ (n0 * n1 * n2 < length model →
       placeModelOnMesh g model dataNm = Raise (Exception msg_more_data))
    ∧ (length model < n0 * n1 * n2 →
       placeModelOnMesh g model dataNm = Raise (Exception msg_not_enough)).
Proof.
  intros (hdr & ts & extra & oline & os & oo & o0 & o1 & o2 & l0 & l1 & l2
          & sp0 & sp1 & sp2 & Hl0 & Hts & Hns & _ & _ & _ & _ & _ & _ & _
          & _ & _ & _ & _ & _ & ->)%ubcMesh3D_Ok_inv.
  exists (length sp0), (length sp1), (length sp2), hdr, ts, extra.
  split_and!; try done.
  - simpl. by rewrite !Z.add_simpl_r.
  - intros Hlen.
    apply (placeModelOnMesh_fits _ _ _ _ _ _ 0%Z 0%Z 0%Z); [|done].
    simpl. by rewrite !Z.add_simpl_r.
  - intros Hlen. unfold placeModelOnMesh. simpl.
    rewrite !Z.add_simpl_r. by rewrite decide_True by nia.
  - intros Hlen. unfold placeModelOnMesh. simpl.
    rewrite !Z.add_simpl_r. rewrite decide_False by nia.
    by rewrite decide_True by nia.
Qed.

(** X17: whenever [ubcOcTree] returns, the file has at least four lines, its
    first line starts with three equal integers, and all the reader has done
    is to print its notice and the index array that [genfromtxt] read from
    the lines after the fourth. *)
Theorem ubcOcTree_returns lines out :
  ubcOcTree lines = Ok out →
  ∃ hdr ts n pad indArr,
    lines !! 0 = Some hdr ∧ tokens hdr = Ok ts
    ∧ mapM np_int ts = Some (n :: n :: n :: pad)
    ∧ 4 ≤ length lines
    ∧ genfromtxt_int (drop 4 lines) = Some indArr
    ∧ out = [PrintStr "This reader is not fully implemented yet";
             PrintArray indArr].
Proof.
  unfold ubcOcTree, np_array_int, np_array_float.
  intros (hdr & [Hhdr _]%rows_getitem_Ok_inv & Hr)%bind_Ok_inv.
  apply bind_Ok_inv in Hr as (ts & Hts & Hr).
  apply bind_Ok_inv in Hr as (ns & Hns%or_raise_Ok_inv & Hr).
  apply bind_Ok_inv in Hr as (a & Ha%getitem_Ok_inv & Hr).
  apply bind_Ok_inv in Hr as (b & Hb%getitem_Ok_inv & Hr).
  apply bind_Ok_inv in Hr as (c & Hc%getitem_Ok_inv & Hr).
  case_decide as Huniq; [done|].
  destruct ns as [|a' [|b' [|c' pad]]]; simplify_eq/=.
  assert (a = b ∧ b = c) as [-> ->].
  { destruct (decide (a = b ∧ b = c)) as [|Hne]; [done|].
    apply np_unique_size_1 in Hne. by destruct Huniq. }
  apply bind_Ok_inv in Hr as (l1 & _ & Hr).
  apply bind_Ok_inv in Hr as (t1 & _ & Hr).
  apply bind_Ok_inv in Hr as (oo & _ & Hr).
  apply bind_Ok_inv in Hr as (oe & _ & Hr).
  apply bind_Ok_inv in Hr as (on & _ & Hr).
  apply bind_Ok_inv in Hr as (oz & _ & Hr).
  apply bind_Ok_inv in Hr as (l2 & _ & Hr).
  apply bind_Ok_inv in Hr as (t2 & _ & Hr).
  apply bind_Ok_inv in Hr as (ww & _ & Hr).
  apply bind_Ok_inv in Hr as (we & _ & Hr).
  apply bind_Ok_inv in Hr as (wn & _ & Hr).
  apply bind_Ok_inv in Hr as (wz & _ & Hr).
  apply bind_Ok_inv in Hr as (l3 & [Hl3 _]%rows_getitem_Ok_inv & Hr).
  apply bind_Ok_inv in Hr as (t3 & _ & Hr).
  apply bind_Ok_inv in Hr as (numCells & _ & Hr).
  apply bind_Ok_inv in Hr as (indArr & Hind%or_raise_Ok_inv & Hr).
  injection Hr as <-.
  exists hdr, ts, c, pad, indArr. split_and!; try done.
  apply lookup_lt_Some in Hl3. lia.
Qed.

End PipelineProperties.

(** ** The layout of a 2D mesh file *)

Lemma getitem_Z_of_nat {A} (l : list A) (n : nat) :
  getitem_Z l (Z.of_nat n) = getitem l n.
Proof. unfold getitem_Z. rewrite decide_True by lia. by rewrite Nat2Z.id. Qed.

Section Layout.
Context `{TextNumerics}.

(** The passes of [_genTup] over the rows after the first one. *)
Lemma _genTup_rows lines (sft : nat) (rest : list (list string)) :
  ∀ a pds pts disc, 0 < a →
  (∀ k row, rest !! k = Some row →
     ∃ line, lines !! (a + k + sft) = Some line ∧ tokens line = Ok row) →
  mapM row_pair rest = Some pds →
  for_each ((λ k, 0 + Z.of_nat k)%Z <$> seq a (length rest))
    (λ i '(pts, disc),
      line ← getitem_Z lines (i + Z.of_nat sft);
      ln ← tokens line;
      '(pts, ln) ← (if decide (i = 0)%Z
                    then o ← getitem ln 0;
                         l1 ← getitem ln 1;
                         l2 ← getitem ln 2;
                         Ok (pts ++ [o], [l1; l2])
                    else Ok (pts, ln));
      p ← getitem ln 0;
      d ← getitem ln 1;
      Ok (pts ++ [p], disc ++ [d])) (pts, disc)
  = Ok (pts ++ pds.*1, disc ++ pds.*2).
Proof.
  induction rest as [|row rest IH]; intros a pds pts disc Ha Hrows Hpds.
  - injection Hpds as <-. simpl. by rewrite !app_nil_r.
  - apply mapM_Some in Hpds. apply Forall2_cons_inv_l in Hpds
      as ([p d] & pds' & Hrow & Hpds' & ->).
    destruct (Hrows 0 row eq_refl) as (line & Hline & Htok).
    cbn [length seq fmap list_fmap for_each].
    replace (0 + Z.of_nat a + Z.of_nat sft)%Z with (Z.of_nat (a + 0 + sft))
      by lia.
    rewrite getitem_Z_of_nat, (getitem_Some _ _ _ Hline), bind_Ok.
    rewrite Htok, bind_Ok.
    rewrite decide_False by lia. rewrite bind_Ok.
    destruct row as [|p' [|d' row]]; simplify_eq/=.
    rewrite (IH (S a) pds' (pts ++ [p]) (disc ++ [d])).
    + by rewrite <- !app_assoc.
    + lia.
    + intros k row' Hk. destruct (Hrows (S k) row' Hk) as (l & Hl & Ht).
      exists l. split; [|done]. rewrite <- Hl. f_equal. lia.
    + by apply mapM_Some.
Qed.

Lemma _genTup_block lines (sft : nat) rows pts disc :
  (∀ k row, rows !! k = Some row →
     ∃ line, lines !! (k + sft) = Some line ∧ tokens line = Ok row) →
  block_points rows = Some (pts, disc) →
  _genTup lines (Z.of_nat sft) (Z.of_nat (length rows)) = Ok (pts, disc).
Proof.
  intros Hrows Hblock. unfold _genTup, range_Z.
  replace (Z.to_nat (Z.of_nat (length rows) - 0)) with (length rows) by lia.
  destruct rows as [|row0 rest]; [by injection Hblock as <- <-|].
  destruct row0 as [|o first]; [done|]. simpl in Hblock.
  destruct (row_pair first) as [[p d]|] eqn:Hfirst; [|done].
  destruct (mapM row_pair rest) as [pds|] eqn:Hpds; [|done].
  injection Hblock as <- <-.
  destruct first as [|p' [|d' first]]; simplify_eq/=.
  destruct (Hrows 0 _ eq_refl) as (line & Hline & Htok).
  cbn [length seq fmap list_fmap for_each].
  match goal with |- context [getitem_Z lines ?z] =>
    replace z with (Z.of_nat (0 + sft)) by lia end.
  rewrite getitem_Z_of_nat, (getitem_Some _ _ _ Hline), bind_Ok.
  rewrite Htok, bind_Ok. simpl.
  rewrite <- fmap_S_seq, <- list_fmap_compose.
  pose proof (_genTup_rows lines sft rest 1 pds [o; p] [d] ltac:(lia)) as Hrest.
  rewrite <- fmap_S_seq, <- list_fmap_compose in Hrest.
  apply Hrest; [|done].
  intros k row Hk. destruct (Hrows (S k) row Hk) as (l & Hl & Ht).
  exists l. split; [|done]. rewrite <- Hl. f_equal.
Qed.

(** X18: [_ubcMesh2D_part] reads a 2D mesh file by position: line 0 holds
    the number [nx] of rows of the X dimension, the [nx] lines after it the
    rows, the next line the number [nz] and the [nz] lines after that the rows
    of the Z dimension. The first row of a dimension gives its origin, a
    control point and a subdivision count, every other row a control point
    and a count; tokens after these and lines after the last row are not
    read. *)
Theorem ubcMesh2D_part_layout lines l0 s0 xrows l1 s1 zrows
    xpts xdisc zpts zdisc :
  lines !! 0 = Some l0 → before_comment l0 = Ok s0 →
  py_int s0 = Some (Z.of_nat (length xrows)) →
  (∀ k row, xrows !! k = Some row →
     ∃ line, lines !! (k + 1) = Some line ∧ tokens line = Ok row) →
  lines !! (length xrows + 1) = Some l1 → before_comment l1 = Ok s1 →
  py_int s1 = Some (Z.of_nat (length zrows)) →
  (∀ k row, zrows !! k = Some row →
     ∃ line, lines !! (k + (2 + length xrows)) = Some line
             ∧ tokens line = Ok row) →
  block_points xrows = Some (xpts, xdisc) →
  block_points zrows = Some (zpts, zdisc) →
  _ubcMesh2D_part lines = Ok (xpts, xdisc, zpts, zdisc).
Proof.
  intros Hl0 Hs0 Hnx Hxrows Hl1 Hs1 Hnz Hzrows Hxb Hzb.
  unfold _ubcMesh2D_part.
  rewrite (getitem_Some _ _ _ Hl0), bind_Ok, Hs0, bind_Ok.
  rewrite (int_of_str_Some _ _ Hnx), bind_Ok.
  replace (Z.of_nat (length xrows) + 1)%Z
    with (Z.of_nat (length xrows + 1)) by lia.
  rewrite getitem_Z_of_nat, (getitem_Some _ _ _ Hl1), bind_Ok, Hs1, bind_Ok.
  rewrite (int_of_str_Some _ _ Hnz), bind_Ok.
  pose proof (_genTup_block lines 1 xrows xpts xdisc Hxrows Hxb) as Hx.
  change (Z.of_nat 1) with 1%Z in Hx. rewrite Hx, bind_Ok.
  replace (2 + Z.of_nat (length xrows))%Z
    with (Z.of_nat (2 + length xrows)) by lia.
  by rewrite (_genTup_block lines (2 + length xrows) zrows zpts zdisc
                Hzrows Hzb).
Qed.

End Layout.

Lemma ubcMesh2D_part_layout_witness :
  _ubcMesh2D_part ["2! x"; "0 10 2"; "20 4 extra"; "1"; "0 5 5"; "more"]
  = Ok (["0"; "10"; "20"], ["2"; "4"], ["0"; "5"], ["5"]).
Proof.
  refine (@ubcMesh2D_part_layout decimal_numerics
            ["2! x"; "0 10 2"; "20 4 extra"; "1"; "0 5 5"; "more"]
            "2! x" "2" [["0"; "10"; "2"]; ["20"; "4"; "extra"]]
            "1" "1" [["0"; "5"; "5"]] _ _ _ _
            eq_refl eq_refl eq_refl _ eq_refl eq_refl eq_refl _
            eq_refl eq_refl).
  - intros [|[|k]] row Hk; simplify_eq/=; by eexists.
  - intros [|k] row Hk; simplify_eq/=; by eexists.
Defined.

(** ** The further properties on concrete files *)

Lemma ubcExtent2D_versus_mesh_witness :
  ∃ x z, (0, 3, 0, 1, 0, 2)%Z = (0, x, 0, 1, 0, z)%Z
         ∧ ubcExtent2D ["2"; "0 10 1"; "20 2"; "1"; "0 5 2"]
           = Ok (0, x + 1, 0, 1, 0, z + 1)%Z
         ∧ [0%float] = [0%float]
         ∧ @nil (string * list float) = [].
Proof.
  exact (@ubcExtent2D_versus_mesh decimal_numerics
           ["2"; "0 10 1"; "20 2"; "1"; "0 5 2"] None
           (RectilinearGrid (0, 3, 0, 1, 0, 2)%Z [0; 10; 15; 20]%float
              [0]%float [0; 2.5; 5]%float [])
           eq_refl).
Defined.

Lemma ubcMesh2D_node_counts_witness :
  ∃ g, ubcMesh2D ["2"; "0 10 1"; "20 2"; "1"; "0 5 2"] None = Ok g
       ∧ Extent g = (0, Z.of_nat (length (XCoordinates g)) - 1, 0, 1,
                     0, Z.of_nat (length (ZCoordinates g)) - 1)%Z.
Proof.
  exact (@ubcMesh2D_node_counts decimal_numerics
           ["2"; "0 10 1"; "20 2"; "1"; "0 5 2"] None
           ["0"; "10"; "20"] ["1"; "2"] ["0"; "5"] ["2"]
           0%float [10; 20]%float [1; 2]%Z 0%float [5]%float [2]%Z
           eq_refl eq_refl eq_refl eq_refl
           (bool_decide_unpack (Forall (λ n, 1 ≤ n)%Z [1; 2]%Z) I)
           eq_refl eq_refl eq_refl
           (bool_decide_unpack (Forall (λ n, 1 ≤ n)%Z [2]%Z) I)
           eq_refl eq_refl).
Defined.

Lemma genCoords_zero_count_witness :
  _genCoords ["0"; "10"; "20"; "30"] ["2"; "0"; "3"]
  = Raise ZeroDivisionError.
Proof.
  refine (@genCoords_zero_count decimal_numerics
            ["0"; "10"; "20"; "30"] ["2"; "0"; "3"]
            [0; 10; 20; 30]%float [2; 0; 3]%Z 1
            eq_refl eq_refl eq_refl eq_refl _).
  intros [|j] Hj; [simpl; congruence|lia].
Defined.


Lemma ubcMeshData2D_cells_witness :
  ∃ c, ubcMeshData2D ["2"; "0 10 1"; "20 2"; "1"; "0 5 2"]
         "/data/site.con" ["3 2"; "1 2 3"; "4 5 6"] "" None
       = Ok (AddArray
               (RectilinearGrid (0, 3, 0, 1, 0, 2)%Z [0; 10; 15; 20]%float
                  [0]%float [0; 2.5; 5]%float [])
               "site.con" c)
       ∧ length c = 3 * 2
       ∧ ∀ i k, i < 3 → k < 2 →
           c !! (k * 3 + i)
           = Some (item (NDArray [1; 2; 3; 4; 5; 6]%float [2; 3] [3; 1])
                     [k; i]).
Proof.
  exact (@ubcMeshData2D_cells decimal_numerics
           ["2"; "0 10 1"; "20 2"; "1"; "0 5 2"]
           "/data/site.con" ["3 2"; "1 2 3"; "4 5 6"] "" None
           (RectilinearGrid (0, 3, 0, 1, 0, 2)%Z [0; 10; 15; 20]%float
              [0]%float [0; 2.5; 5]%float [])
           3 2 "3 2" 3%Z 2%Z []
           (NDArray [1; 2; 3; 4; 5; 6]%float [2; 3] [3; 1])
           eq_refl eq_refl eq_refl eq_refl eq_refl eq_refl
           (or_introl eq_refl)).
Defined.

Lemma ubcMeshData2D_returns_witness :
  ∃ mesh model c x z,
    ubcMesh2D ["2"; "0 10 1"; "20 2"; "1"; "0 5 2"]
      (Some (RectilinearGrid (0, 0, 0, 0, 0, 0)%Z [] [] []
               [("values", [0]%float); ("depth", [8]%float)])) = Ok mesh
    ∧ ubcModel2D "/data/site.con" ["3 2"; "1 2 3"; "4 5 6"] = Ok model
    ∧ Extent mesh = (0, x, 0, 1, 0, z)%Z ∧ (0 ≤ x)%Z ∧ (0 ≤ z)%Z
    ∧ RectilinearGrid (0, 3, 0, 1, 0, 2)%Z [0; 10; 15; 20]%float
        [0]%float [0; 2.5; 5]%float
        [("values", [1; 2; 3; 4; 5; 6]%float); ("depth", [8]%float)]
      = AddArray mesh "values" c
    ∧ c ≡ₚ model ∧ Z.of_nat (length c) = (x * z)%Z
    ∧ Some [1; 2; 3; 4; 5; 6]%float = Some c
    ∧ ∀ name, name ≠ "values" →
        GetArray
          (RectilinearGrid (0, 3, 0, 1, 0, 2)%Z [0; 10; 15; 20]%float
             [0]%float [0; 2.5; 5]%float
             [("values", [1; 2; 3; 4; 5; 6]%float); ("depth", [8]%float)])
          name
        = GetArray
            (RectilinearGrid (0, 0, 0, 0, 0, 0)%Z [] [] []
               [("values", [0]%float); ("depth", [8]%float)]) name.
Proof.
  exact (@ubcMeshData2D_returns decimal_numerics
           ["2"; "0 10 1"; "20 2"; "1"; "0 5 2"]
           "/data/site.con" ["3 2"; "1 2 3"; "4 5 6"] "values"
           (Some (RectilinearGrid (0, 0, 0, 0, 0, 0)%Z [] [] []
                    [("values", [0]%float); ("depth", [8]%float)]))
           (RectilinearGrid (0, 3, 0, 1, 0, 2)%Z [0; 10; 15; 20]%float
              [0]%float [0; 2.5; 5]%float
              [("values", [1; 2; 3; 4; 5; 6]%float); ("depth", [8]%float)])
           eq_refl).
Defined.

Lemma ubcMesh3D_then_place_witness :
  let g := RectilinearGrid (0, 2, 0, 1, 0, 2)%Z [0; 1; 2]%float [0; 4]%float
             [0; 1; 1.5]%float [] in
  let model := [1; 2; 3; 4]%float in
  ∃ (n0 n1 n2 : nat) hdr ts extra,
    ["2 1 2"; "0 0 0"; "2*1.0"; "4"; "1 0.5"] !! 0 = Some hdr
    ∧ tokens hdr = Ok ts
    ∧ mapM np_int ts
      = Some (Z.of_nat n0 :: Z.of_nat n1 :: Z.of_nat n2 :: extra)
    ∧ Extent g = (0, Z.of_nat n0, 0, Z.of_nat n1, 0, Z.of_nat n2)%Z
    ∧ (length model = n0 * n1 * n2 →
       placeModelOnMesh g model "Data"
       = Ok (AddArray g "Data" (cell_order_transform n0 n1 n2 model)))
    ∧ (n0 * n1 * n2 < length model →
       placeModelOnMesh g model "Data" = Raise (Exception msg_more_data))
    ∧ (length model < n0 * n1 * n2 →
       placeModelOnMesh g model "Data" = Raise (Exception msg_not_enough)).
Proof.
  exact (@ubcMesh3D_then_place decimal_numerics
           ["2 1 2"; "0 0 0"; "2*1.0"; "4"; "1 0.5"] None
           (RectilinearGrid (0, 2, 0, 1, 0, 2)%Z [0; 1; 2]%float
              [0; 4]%float [0; 1; 1.5]%float [])
           [1; 2; 3; 4]%float "Data" eq_refl).
Defined.

Lemma ubcOcTree_returns_witness :
  ∃ hdr ts n pad indArr,
    ["4 4 4 1 1 1"; "0 0 0"; "1 1 1"; "2"; "1 1 1 4"; "1 1 5 4"] !! 0
    = Some hdr
    ∧ tokens hdr = Ok ts
    ∧ mapM np_int ts = Some (n :: n :: n :: pad)
    ∧ 4 ≤ length ["4 4 4 1 1 1"; "0 0 0"; "1 1 1"; "2"; "1 1 1 4"; "1 1 5 4"]
    ∧ genfromtxt_int
        (drop 4 ["4 4 4 1 1 1"; "0 0 0"; "1 1 1"; "2"; "1 1 1 4"; "1 1 5 4"])
      = Some indArr
    ∧ [PrintStr "This reader is not fully implemented yet";
       PrintArray (NDArray [1; 1; 1; 4; 1; 1; 5; 4]%Z [2; 4] [4; 1])]
      = [PrintStr "This reader is not fully implemented yet";
         PrintArray indArr].
Proof.
  exact (@ubcOcTree_returns decimal_numerics
           ["4 4 4 1 1 1"; "0 0 0"; "1 1 1"; "2"; "1 1 1 4"; "1 1 5 4"]
           [PrintStr "This reader is not fully implemented yet";
            PrintArray (NDArray [1; 1; 1; 4; 1; 1; 5; 4]%Z [2; 4] [4; 1])]
           eq_refl).
Defined.
